(** * Session timing and task sequencing engine

  A shallow embedding of the study runner's client bundle and of the
  spreadsheet aggregator:
  - [Sequencer]: [hashCode], [mulberry32], [shuffleWithSeed],
    [ensureDemographicsLast];
  - [Objects]: the same functions over a heap of objects, where an
    array and the closure of [mulberry32] are reached through references;
  - [Timer]: the object built by [createTimer];
  - [Store]: [generateCode], [createNewSession], [saveState],
    [resumeSession], [completeTask];
  - [Aggregator]: [computeSessionWindowMs_], [updateTotalTime] of the
    spreadsheet script;
  - [Study]: [checkSavedSession], [pauseStudy], [resumeStudy],
    [saveAndExit], [markComplete];
  - [Completion]: [normalizeTaskName_], [getRequiredTasksForSession_],
    [updateCompletedTasksCount] of the spreadsheet script;
  - [Departure]: the heartbeat and the blur and focus listeners.

  Numbers.  Every JavaScript number that the modelled code manipulates is
  an integer of magnitude far below 2^53 (millisecond clock readings, their
  sums and differences, 32-bit hashes), so additions, subtractions and
  comparisons of binary64 values are exact and are written over [Z].  The
  places where binary64 rounding is visible ([getSummary]'s scaling, the
  product [Math.random() * 36]) are computed with the Standard Library's
  executable IEEE-754 specification [SpecFloat]. *)

From Stdlib Require Import ZArith String Ascii List Lia Bool.
From Stdlib Require Import Floats.SpecFloat.
From stdpp Require Import base list strings gmap pretty.

Local Open Scope Z_scope.

(** ** 32-bit integer operators of JavaScript *)

Module Int32.

(** [ToInt32]: reduce modulo 2^32 into [-2^31, 2^31). *)
Definition toInt32 (z : Z) : Z := (z + 2 ^ 31) mod 2 ^ 32 - 2 ^ 31.

(** [ToUint32]: reduce modulo 2^32 into [0, 2^32). *)
Definition toUint32 (z : Z) : Z := z mod 2 ^ 32.

(** [x | y] *)
Definition or (x y : Z) : Z := toInt32 (Z.lor (toInt32 x) (toInt32 y)).

(** [x ^ y] *)
Definition xor (x y : Z) : Z := toInt32 (Z.lxor (toInt32 x) (toInt32 y)).

(** [x << n], the shift count taken modulo 32 *)
Definition shl (x n : Z) : Z := toInt32 (Z.shiftl (toInt32 x) (n mod 32)).

(** [x >>> n], an unsigned result *)
Definition ushr (x n : Z) : Z := Z.shiftr (toUint32 x) (n mod 32).

(** [Math.imul(x, y)] *)
Definition imul (x y : Z) : Z := toInt32 (toInt32 x * toInt32 y).

End Int32.

(** ** Deterministic sequencer *)

Module Sequencer.

Import Int32.

Definition DEMO : string := "DEMO".
Definition DESKTOP_TASKS : list string := ["RC"; "MRT"; "ASLCT"; "VCN"; "SN"; "ID"]%string.
Definition MOBILE_TASKS : list string := ["RC"; "MRT"; "ASLCT"; "SN"; "ID"]%string.

(** [str.charCodeAt(i)] for the 8-bit characters of a [string]. *)
Definition charCode (c : ascii) : Z := Z.of_N (N_of_ascii c).

(** One round of [hashCode]'s loop body:
    [hash = (hash << 5) - hash + c; hash |= 0]. *)
Definition hashStep (hash : Z) (c : ascii) : Z :=
  or (shl hash 5 - hash + charCode c) 0.

(** [hashCode(str)]: the loop over the code units of [str], from
    [hash = 0]. *)
Definition hashCode (str : string) : Z :=
  fold_left hashStep (list_ascii_of_string str) 0.

(** The closure returned by [mulberry32(a)] owns the captured variable
    [a]; a call maps the captured value to its new value and to the
    result.  The result is [u / 4294967296] for the unsigned 32-bit [u]
    returned here; that quotient is exact in binary64. *)
Definition mulberry32 (a : Z) : Z * Z :=
  let a := or a 0 in
  let a := or (a + 1831565813) 0 in
  let t := imul (xor a (ushr a 15)) (or 1 a) in
  let t := xor t (t + imul (xor t (ushr t 7)) (or 61 t)) in
  (a, ushr (xor t (ushr t 14)) 0).

(** [Math.floor(rng() * (i + 1))] where [rng()] is [u / 2^32].  The
    product is exact in binary64 whenever [u * (i + 1) < 2^53]. *)
Definition pick (u : Z) (i : nat) : nat :=
  Z.to_nat (u * Z.of_nat (i + 1) / 2 ^ 32).

(** [[a[i], a[j]] = [a[j], a[i]]]: both reads happen before the writes. *)
Definition swap {A} (a : list A) (i j : nat) : list A :=
  match a !! i, a !! j with
  | Some ai, Some aj => <[j:=ai]> (<[i:=aj]> a)
  | _, _ => a
  end.

(** The loop [for (let i = a.length - 1; i > 0; i--)], entered with the
    loop variable equal to the first argument. *)
Fixpoint shuffleLoop {A} (i : nat) (rng : Z) (a : list A) : list A :=
  match i with
  | O => a
  | S i' =>
      let '(rng', u) := mulberry32 rng in
      shuffleLoop i' rng' (swap a i (pick u i))
  end.

Definition shuffleWithSeed {A} (array : list A) (seed : Z) : list A :=
  shuffleLoop (length array - 1) seed array.

(** [(sequence || []).filter(code => code !== 'DEMO')] followed by
    [push('DEMO')]; an array is never falsy, so [sequence || []] is
    [sequence]. *)
Definition ensureDemographicsLast (sequence : list string) : list string :=
  filter (fun code => code <> DEMO) sequence ++ [DEMO].

Definition deviceTasks (isMobile : bool) : list string :=
  if isMobile then MOBILE_TASKS else DESKTOP_TASKS.

(** The seed and sequence computed by [createNewSession]. *)
Definition sessionSeed (sessionCode : string) : Z := Z.abs (hashCode sessionCode).

Definition buildSequence (isMobile : bool) (seed : Z) : list string :=
  ensureDemographicsLast (shuffleWithSeed (deviceTasks isMobile) seed).

End Sequencer.

(** ** The sequencer over a heap of objects *)

Module Objects.

Import Int32 Sequencer.

(** A JavaScript array is an object: a variable holds a reference to
    it, and [a[i] = v] and [a.push(v)] write through the reference.  The
    function returned by [mulberry32(a)] is an object too: it carries the
    captured variable [a], which every call of the function updates.  The
    heap lists the objects allocated so far, and a reference is a
    position in it. *)
Inductive object :=
| Array (elements : list string)
| Closure (a : Z).

Definition ref := nat.
Definition heap := list object.

Definition contents (h : heap) (r : ref) : list string :=
  match h !! r with
  | Some (Array elements) => elements
  | _ => []
  end.

Definition captured (h : heap) (r : ref) : Z :=
  match h !! r with
  | Some (Closure a) => a
  | _ => 0
  end.

(** The constants [DESKTOP_TASKS] and [MOBILE_TASKS] are allocated when
    the bundle is loaded: they are the first two objects of every heap of
    the page. *)
Definition desktopTasks : ref := 0%nat.
Definition mobileTasks : ref := 1%nat.
Definition globals : heap := [Array DESKTOP_TASKS; Array MOBILE_TASKS].

(** [mulberry32(a)]: a new closure that has captured [a]. *)
Definition mulberry32At (a : Z) (h : heap) : ref * heap :=
  (length h, h ++ [Closure a]).

(** [rng()]: the body of the closure, run on its captured variable. *)
Definition call (rng : ref) (h : heap) : Z * heap :=
  let '(a, u) := mulberry32 (captured h rng) in
  (u, <[rng := Closure a]> h).

(** [array.slice()]: a new array with the elements of [array]. *)
Definition slice (array : ref) (h : heap) : ref * heap :=
  (length h, h ++ [Array (contents h array)]).

(** [[a[i], a[j]] = [a[j], a[i]]], written to the array behind [a]. *)
Definition swapAt (a : ref) (i j : nat) (h : heap) : heap :=
  <[a := Array (swap (contents h a) i j)]> h.

(** The loop of [shuffleWithSeed], entered with the loop variable equal
    to the first argument. *)
Fixpoint shuffleLoopAt (i : nat) (rng a : ref) (h : heap) : heap :=
  match i with
  | O => h
  | S i' =>
      let '(u, h) := call rng h in
      shuffleLoopAt i' rng a (swapAt a i (pick u i) h)
  end.

(** [shuffleWithSeed(array, seed)] returns the reference [a]. *)
Definition shuffleWithSeedAt (array : ref) (seed : Z) (h : heap) : ref * heap :=
  let '(rng, h) := mulberry32At seed h in
  let '(a, h) := slice array h in
  (a, shuffleLoopAt (length (contents h a) - 1) rng a h).

(** [ensureDemographicsLast(sequence)]: [filter] allocates the array
    [filtered], [push] writes to it. *)
Definition ensureDemographicsLastAt (sequence : ref) (h : heap) : ref * heap :=
  let filtered := length h in
  let h := h ++ [Array (filter (fun code => code <> DEMO) (contents h sequence))] in
  (filtered, <[filtered := Array (contents h filtered ++ [DEMO])]> h).

(** The lines of [createNewSession] from [const seed = ...] to
    [state.sequence = ensureDemographicsLast(state.sequence)]: the seed,
    the reference stored in [state.sequence], and the heap they leave. *)
Definition generateSequence (isMobile : bool) (sessionCode : string) (h : heap)
    : Z * ref * heap :=
  let seed := Z.abs (hashCode sessionCode) in
  let '(sequence, h) :=
    shuffleWithSeedAt (if isMobile then mobileTasks else desktopTasks) seed h in
  let '(sequence, h) := ensureDemographicsLastAt sequence h in
  (seed, sequence, h).

End Objects.


(** ** Binary64 values where rounding is visible *)

Module Float64.

Definition prec : Z := 53.
Definition emax : Z := 1024.

(** The binary64 value of an integer (exact below 2^53). *)
Definition ofZ (z : Z) : spec_float := binary_normalize prec emax z 0 false.

Definition mul : spec_float -> spec_float -> spec_float := SFmul prec emax.
Definition div : spec_float -> spec_float -> spec_float := SFdiv prec emax.

Definition signed (s : bool) (m : positive) : Z := if s then Z.neg m else Z.pos m.

(** [Math.floor(x)] for a finite [x = ±m·2^e]; NaN and the infinities,
    which [Math.floor] returns unchanged, are sent to 0 here. *)
Definition floor (x : spec_float) : Z :=
  match x with
  | S754_finite s m e =>
      if 0 <=? e then signed s m * 2 ^ e else signed s m / 2 ^ (- e)
  | _ => 0
  end.

(** [Math.round(x)]: the integer nearest to [x], ties towards +∞, that
    is ⌊x + 1/2⌋ computed exactly; NaN and the infinities are sent to 0. *)
Definition round (x : spec_float) : Z :=
  match x with
  | S754_finite s m e =>
      if 0 <=? e then signed s m * 2 ^ e
      else (2 * signed s m + 2 ^ (- e)) / 2 ^ (- e + 1)
  | _ => 0
  end.

(** [0 <= x < 1] for a well-formed binary64 [x]: the range of
    [Math.random()]. *)
Definition unitInterval (x : spec_float) : bool :=
  valid_binary prec emax x &&
  match x with
  | S754_zero _ => true
  | S754_finite false _ _ => SFltb x (ofZ 1)
  | _ => false
  end.

End Float64.


(** ** Timer state machine: the object returned by [createTimer] *)

Module Timer.

(** The data properties of the timer object.  [null] is [None].  The
    [onInactivity] property holds a callback and is passed to [tick] as an
    argument instead of being stored. *)
Record timer := mkTimer {
  startTime : option Z;
  endTime : option Z;
  activeTime : Z;
  lastActivity : Z;
  isPaused : bool;
  pauseReason : option string;
  pauseCount : Z;
  inactivityTime : Z;
  pausedTime : Z;
  pauseStart : option Z;
  lastTick : Z;
  intervalId : option Z;
  externalTime : Z
}.

Definition createTimer : timer :=
  {| startTime := None; endTime := None; activeTime := 0; lastActivity := 0;
     isPaused := false; pauseReason := None; pauseCount := 0;
     inactivityTime := 0; pausedTime := 0; pauseStart := None; lastTick := 0;
     intervalId := None; externalTime := 0 |}.

(** Truthiness of a property holding [null] or a number. *)
Definition truthy (v : option Z) : bool :=
  match v with
  | Some z => negb (z =? 0)
  | None => false
  end.

(** [ToNumber]: [null] counts as 0 in arithmetic. *)
Definition num (v : option Z) : Z := default 0 v.

Definition isReason (r : string) (t : timer) : bool :=
  match pauseReason t with
  | Some r' => String.eqb r' r
  | None => false
  end.

(** [start()].  [t1], [t2], [t3] are the three successive readings of
    [Date.now()] and [id] the handle returned by [setInterval]. *)
Definition start (t1 t2 t3 id : Z) (t : timer) : timer :=
  {| startTime := Some t1; endTime := endTime t; activeTime := 0;
     lastActivity := t2; isPaused := false; pauseReason := pauseReason t;
     pauseCount := 0; inactivityTime := 0; pausedTime := 0;
     pauseStart := None; lastTick := t3; intervalId := Some id;
     externalTime := externalTime t |}.

(** [pause(reason)], reading the clock as [now]. *)
Definition pause (reason : string) (now : Z) (t : timer) : timer :=
  if negb (isPaused t) then
    {| startTime := startTime t; endTime := endTime t;
       activeTime := activeTime t; lastActivity := lastActivity t;
       isPaused := true; pauseReason := Some reason;
       pauseCount := pauseCount t + 1; inactivityTime := inactivityTime t;
       pausedTime := pausedTime t; pauseStart := Some now;
       lastTick := lastTick t; intervalId := intervalId t;
       externalTime := externalTime t |}
  else t.

(** [resume()].  [t1] is the reading used for the manual pause duration
    (taken only on that branch), [t2] and [t3] the two that follow. *)
Definition resume (t1 t2 t3 : Z) (t : timer) : timer :=
  if isPaused t then
    {| startTime := startTime t; endTime := endTime t;
       activeTime := activeTime t; lastActivity := t2;
       isPaused := false; pauseReason := None;
       pauseCount := pauseCount t; inactivityTime := inactivityTime t;
       pausedTime :=
         (if isReason "manual" t && truthy (pauseStart t)
          then pausedTime t + (t1 - num (pauseStart t))
          else pausedTime t);
       pauseStart := pauseStart t; lastTick := t3;
       intervalId := intervalId t; externalTime := externalTime t |}
  else t.

Definition setLastActivity (v : Z) (t : timer) : timer :=
  {| startTime := startTime t; endTime := endTime t;
     activeTime := activeTime t; lastActivity := v;
     isPaused := isPaused t; pauseReason := pauseReason t;
     pauseCount := pauseCount t; inactivityTime := inactivityTime t;
     pausedTime := pausedTime t; pauseStart := pauseStart t;
     lastTick := lastTick t; intervalId := intervalId t;
     externalTime := externalTime t |}.

Definition setLastTick (v : Z) (t : timer) : timer :=
  {| startTime := startTime t; endTime := endTime t;
     activeTime := activeTime t; lastActivity := lastActivity t;
     isPaused := isPaused t; pauseReason := pauseReason t;
     pauseCount := pauseCount t; inactivityTime := inactivityTime t;
     pausedTime := pausedTime t; pauseStart := pauseStart t;
     lastTick := v; intervalId := intervalId t;
     externalTime := externalTime t |}.

Definition addActive (d : Z) (t : timer) : timer :=
  {| startTime := startTime t; endTime := endTime t;
     activeTime := activeTime t + d; lastActivity := lastActivity t;
     isPaused := isPaused t; pauseReason := pauseReason t;
     pauseCount := pauseCount t; inactivityTime := inactivityTime t;
     pausedTime := pausedTime t; pauseStart := pauseStart t;
     lastTick := lastTick t; intervalId := intervalId t;
     externalTime := externalTime t |}.

Definition addInactive (d : Z) (t : timer) : timer :=
  {| startTime := startTime t; endTime := endTime t;
     activeTime := activeTime t; lastActivity := lastActivity t;
     isPaused := isPaused t; pauseReason := pauseReason t;
     pauseCount := pauseCount t; inactivityTime := inactivityTime t + d;
     pausedTime := pausedTime t; pauseStart := pauseStart t;
     lastTick := lastTick t; intervalId := intervalId t;
     externalTime := externalTime t |}.

(** [recordActivity()].  [t0] is its own reading of the clock; [t1],
    [t2], [t3] are those of the nested [resume()]. *)
Definition recordActivity (t0 t1 t2 t3 : Z) (t : timer) : timer :=
  let t := setLastActivity t0 t in
  if isPaused t && isReason "inactivity" t then resume t1 t2 t3 t else t.

(** What [showInactivityPrompt] does to the timer it is called on: when
    the participant confirms, [resume()] then [recordActivity()]. *)
Inductive prompt :=
| Declined
| Confirmed (r1 r2 r3 a0 a1 a2 a3 : Z).

Definition showInactivityPrompt (p : prompt) (t : timer) : timer :=
  match p with
  | Declined => t
  | Confirmed r1 r2 r3 a0 a1 a2 a3 =>
      recordActivity a0 a1 a2 a3 (resume r1 r2 r3 t)
  end.

(** [tick()].  [hidden] is [document.hidden], [now] the reading taken on
    entry, [tp] the reading taken by the nested [pause], and
    [onInactivity] the callback property ([None] when it is [null]). *)
Definition tick (onInactivity : option prompt) (hidden : bool) (now tp : Z)
    (t : timer) : timer :=
  let t' :=
    if negb hidden && negb (isPaused t) then
      let timeSinceLastActivity := now - lastActivity t in
      let timeSinceTick := now - lastTick t in
      if timeSinceLastActivity >? 120000 then
        let t1 := pause "inactivity" tp t in
        match onInactivity with
        | Some p => showInactivityPrompt p t1
        | None => t1
        end
      else if timeSinceLastActivity <? 5000 then addActive timeSinceTick t
      else addInactive timeSinceTick t
    else if isPaused t && isReason "inactivity" t then
      addInactive (now - lastTick t) t
    else t in
  setLastTick now t'.

(** [stop()].  [clearInterval] acts on the scheduler, not on the object.
    [t1] is the reading used to flush an open manual pause, [t2] the one
    stored in [endTime]. *)
Definition stop (t1 t2 : Z) (t : timer) : timer :=
  {| startTime := startTime t; endTime := Some t2;
     activeTime := activeTime t; lastActivity := lastActivity t;
     isPaused := isPaused t; pauseReason := pauseReason t;
     pauseCount := pauseCount t; inactivityTime := inactivityTime t;
     pausedTime :=
       (if isPaused t && truthy (pauseStart t) && isReason "manual" t
        then pausedTime t + (t1 - num (pauseStart t))
        else pausedTime t);
     pauseStart := pauseStart t; lastTick := lastTick t;
     intervalId := intervalId t; externalTime := externalTime t |}.

(** The object returned by [getSummary()].  [sStart] and [sEnd] hold the
    instants that the source renders with [toISOString()]. *)
Record summary := mkSummary {
  sStart : Z;
  sEnd : Z;
  elapsed : Z;
  active : Z;
  sPauseCount : Z;
  paused : Z;
  inactive : Z;
  activity : spec_float
}.

(** [this.endTime || Date.now()] *)
Definition endOr (now : Z) (t : timer) : Z :=
  if truthy (endTime t) then num (endTime t) else now.

(** [getSummary()].  [now1] is the reading used for [elapsed], [now2] the
    one used for the [end] property. *)
Definition getSummary (now1 now2 : Z) (t : timer) : summary :=
  let elapsed := endOr now1 t - num (startTime t) in
  let active := Z.min (activeTime t) elapsed in
  let paused := Z.min (pausedTime t) elapsed in
  let inactive := Z.min (inactivityTime t) elapsed in
  let total := active + paused + inactive in
  if total >? elapsed then
    let scale := Float64.div (Float64.ofZ elapsed) (Float64.ofZ total) in
    {| sStart := num (startTime t); sEnd := endOr now2 t;
       elapsed := elapsed;
       active := Float64.round (Float64.mul (Float64.ofZ active) scale);
       sPauseCount := pauseCount t;
       paused := Float64.round (Float64.mul (Float64.ofZ paused) scale);
       inactive := Float64.round (Float64.mul (Float64.ofZ inactive) scale);
       activity :=
         Float64.mul (Float64.div (Float64.ofZ active) (Float64.ofZ elapsed))
           (Float64.ofZ 100) |}
  else
    {| sStart := num (startTime t); sEnd := endOr now2 t;
       elapsed := elapsed; active := active; sPauseCount := pauseCount t;
       paused := paused; inactive := inactive;
       activity :=
         (if elapsed >? 0
          then Float64.mul (Float64.div (Float64.ofZ active) (Float64.ofZ elapsed))
                 (Float64.ofZ 100)
          else Float64.ofZ 0) |}.

(** Calls made on a timer by the page: the interval, the input and
    visibility listeners, and the session functions. *)
Inductive call :=
| Start (t1 t2 t3 id : Z)
| Tick (onInactivity : option prompt) (hidden : bool) (now tp : Z)
| RecordActivity (t0 t1 t2 t3 : Z)
| Pause (reason : string) (now : Z)
| Resume (t1 t2 t3 : Z)
| Stop (t1 t2 : Z).

Definition step (t : timer) (c : call) : timer :=
  match c with
  | Start t1 t2 t3 id => start t1 t2 t3 id t
  | Tick cb hidden now tp => tick cb hidden now tp t
  | RecordActivity t0 t1 t2 t3 => recordActivity t0 t1 t2 t3 t
  | Pause reason now => pause reason now t
  | Resume t1 t2 t3 => resume t1 t2 t3 t
  | Stop t1 t2 => stop t1 t2 t
  end.

Definition run (t : timer) (cs : list call) : timer := fold_left step cs t.

(** Calls other than [start()] and [stop()]. *)
Definition isMutator (c : call) : bool :=
  match c with
  | Start _ _ _ _ | Stop _ _ => false
  | _ => true
  end.

End Timer.


(** ** String helpers of the session store *)

Module Text.

Definition codeUnit (c : ascii) : N := N_of_ascii c.

Definition isUpper (c : ascii) : bool := ((65 <=? codeUnit c) && (codeUnit c <=? 90))%N.
Definition isLower (c : ascii) : bool := ((97 <=? codeUnit c) && (codeUnit c <=? 122))%N.
Definition isDigit (c : ascii) : bool := ((48 <=? codeUnit c) && (codeUnit c <=? 57))%N.

(** White space removed by [trim()], among 8-bit code units. *)
Definition isSpace (c : ascii) : bool :=
  (((9 <=? codeUnit c) && (codeUnit c <=? 13)) || (codeUnit c =? 32) || (codeUnit c =? 160))%N.

Definition upperChar (c : ascii) : ascii :=
  if isLower c then ascii_of_N (codeUnit c - 32) else c.

(** [s.toUpperCase()] on the ASCII letters: the JavaScript mapping for
    strings whose code units are all below 128 (it maps others, such as
    U+00DF, to letters or to pairs of letters). *)
Fixpoint toUpperCase (s : string) : string :=
  match s with
  | EmptyString => EmptyString
  | String c rest => String (upperChar c) (toUpperCase rest)
  end.

Fixpoint trimStart (s : string) : string :=
  match s with
  | EmptyString => EmptyString
  | String c rest => if isSpace c then trimStart rest else s
  end.

Fixpoint allSpace (s : string) : bool :=
  match s with
  | EmptyString => true
  | String c rest => isSpace c && allSpace rest
  end.

Fixpoint trimEnd (s : string) : string :=
  match s with
  | EmptyString => EmptyString
  | String c rest => if allSpace s then EmptyString else String c (trimEnd rest)
  end.

(** [s.trim()] *)
Definition trim (s : string) : string := trimEnd (trimStart s).

(** [s.charAt(pos)]: the empty string outside the index range. *)
Definition charAt (s : string) (pos : Z) : string :=
  if pos <? 0 then EmptyString
  else match String.get (Z.to_nat pos) s with
       | Some c => String c EmptyString
       | None => EmptyString
       end.

Fixpoint allChars (p : ascii -> bool) (s : string) : bool :=
  match s with
  | EmptyString => true
  | String c rest => p c && allChars p rest
  end.

(** [s.slice(-n)]: the last [n] code units of [s]. *)
Definition sliceLast (n : nat) (s : string) : string :=
  String.substring (String.length s - n) n s.

(** Truthiness of a string: non-empty. *)
Definition nonEmpty (s : string) : bool := negb (String.eqb s EmptyString).

End Text.

(** ** Session store *)

Module Store.

Import Sequencer Text.

(** *** Task table *)

Inductive taskType := embed | external | recording.

(** An entry of [TASKS]; the descriptive texts and URLs are left out. *)
Record task := mkTask {
  name : string;
  type : taskType;
  canSkip : bool;
  estMinutes : Z;
  skilled : bool
}.

(** The own properties of the literal [TASKS].  A lookup [TASKS[code]]
    in the source also finds the properties inherited from
    [Object.prototype] (see [prototypeKeys] and [hasTask] below); for
    every other code it is the lookup in this map. *)
Definition TASKS : gmap string task :=
  <["RC" := mkTask "Reading Comprehension Task" embed true 15 true]>
  (<["MRT" := mkTask "Mental Rotation Task" embed true 6 true]>
  (<["ASLCT" := mkTask "ASL Comprehension Test" external true 15 true]>
  (<["VCN" := mkTask "Virtual Campus Navigation" external true 20 true]>
  (<["SN" := mkTask "Spatial Navigation" embed true 8 true]>
  (<["ID" := mkTask "Image Description" recording true 2 false]>
  (<["DEMO" := mkTask "Demographics Survey" external false 6 false]> ∅)))))).

(** The literal [mapping] has the same keys and names as [TASKS], so
    the lookup chain of [getStandardTaskName] is one lookup. *)
Definition getStandardTaskName (taskCode : string) : string :=
  match TASKS !! taskCode with
  | Some t => name t
  | None => taskCode
  end.

Definition typeName (k : taskType) : string :=
  match k with
  | embed => "embed"
  | external => "external"
  | recording => "recording"
  end.

(** The names that every object literal inherits from
    [Object.prototype].  For them [TASKS[code]] is the inherited function
    (for [__proto__], the prototype), which is truthy.  [startTask],
    [completeTask], [skipTask] and [getStandardTaskName] are modelled for
    the other codes: for these the lookup in the literal is the lookup
    in [TASKS]. *)
Definition prototypeKeys : list string :=
  ["constructor"; "toString"; "toLocaleString"; "valueOf"; "hasOwnProperty";
   "isPrototypeOf"; "propertyIsEnumerable"; "__proto__"; "__defineGetter__";
   "__defineSetter__"; "__lookupGetter__"; "__lookupSetter__"]%string.

(** [TASKS[code]] is not [undefined]: an own key or an inherited name. *)
Definition hasTask (code : string) : bool :=
  bool_decide (is_Some (TASKS !! code)) || bool_decide (code ∈ prototypeKeys).

(** *** The global [state] object

    The heartbeat, recording and upload-queue properties are left out: of
    the functions modelled here only the payload of task ID and the
    recorder clean-up of [skipTask] touch them. *)
Record session := mkSession {
  sessionCode : string;
  participantID : string;
  email : string;
  hearingStatus : string;
  fluency : string;
  consentCode : string;
  consentConfirmed : bool;
  sequenceIndex : Z;
  sequence : list string;
  isMobile : bool;
  currentTaskIndex : nat;
  completedTasks : list string;
  skippedTasks : list string;
  startTime : option Z;
  totalTimeSpent : Z;
  totalActiveTime : Z;
  lastActivity : option Z;
  currentTaskType : string;
  pauseStart : option Z;
  totalPausedTime : Z;
  lastPauseType : option string
}.

Definition initialState : session :=
  {| sessionCode := ""; participantID := ""; email := ""; hearingStatus := "";
     fluency := ""; consentCode := ""; consentConfirmed := false;
     sequenceIndex := -1; sequence := []; isMobile := false;
     currentTaskIndex := 0; completedTasks := []; skippedTasks := [];
     startTime := None; totalTimeSpent := 0; totalActiveTime := 0;
     lastActivity := None; currentTaskType := ""; pauseStart := None;
     totalPausedTime := 0; lastPauseType := None |}.

(** A document of the [sessions] collection: the spread state plus
    [lastUpdated].  The payload of a write carries every property of
    this record, so a merging write replaces the whole record. *)
Record document := mkDocument {
  docState : session;
  lastUpdated : Z
}.

Inductive stored :=
| StoredState (s : session)
| StoredText (s : string).

(** Payloads handed to [sendToSheets]. *)
Inductive payload :=
| SaveState (code : string) (st : session)
| SessionCreated (st : session) (timestamp : Z)
| TaskCompleted (skilledTask : bool) (code task : string)
    (summary : Timer.summary) (timestamp : Z) (mobile : bool)
| TaskStarted (code task : string) (timestamp : Z) (mobile : bool)
| TaskSkipped (code task reason : string) (timestamp : Z) (mobile : bool)
| SessionTimer (stage code : string) (summary : Timer.summary) (timestamp : Z).

(** The page: the global [state], the two timers, [window.db] ([None]
    when the document store is not configured) with its [sessions]
    collection, [localStorage], and the log of [sendToSheets] calls. *)
Record world := mkWorld {
  state : session;
  sessionTimer : Timer.timer;
  taskTimer : Timer.timer;
  db : option (gmap string document);
  localStorage : gmap string stored;
  sent : list payload
}.

Definition setState (s : session) (w : world) : world :=
  {| state := s; sessionTimer := sessionTimer w; taskTimer := taskTimer w;
     db := db w; localStorage := localStorage w; sent := sent w |}.

Definition setSessionTimer (t : Timer.timer) (w : world) : world :=
  {| state := state w; sessionTimer := t; taskTimer := taskTimer w;
     db := db w; localStorage := localStorage w; sent := sent w |}.

Definition setTaskTimer (t : Timer.timer) (w : world) : world :=
  {| state := state w; sessionTimer := sessionTimer w; taskTimer := t;
     db := db w; localStorage := localStorage w; sent := sent w |}.

Definition setDb (d : option (gmap string document)) (w : world) : world :=
  {| state := state w; sessionTimer := sessionTimer w; taskTimer := taskTimer w;
     db := d; localStorage := localStorage w; sent := sent w |}.

Definition setLocalStorage (l : gmap string stored) (w : world) : world :=
  {| state := state w; sessionTimer := sessionTimer w; taskTimer := taskTimer w;
     db := db w; localStorage := l; sent := sent w |}.

(** [sendToSheets(p)]: the call is logged; delivery is asynchronous and
    its failures are caught inside [sendToSheets]. *)
Definition sendToSheets (p : payload) (w : world) : world :=
  {| state := state w; sessionTimer := sessionTimer w; taskTimer := taskTimer w;
     db := db w; localStorage := localStorage w; sent := sent w ++ [p] |}.

(** *** Backend behaviour *)

(** [doc(code).set(payload, {merge: true})]: the promise resolves, the
    promise rejects (nothing written), or the call throws. *)
Inductive setOutcome := SetResolves | SetRejects | SetThrows.

(** [localStorage.setItem]: stores, or throws (quota, disabled storage). *)
Inductive itemOutcome := ItemStored | ItemThrows.

Record backends := mkBackends {
  docSet : setOutcome;
  itemState : itemOutcome;
  itemRecent : itemOutcome
}.

Definition healthy : backends := mkBackends SetResolves ItemStored ItemStored.

Definition withLastActivity (v : option Z) (s : session) : session :=
  {| sessionCode := sessionCode s; participantID := participantID s;
     email := email s; hearingStatus := hearingStatus s; fluency := fluency s;
     consentCode := consentCode s; consentConfirmed := consentConfirmed s;
     sequenceIndex := sequenceIndex s; sequence := sequence s;
     isMobile := isMobile s; currentTaskIndex := currentTaskIndex s;
     completedTasks := completedTasks s; skippedTasks := skippedTasks s;
     startTime := startTime s; totalTimeSpent := totalTimeSpent s;
     totalActiveTime := totalActiveTime s; lastActivity := v;
     currentTaskType := currentTaskType s; pauseStart := pauseStart s;
     totalPausedTime := totalPausedTime s; lastPauseType := lastPauseType s |}.

Definition withSequence (v : list string) (s : session) : session :=
  {| sessionCode := sessionCode s; participantID := participantID s;
     email := email s; hearingStatus := hearingStatus s; fluency := fluency s;
     consentCode := consentCode s; consentConfirmed := consentConfirmed s;
     sequenceIndex := sequenceIndex s; sequence := v;
     isMobile := isMobile s; currentTaskIndex := currentTaskIndex s;
     completedTasks := completedTasks s; skippedTasks := skippedTasks s;
     startTime := startTime s; totalTimeSpent := totalTimeSpent s;
     totalActiveTime := totalActiveTime s; lastActivity := lastActivity s;
     currentTaskType := currentTaskType s; pauseStart := pauseStart s;
     totalPausedTime := totalPausedTime s; lastPauseType := lastPauseType s |}.

Definition withCurrentTaskType (v : string) (s : session) : session :=
  {| sessionCode := sessionCode s; participantID := participantID s;
     email := email s; hearingStatus := hearingStatus s; fluency := fluency s;
     consentCode := consentCode s; consentConfirmed := consentConfirmed s;
     sequenceIndex := sequenceIndex s; sequence := sequence s;
     isMobile := isMobile s; currentTaskIndex := currentTaskIndex s;
     completedTasks := completedTasks s; skippedTasks := skippedTasks s;
     startTime := startTime s; totalTimeSpent := totalTimeSpent s;
     totalActiveTime := totalActiveTime s; lastActivity := lastActivity s;
     currentTaskType := v; pauseStart := pauseStart s;
     totalPausedTime := totalPausedTime s; lastPauseType := lastPauseType s |}.

(** *** [saveState]

    [now] is the instant stored in [lastActivity], [stamp] the value of
    [lastUpdated].  The three writes sit in one [try] block: a write that
    throws transfers control to the [catch], which only logs. *)
Definition saveState (b : backends) (now stamp : Z) (w : world) : world :=
  if negb (nonEmpty (sessionCode (state w))) then w
  else
    let st := withLastActivity (Some now) (state w) in
    let w := setState st w in
    let code := sessionCode st in
    let afterDb : option world :=
      match db w with
      | Some docs =>
          match docSet b with
          | SetResolves => Some (setDb (Some (<[code := mkDocument st stamp]> docs)) w)
          | SetRejects => Some w
          | SetThrows => None
          end
      | None => Some w
      end in
    match afterDb with
    | None => w
    | Some w1 =>
        match itemState b with
        | ItemThrows => w1
        | ItemStored =>
            let w2 := setLocalStorage
                        (<[("study_" ++ code)%string := StoredState st]> (localStorage w1)) w1 in
            match itemRecent b with
            | ItemThrows => w2
            | ItemStored =>
                let w3 := setLocalStorage
                            (<["recent_session"%string := StoredText code]> (localStorage w2)) w2 in
                sendToSheets (SaveState code st) w3
            end
        end
    end.

(** *** [generateCode] *)

Definition chars : string := "ABCDEFGHIJKLMNOPQRSTUVWXYZ0123456789".

(** [chars.charAt(Math.floor(Math.random() * chars.length))] for the
    value [r] returned by [Math.random()]. *)
Definition randomChar (r : spec_float) : string :=
  charAt chars
    (Float64.floor (Float64.mul r (Float64.ofZ (Z.of_nat (String.length chars))))).

(** The loop [for (let i = 0; i < 8; i++) code += ...], with [i]
    running from [8 - n]; [rand k] is the value of the [k]-th call of
    [Math.random()]. *)
Fixpoint generateLoop (n : nat) (rand : nat -> spec_float) (code : string) : string :=
  match n with
  | O => code
  | S n' => generateLoop n' rand (code ++ randomChar (rand (8 - n)%nat))%string
  end.

Definition generateCode (rand : nat -> spec_float) : string :=
  generateLoop 8 rand "".

(** [CODE_REGEX.test(code)] for [/^[A-Z0-9]{8}$/]. *)
Definition CODE_REGEX (code : string) : bool :=
  (String.length code =? 8)%nat && allChars (fun c => isUpper c || isDigit c) code.

(** *** [createNewSession] *)

(** The values of the form controls. *)
Record form := mkForm {
  firstInitial : string;
  lastInitial : string;
  emailField : string;
  hearingField : string;
  fluencyField : string;
  consentCodeField : string;
  consentChecked : bool
}.

(** What the page observes while creating a session: the device test,
    the answer to the confirmation dialog, [Math.random], the successive
    clock readings and the behaviour of the backends. *)
Record creation := mkCreation {
  mobile : bool;
  proceed : bool;
  rand : nat -> spec_float;
  idAt : Z;
  startAt : Z;
  activityAt : Z;
  saveAt : Z;
  saveStamp : Z;
  saveWith : backends;
  createdAt : Z
}.

Definition createNewSession (f : form) (c : creation) (w : world) : world :=
  let first := toUpperCase (trim (firstInitial f)) in
  let last := toUpperCase (trim (lastInitial f)) in
  let email := trim (emailField f) in
  let hearing := hearingField f in
  let fluency := fluencyField f in
  let consentCode := trim (consentCodeField f) in
  let consent := consentChecked f in
  if negb (nonEmpty first && nonEmpty last && nonEmpty hearing && nonEmpty fluency
           && nonEmpty consentCode && consent) then w
  else if mobile c && negb (proceed c) then w
  else
    let code := generateCode (rand c) in
    let seed := Z.abs (hashCode code) in
    let st :=
      {| sessionCode := code;
         participantID := (first ++ last ++ "_" ++ sliceLast 4 (pretty (idAt c)))%string;
         email := email; hearingStatus := hearing; fluency := fluency;
         consentCode := consentCode; consentConfirmed := consent;
         sequenceIndex := seed;
         sequence :=
           ensureDemographicsLast
             (shuffleWithSeed (if mobile c then MOBILE_TASKS else DESKTOP_TASKS) seed);
         isMobile := mobile c;
         currentTaskIndex := currentTaskIndex (state w);
         completedTasks := completedTasks (state w);
         skippedTasks := skippedTasks (state w);
         startTime := Some (startAt c);
         totalTimeSpent := totalTimeSpent (state w);
         totalActiveTime := totalActiveTime (state w);
         lastActivity := Some (activityAt c);
         currentTaskType := currentTaskType (state w);
         pauseStart := pauseStart (state w);
         totalPausedTime := totalPausedTime (state w);
         lastPauseType := lastPauseType (state w) |} in
    let w := saveState (saveWith c) (saveAt c) (saveStamp c) (setState st w) in
    sendToSheets (SessionCreated (state w) (createdAt c)) w.

(** *** [resumeSession] *)

(** [doc(code).get()]: answers, or rejects. *)
Inductive getOutcome := GetAnswers | GetRejects.

(** The legacy fallback: [CONFIG.SHEETS_URL] unset, or the parsed
    [session.state] of the response ([None] when it reports no session),
    or a failing request. *)
Inductive legacy :=
| NotConfigured
| Responds (st : option session)
| RequestFails.

Record resumption := mkResumption {
  fetched : getOutcome;
  sheets : legacy;
  resaveWith : backends;
  resaveAt : Z;
  resaveStamp : Z;
  timerAt1 : Z;
  timerAt2 : Z;
  timerAt3 : Z;
  timerId : Z
}.

Inductive resumeResult := Resumed | InvalidCode | NotFound | LoadError.

(** [updateSessionWidget(); showProgressScreen()] return normally:
    [updateTaskList] reads [TASKS[taskCode].name] for every code of the
    sequence (and [updateSessionWidget] for the current one), which throws
    when [TASKS[taskCode]] is [undefined]. *)
Definition renders (s : session) : bool := forallb hasTask (sequence s).

(** The statements shared by the two branches that load a state, from
    [state.sequence = ensureDemographicsLast(state.sequence)] on.  When
    the rendering throws, control passes to the [catch] of
    [resumeSession] ("Error loading session"): the state is replaced and
    saved, and the session timer is not started. *)
Definition adopt (r : resumption) (loaded : session) (w : world) : world * resumeResult :=
  let st := withSequence (ensureDemographicsLast (sequence loaded)) loaded in
  let w := saveState (resaveWith r) (resaveAt r) (resaveStamp r) (setState st w) in
  if negb (renders (state w)) then (w, LoadError)
  else if negb (Timer.truthy (Timer.startTime (sessionTimer w))) then
    (setSessionTimer
       (Timer.start (timerAt1 r) (timerAt2 r) (timerAt3 r) (timerId r) (sessionTimer w)) w,
     Resumed)
  else (w, Resumed).

(** [resumeSession(codeFromLink)]; [field] is the value of the
    [resume-code] input.  The input is a string of 8-bit code units;
    [toUpperCase] is the JavaScript mapping on those below 128. *)
Definition resumeSession (codeFromLink : option string) (field : string)
    (r : resumption) (w : world) : world * resumeResult :=
  let input :=
    match codeFromLink with
    | Some c => if nonEmpty c then c else field
    | None => field
    end in
  let code := toUpperCase (trim input) in
  if negb (CODE_REGEX code) then (w, InvalidCode)
  else
    let fallback :=
      match sheets r with
      | NotConfigured => (w, NotFound)
      | Responds None => (w, NotFound)
      | Responds (Some st) => adopt r st w
      | RequestFails => (w, LoadError)
      end in
    match db w with
    | Some docs =>
        match fetched r with
        | GetRejects => (w, LoadError)
        | GetAnswers =>
            match docs !! code with
            | Some d => adopt r (docState d) w
            | None => fallback
            end
        end
    | None => fallback
    end.

(** *** [startTask], [completeTask], [skipTask]

    The guard [if (!task) return] is the lookup in [TASKS] for every code
    outside [prototypeKeys]; the three functions are modelled for those
    codes. *)

Definition startTask (taskCode : string) (t1 t2 t3 id sentAt : Z) (w : world) : world :=
  match TASKS !! taskCode with
  | None => w
  | Some task =>
      let w := setState (withCurrentTaskType (typeName (type task)) (state w)) w in
      let w := setTaskTimer (Timer.start t1 t2 t3 id (taskTimer w)) w in
      sendToSheets
        (TaskStarted (sessionCode (state w)) (getStandardTaskName taskCode) sentAt
           (isMobile (state w))) w
  end.

(** [arr.includes(code)] *)
Definition includes (code : string) (arr : list string) : bool :=
  bool_decide (code ∈ arr).

(** The loop [while (i < sequence.length && completedTasks.includes(sequence[i])) i++],
    where [rest] is the part of the sequence from index [i] on. *)
Fixpoint skipCompleted (completed rest : list string) (i : nat) : nat :=
  match rest with
  | [] => i
  | code :: rest' =>
      if includes code completed then skipCompleted completed rest' (S i) else i
  end.

Definition advance (completed sequence : list string) (i : nat) : nat :=
  skipCompleted completed (drop (S i) sequence) (S i).

(** [logSessionTime(stage)] with the default summary
    [sessionTimer.getSummary()]. *)
Definition logSessionTime (stage : string) (now1 now2 sentAt : Z) (w : world) : world :=
  if negb (nonEmpty (sessionCode (state w))) then w
  else
    sendToSheets
      (SessionTimer stage (sessionCode (state w))
         (Timer.getSummary now1 now2 (sessionTimer w)) sentAt) w.

(** Clock readings and backend behaviour seen by one call of
    [completeTask] or [skipTask]. *)
Record completion := mkCompletion {
  stopAt1 : Z;
  stopAt2 : Z;
  summaryAt1 : Z;
  summaryAt2 : Z;
  storeWith : backends;
  storeAt : Z;
  storeStamp : Z;
  sentAt : Z;
  logAt1 : Z;
  logAt2 : Z;
  logSentAt : Z
}.

Definition completeTask (taskCode : string) (c : completion) (w : world) : world :=
  match TASKS !! taskCode with
  | None => w
  | Some task =>
      let timer := Timer.stop (stopAt1 c) (stopAt2 c) (taskTimer w) in
      let w := setTaskTimer timer w in
      let summary := Timer.getSummary (summaryAt1 c) (summaryAt2 c) timer in
      let st := state w in
      let completed :=
        if negb (includes taskCode (completedTasks st))
        then completedTasks st ++ [taskCode] else completedTasks st in
      let skipped := filter (fun code => code <> taskCode) (skippedTasks st) in
      let st :=
        {| sessionCode := sessionCode st; participantID := participantID st;
           email := email st; hearingStatus := hearingStatus st; fluency := fluency st;
           consentCode := consentCode st; consentConfirmed := consentConfirmed st;
           sequenceIndex := sequenceIndex st; sequence := sequence st;
           isMobile := isMobile st;
           currentTaskIndex := advance completed (sequence st) (currentTaskIndex st);
           completedTasks := completed; skippedTasks := skipped;
           startTime := startTime st;
           totalTimeSpent := totalTimeSpent st + Timer.elapsed summary;
           totalActiveTime := totalActiveTime st; lastActivity := lastActivity st;
           currentTaskType := currentTaskType st; pauseStart := pauseStart st;
           totalPausedTime := totalPausedTime st; lastPauseType := lastPauseType st |} in
      let w := saveState (storeWith c) (storeAt c) (storeStamp c) (setState st w) in
      let w :=
        sendToSheets
          (TaskCompleted (skilled task) (sessionCode (state w))
             (getStandardTaskName taskCode) summary (sentAt c) (isMobile (state w))) w in
      let w := logSessionTime taskCode (logAt1 c) (logAt2 c) (logSentAt c) w in
      setState (withCurrentTaskType "" (state w)) w
  end.

Definition skipTask (taskCode : string) (c : completion) (w : world) : world :=
  match TASKS !! taskCode with
  | None => w
  | Some task =>
      let w := setTaskTimer (Timer.stop (stopAt1 c) (stopAt2 c) (taskTimer w)) w in
      let st := state w in
      let completed :=
        if negb (includes taskCode (completedTasks st))
        then completedTasks st ++ [taskCode] else completedTasks st in
      let skipped :=
        if negb (includes taskCode (skippedTasks st))
        then skippedTasks st ++ [taskCode] else skippedTasks st in
      let st :=
        {| sessionCode := sessionCode st; participantID := participantID st;
           email := email st; hearingStatus := hearingStatus st; fluency := fluency st;
           consentCode := consentCode st; consentConfirmed := consentConfirmed st;
           sequenceIndex := sequenceIndex st; sequence := sequence st;
           isMobile := isMobile st;
           currentTaskIndex := advance completed (sequence st) (currentTaskIndex st);
           completedTasks := completed; skippedTasks := skipped;
           startTime := startTime st; totalTimeSpent := totalTimeSpent st;
           totalActiveTime := totalActiveTime st; lastActivity := lastActivity st;
           currentTaskType := currentTaskType st; pauseStart := pauseStart st;
           totalPausedTime := totalPausedTime st; lastPauseType := lastPauseType st |} in
      let w := saveState (storeWith c) (storeAt c) (storeStamp c) (setState st w) in
      let w :=
        sendToSheets
          (TaskSkipped (sessionCode (state w)) (getStandardTaskName taskCode)
             (if String.eqb taskCode "ASLCT" then "Does not know ASL" else "User chose to skip")
             (sentAt c) (isMobile (state w))) w in
      let w := logSessionTime (taskCode ++ "_skipped")%string (logAt1 c) (logAt2 c) (logSentAt c) w in
      setState (withCurrentTaskType "" (state w)) w
  end.

Definition freshPage : world :=
  {| state := initialState; sessionTimer := Timer.createTimer;
     taskTimer := Timer.createTimer; db := Some ∅; localStorage := ∅; sent := [] |}.

End Store.

(** ** Backend aggregator (spreadsheet side) *)

Module Aggregator.

(** A timestamp cell is represented by the result of [parseTsMs_] on it
    ([None] for [null]); a numeric cell [v] by the integer
    [Number(v) || 0] that the handlers wrote there. *)

(** A data row of the [Sessions] sheet. *)
Record sessionRow := mkSessionRow {
  rowCode : string;
  createdDate : option Z;
  lastActivityCell : option Z;
  totalTimeMin : Z;
  activeTimeMin : Z;
  idleTimeMin : Z;
  pausedTimeMin : Z
}.

(** A data row of [Task Progress]: columns 0, 1, 6, 7, 9 and 12. *)
Record progressRow := mkProgressRow {
  pTimestamp : option Z;
  pCode : string;
  pStart : option Z;
  pEnd : option Z;
  pActiveSec : Z;
  pInactiveSec : Z
}.

(** A data row of [Session Events]: columns 0 and 1. *)
Record eventRow := mkEventRow {
  eTimestamp : option Z;
  eCode : string
}.

Record spreadsheet := mkSpreadsheet {
  sessions : list sessionRow;
  progress : list progressRow;
  events : list eventRow
}.

(** [findRowBySessionCode_]: the first row of the sheet with that code.
    The source searches the first column with a text finder that also
    reads the header row and does not distinguish case; on a sheet whose
    data rows carry codes of the form [A-Z0-9]{8}, and for such a code,
    that search finds a cell exactly when the cell equals the code. *)
Definition findRowBySessionCode_ (rows : list sessionRow) (sessionCode : string)
    : option sessionRow :=
  if String.eqb sessionCode "" then None
  else List.find (fun r => String.eqb (rowCode r) sessionCode) rows.

(** The running pair [(minMs, maxMs)]. *)
Definition window : Type := option Z * option Z.

(** [if (ms != null) { if (minMs == null || ms < minMs) minMs = ms;
    if (maxMs == null || ms > maxMs) maxMs = ms; }] *)
Definition widen (w : window) (ms : option Z) : window :=
  match ms with
  | None => w
  | Some v =>
      (match fst w with
       | None => Some v
       | Some lo => if v <? lo then Some v else Some lo
       end,
       match snd w with
       | None => Some v
       | Some hi => if v >? hi then Some v else Some hi
       end)
  end.

Definition widenProgress (sessionCode : string) (w : window) (r : progressRow) : window :=
  if negb (String.eqb (pCode r) sessionCode) then w
  else widen (widen (widen w (pTimestamp r)) (pStart r)) (pEnd r).

Definition widenEvent (sessionCode : string) (w : window) (r : eventRow) : window :=
  if negb (String.eqb (eCode r) sessionCode) then w
  else widen w (eTimestamp r).

(** [computeSessionWindowMs_(ss, sessionCode)], returning
    [(startMs, endMs)]; [now] is the reading of [Date.now()]. *)
Definition computeSessionWindowMs_ (ss : spreadsheet) (sessionCode : string) (now : Z)
    : Z * Z :=
  let w : window :=
    match findRowBySessionCode_ (sessions ss) sessionCode with
    | Some row => (createdDate row, lastActivityCell row)
    | None => (None, None)
    end in
  let w := fold_left (widenProgress sessionCode) (progress ss) w in
  let w := fold_left (widenEvent sessionCode) (events ss) w in
  let minMs := match fst w with Some v => v | None => now end in
  let maxMs := match snd w with Some v => v | None => minMs end in
  let maxMs := if maxMs <? minMs then minMs else maxMs in
  (minMs, maxMs).

(** [Math.round(n / d)] for integers [n] and [d > 0]: no quotient of
    integers below 2^53 by 60 or 1000 lies close enough to a half for
    binary64 rounding to change the result. *)
Definition roundDiv (n d : Z) : Z := (2 * n + d) / (2 * d).

(** The loop summing the positive [Active Time (sec)] and
    [Inactive Time (sec)] cells of the session's rows. *)
Definition sumTimes (sessionCode : string) (rows : list progressRow) : Z * Z :=
  fold_left
    (fun (acc : Z * Z) r =>
       if negb (String.eqb (pCode r) sessionCode) then acc
       else
         ((if pActiveSec r >? 0 then fst acc + pActiveSec r else fst acc),
          (if pInactiveSec r >? 0 then snd acc + pInactiveSec r else snd acc)))
    rows (0, 0).

(** The local variables of [updateTotalTime] before the write. *)
Record totals := mkTotals {
  totalSecByWindow : Z;
  activeSec : Z;
  inactiveSec : Z;
  pausedSec : Z;
  idleSec : Z;
  totalMin : Z;
  activeMin : Z;
  idleMin : Z;
  pausedMin : Z
}.

Definition recompute (ss : spreadsheet) (row : sessionRow) (sessionCode : string) (now : Z)
    : totals :=
  let win := computeSessionWindowMs_ ss sessionCode now in
  let totalSecByWindow := Z.max 0 (roundDiv (snd win - fst win) 1000) in
  let sums := sumTimes sessionCode (progress ss) in
  let activeSec := fst sums in
  let inactiveSec := snd sums in
  let pausedSec := pausedTimeMin row * 60 in
  let idleSec := Z.max 0 (totalSecByWindow - activeSec - pausedSec - inactiveSec) in
  {| totalSecByWindow := totalSecByWindow; activeSec := activeSec;
     inactiveSec := inactiveSec; pausedSec := pausedSec; idleSec := idleSec;
     totalMin := roundDiv totalSecByWindow 60; activeMin := roundDiv activeSec 60;
     idleMin := roundDiv idleSec 60; pausedMin := roundDiv pausedSec 60 |}.

(** The row after [setManyByHeader_] and the self-healing of the two
    date cells. *)
Definition updatedRow (ss : spreadsheet) (row : sessionRow) (sessionCode : string) (now : Z)
    : sessionRow :=
  let t := recompute ss row sessionCode now in
  let win := computeSessionWindowMs_ ss sessionCode now in
  {| rowCode := rowCode row;
     createdDate :=
       match createdDate row with
       | None => Some (fst win)
       | Some v => Some v
       end;
     lastActivityCell :=
       match lastActivityCell row with
       | None => Some (snd win)
       | Some v => if v <? snd win then Some (snd win) else Some v
       end;
     totalTimeMin := totalMin t; activeTimeMin := activeMin t;
     idleTimeMin := idleMin t; pausedTimeMin := pausedMin t |}.

(** Replace the first row carrying the code. *)
Fixpoint putRow (sessionCode : string) (new : sessionRow) (rows : list sessionRow)
    : list sessionRow :=
  match rows with
  | [] => []
  | r :: rest =>
      if String.eqb (rowCode r) sessionCode then new :: rest
      else r :: putRow sessionCode new rest
  end.

(** [updateTotalTime(ss, sessionCode)], run under the document lock. *)
Definition updateTotalTime (ss : spreadsheet) (sessionCode : string) (now : Z)
    : spreadsheet :=
  match findRowBySessionCode_ (sessions ss) sessionCode with
  | None => ss
  | Some row =>
      {| sessions := putRow sessionCode (updatedRow ss row sessionCode now) (sessions ss);
         progress := progress ss; events := events ss |}
  end.

End Aggregator.

(** ** Returning to a cached session, pausing and finishing the study *)

Module Study.

Import Sequencer Text Store.

(** [checkSavedSession()] up to the [setTimeout]: the code and the parsed
    snapshot for which the welcome-back dialog is scheduled, if any.
    [now] is the reading of [Date.now()].  The test [daysSince < 30]
    compares [now - lastActivity] with 30 days of milliseconds; a [null]
    [lastActivity] is the epoch.  A cached text that is not the JSON of a
    state object fails to parse or has no [lastActivity]: nothing is
    scheduled then. *)
Definition checkSavedSession (now : Z) (w : world) : option (string * session) :=
  if nonEmpty (sessionCode (state w)) then None
  else
    match localStorage w !! "recent_session"%string with
    | Some (StoredText recentCode) =>
        if negb (nonEmpty recentCode) then None
        else
          match localStorage w !! ("study_" ++ recentCode)%string with
          | Some (StoredState data) =>
              if now - Timer.num (lastActivity data) <? 30 * 86400000
              then Some (recentCode, data) else None
          | _ => None
          end
    | _ => None
    end.

(** The callback that runs 700 ms later, on the page as it is then;
    [confirmed] is the answer to the dialog. *)
Definition welcomeBack (confirmed : bool) (data : session) (b : backends)
    (now stamp : Z) (w : world) : world :=
  if confirmed then
    saveState b now stamp
      (setState (withSequence (ensureDemographicsLast (sequence data)) data) w)
  else w.

(** Payloads of the pause, resume and completion messages.  They are
    logged apart from [sent]: the order between the two logs is not
    recorded. *)
Inductive notice :=
| SessionPaused (code progress pauseType : string) (timestamp : Z)
| SessionResumed (code progress : string) (pausedSeconds : Z)
    (pauseType : option string) (timestamp : Z)
| StudyCompleted (code : string) (totalDuration : Z) (mobile : bool) (timestamp : Z).

Record page := mkPage {
  base : world;
  notices : list notice
}.

(** [getTaskCounts()]: [(total, completed)]. *)
Definition getTaskCounts (s : session) : nat * nat :=
  (length (sequence s), length (completedTasks s)).

(** [total ? `${completed}/${total}` : ""] *)
Definition progressText (s : session) : string :=
  let '(total, completed) := getTaskCounts s in
  if (total =? 0)%nat then ""%string
  else (pretty completed ++ "/" ++ pretty total)%string.

Definition withPause (start : option Z) (total : Z) (kind : option string)
    (s : session) : session :=
  {| sessionCode := sessionCode s; participantID := participantID s;
     email := email s; hearingStatus := hearingStatus s; fluency := fluency s;
     consentCode := consentCode s; consentConfirmed := consentConfirmed s;
     sequenceIndex := sequenceIndex s; sequence := sequence s;
     isMobile := isMobile s; currentTaskIndex := currentTaskIndex s;
     completedTasks := completedTasks s; skippedTasks := skippedTasks s;
     startTime := startTime s; totalTimeSpent := totalTimeSpent s;
     totalActiveTime := totalActiveTime s; lastActivity := lastActivity s;
     currentTaskType := currentTaskType s; pauseStart := start;
     totalPausedTime := total; lastPauseType := kind |}.

Definition withTotalActiveTime (v : Z) (s : session) : session :=
  {| sessionCode := sessionCode s; participantID := participantID s;
     email := email s; hearingStatus := hearingStatus s; fluency := fluency s;
     consentCode := consentCode s; consentConfirmed := consentConfirmed s;
     sequenceIndex := sequenceIndex s; sequence := sequence s;
     isMobile := isMobile s; currentTaskIndex := currentTaskIndex s;
     completedTasks := completedTasks s; skippedTasks := skippedTasks s;
     startTime := startTime s; totalTimeSpent := totalTimeSpent s;
     totalActiveTime := v; lastActivity := lastActivity s;
     currentTaskType := currentTaskType s; pauseStart := pauseStart s;
     totalPausedTime := totalPausedTime s; lastPauseType := lastPauseType s |}.

(** Clock readings and backend behaviour seen by [pauseStudy] or
    [saveAndExit]. *)
Record pausing := mkPausing {
  pausedAt : Z;
  taskPausedAt : Z;
  sessionPausedAt : Z;
  pauseNoticeAt : Z;
  pauseSaveWith : backends;
  pauseSaveAt : Z;
  pauseSaveStamp : Z
}.

(** [if (taskTimer.startTime) taskTimer.pause(reason);
     if (sessionTimer.startTime) sessionTimer.pause(reason);] *)
Definition pauseTimers (reason : string) (c : pausing) (w : world) : world :=
  let w :=
    if Timer.truthy (Timer.startTime (taskTimer w))
    then setTaskTimer (Timer.pause reason (taskPausedAt c) (taskTimer w)) w else w in
  if Timer.truthy (Timer.startTime (sessionTimer w))
  then setSessionTimer (Timer.pause reason (sessionPausedAt c) (sessionTimer w)) w else w.

Definition pauseStudy (c : pausing) (p : page) : page :=
  let w := base p in
  let w :=
    setState (withPause (Some (pausedAt c)) (totalPausedTime (state w)) (Some "manual"%string)
                (state w)) w in
  let w := pauseTimers "manual" c w in
  let n := SessionPaused (sessionCode (state w)) (progressText (state w)) "manual"
             (pauseNoticeAt c) in
  {| base := saveState (pauseSaveWith c) (pauseSaveAt c) (pauseSaveStamp c) w;
     notices := notices p ++ [n] |}.

Definition saveAndExit (c : pausing) (p : page) : page :=
  let w := base p in
  let w :=
    setState (withPause (Some (pausedAt c)) (totalPausedTime (state w)) (Some "exit"%string)
                (state w)) w in
  let w := pauseTimers "exit" c w in
  let w := saveState (pauseSaveWith c) (pauseSaveAt c) (pauseSaveStamp c) w in
  {| base := w;
     notices := notices p ++
       [SessionPaused (sessionCode (state w)) (progressText (state w)) "exit"
          (pauseNoticeAt c)] |}.

(** Clock readings and backend behaviour seen by [resumeStudy]. *)
Record resuming := mkResuming {
  resumedAt : Z;
  resumeNoticeAt : Z;
  taskResumedAt : Z * Z * Z;
  sessionResumedAt : Z * Z * Z;
  resumeSaveWith : backends;
  resumeSaveAt : Z;
  resumeSaveStamp : Z
}.

Definition resumeTimer (at3 : Z * Z * Z) (t : Timer.timer) : Timer.timer :=
  let '(t1, t2, t3) := at3 in
  if Timer.truthy (Timer.startTime t) then Timer.resume t1 t2 t3 t else t.

Definition resumeStudy (c : resuming) (p : page) : page :=
  let w := base p in
  let st := state w in
  let pausedMs := resumedAt c - Timer.num (pauseStart st) in
  let st' :=
    if Timer.truthy (pauseStart st)
    then withPause None (totalPausedTime st + pausedMs) (lastPauseType st) st else st in
  let sentNow :=
    if Timer.truthy (pauseStart st)
    then [SessionResumed (sessionCode st') (progressText st')
            (Aggregator.roundDiv pausedMs 1000) (lastPauseType st') (resumeNoticeAt c)]
    else [] in
  let w := setState st' w in
  let w := setTaskTimer (resumeTimer (taskResumedAt c) (taskTimer w)) w in
  let w := setSessionTimer (resumeTimer (sessionResumedAt c) (sessionTimer w)) w in
  {| base := saveState (resumeSaveWith c) (resumeSaveAt c) (resumeSaveStamp c) w;
     notices := notices p ++ sentNow |}.

(** Clock readings seen by [markComplete]. *)
Record finishing := mkFinishing {
  finalStopAt1 : Z;
  finalStopAt2 : Z;
  finalSummaryAt1 : Z;
  finalSummaryAt2 : Z;
  finalLogAt : Z;
  finalNoticeAt : Z
}.

(** [markComplete()]: the session timer is stopped unless it was never
    started or has an end already; [logSessionTime("final", sessSummary)]
    is given the summary explicitly. *)
Definition markComplete (c : finishing) (p : page) : page :=
  let w := base p in
  let timer := sessionTimer w in
  let timer :=
    if Timer.truthy (Timer.startTime timer) && negb (Timer.truthy (Timer.endTime timer))
    then Timer.stop (finalStopAt1 c) (finalStopAt2 c) timer else timer in
  let w := setSessionTimer timer w in
  let sessSummary := Timer.getSummary (finalSummaryAt1 c) (finalSummaryAt2 c) timer in
  let w := setState (withTotalActiveTime (Timer.active sessSummary) (state w)) w in
  let w :=
    if negb (nonEmpty (sessionCode (state w))) then w
    else sendToSheets
           (SessionTimer "final" (sessionCode (state w)) sessSummary (finalLogAt c)) w in
  {| base := w;
     notices := notices p ++
       [StudyCompleted (sessionCode (state w))
          (Aggregator.roundDiv (totalTimeSpent (state w)) 60000)
          (isMobile (state w)) (finalNoticeAt c)] |}.

End Study.

(** ** Task counts of the spreadsheet script *)

Module Completion.

Import Text.

Definition lowerChar (c : ascii) : ascii :=
  if isUpper c then ascii_of_N (codeUnit c + 32) else c.

(** [s.toLowerCase()] on the ASCII letters. *)
Fixpoint toLowerCase (s : string) : string :=
  match s with
  | EmptyString => EmptyString
  | String c rest => String (lowerChar c) (toLowerCase rest)
  end.

(** [hay.indexOf(needle) !== -1] *)
Fixpoint contains (needle hay : string) : bool :=
  String.prefix needle hay ||
  match hay with
  | EmptyString => false
  | String _ rest => contains needle rest
  end.

(** The names that every object literal inherits from
    [Object.prototype]: a lookup [obj[k]] with one of them yields the
    inherited function (for [__proto__], the prototype), which is truthy. *)
Definition inheritedKeys : list string :=
  ["constructor"; "toString"; "toLocaleString"; "valueOf"; "hasOwnProperty";
   "isPrototypeOf"; "propertyIsEnumerable"; "__proto__"; "__defineGetter__";
   "__defineSetter__"; "__lookupGetter__"; "__lookupSetter__"]%string.

(** What a name lookup can yield: a string, or the inherited property of
    that name. *)
Inductive value :=
| Str (s : string)
| Builtin (k : string).

(** The property key of a value: its string form.  Native functions
    print as [function name() { [native code] }], the prototype as
    [[object Object]]. *)
Definition key (v : value) : string :=
  match v with
  | Str s => s
  | Builtin k =>
      if String.eqb k "__proto__" then "[object Object]"%string
      else ("function " ++ (if String.eqb k "constructor" then "Object" else k)
            ++ "() { [native code] }")%string
  end.

(** The literal [map] of [normalizeTaskName_]. *)
Definition aliases : list (string * string) :=
  [("Reading Comprehension (RC)", "Reading Comprehension Task");
   ("RC", "Reading Comprehension Task");
   ("MRT", "Mental Rotation Task");
   ("Virtual Campus", "Virtual Campus Navigation");
   ("Spatial Nav", "Spatial Navigation");
   ("Image Desc", "Image Description")]%string.

Fixpoint lookupAlias (name : string) (l : list (string * string)) : option string :=
  match l with
  | [] => None
  | (k, v) :: l' => if String.eqb k name then Some v else lookupAlias name l'
  end.

(** [map[name] || name], where [name] is used as a property key. *)
Definition normalizeTaskName_ (name : value) : value :=
  match lookupAlias (key name) aliases with
  | Some v => Str v
  | None => if bool_decide (key name ∈ inheritedKeys) then Builtin (key name) else name
  end.

(** An object used as a set: its own keys. *)
Definition keySet : Type := gset string.

(** [o[k]] as a condition, for an object whose own properties are [true]. *)
Definition holds (o : keySet) (k : value) : bool :=
  bool_decide (key k ∈ o) || bool_decide (key k ∈ inheritedKeys).

(** [o[k] = true]; assigning to [__proto__] creates no own property. *)
Definition assign (o : keySet) (k : value) : keySet :=
  if String.eqb (key k) "__proto__" then o else {[key k]} ∪ o.

(** A data row of [Sessions]: the columns [Session Code] and
    [Device Type] (the empty string for an empty cell). *)
Record sessionInfo := mkSessionInfo {
  iCode : string;
  iDevice : string
}.

(** A data row of [Task Progress]: columns 1, 4, 5 and 14. *)
Record taskRow := mkTaskRow {
  tCode : string;
  tTask : string;
  tEvent : string;
  tDetails : string
}.

Record workbook := mkWorkbook {
  infoRows : list sessionInfo;
  taskRows : list taskRow
}.

(** The loop over the [Sessions] rows: the device cell of the first row
    with the code, ['Desktop'] when it is empty or no row matches. *)
Definition deviceTypeOf (rows : list sessionInfo) (sessionCode : string) : string :=
  match List.find (fun r => String.eqb (iCode r) sessionCode) rows with
  | Some r => if nonEmpty (iDevice r) then iDevice r else "Desktop"%string
  | None => "Desktop"%string
  end.

(** The loop that looks for a skipped ASL test whose details say that the
    participant does not know ASL. *)
Definition aslctOptional (rows : list taskRow) (sessionCode : string) : bool :=
  existsb
    (fun r =>
       String.eqb (tCode r) sessionCode &&
       String.eqb (tTask r) "ASL Comprehension Test" &&
       String.eqb (tEvent r) "Skipped" &&
       contains "does not know asl" (toLowerCase (tDetails r)))
    rows.

(** The array [required] before the final [map]: the literal, the
    [splice(3, 0, ...)] for desktop sessions, the filter. *)
Definition requiredNames (isMobile optional : bool) : list string :=
  let required :=
    ["Reading Comprehension Task"; "Mental Rotation Task"; "ASL Comprehension Test";
     "Spatial Navigation"; "Demographics Survey"]%string in
  let required :=
    if negb isMobile
    then take 3 required ++ "Virtual Campus Navigation"%string :: drop 3 required
    else required in
  if optional then filter (fun t => t <> "ASL Comprehension Test"%string) required
  else required.

Definition sessionIsMobile (ss : workbook) (sessionCode : string) : bool :=
  contains "mobile" (toLowerCase (deviceTypeOf (infoRows ss) sessionCode)).

Definition getRequiredTasksForSession_ (ss : workbook) (sessionCode : string) : list value :=
  map (fun t => normalizeTaskName_ (Str t))
    (requiredNames (sessionIsMobile ss sessionCode)
       (aslctOptional (taskRows ss) sessionCode)).

(** The first loop of [updateCompletedTasksCount]. *)
Definition requiredSetOf (required : list value) : keySet :=
  fold_left (fun o t => assign o (normalizeTaskName_ t)) required ∅.

(** One round of the second loop. *)
Definition countRow (sessionCode : string) (requiredSet : keySet) (completedSet : keySet)
    (r : taskRow) : keySet :=
  if negb (String.eqb (tCode r) sessionCode) then completedSet
  else
    let taskName := normalizeTaskName_ (Str (tTask r)) in
    let isCompleted := String.eqb (tEvent r) "Completed" || String.eqb (tEvent r) "Skipped" in
    if isCompleted && holds requiredSet taskName then assign completedSet taskName
    else completedSet.

(** The values computed by [updateCompletedTasksCount] and handed to
    [setManyByHeader_] when the session has a row. *)
Record counts := mkCounts {
  completedCount : nat;
  requiredTotal : nat;
  tasksCompleted : string;
  status : string
}.

Definition updateCompletedTasksCount (ss : workbook) (sessionCode : string) : counts :=
  let requiredSet := requiredSetOf (getRequiredTasksForSession_ ss sessionCode) in
  let completedSet := fold_left (countRow sessionCode requiredSet) (taskRows ss) ∅ in
  let completedCount := size completedSet in
  let requiredTotal := size requiredSet in
  {| completedCount := completedCount; requiredTotal := requiredTotal;
     tasksCompleted := (pretty completedCount ++ "/" ++ pretty requiredTotal)%string;
     status := if (completedCount =? requiredTotal)%nat then "Complete"%string
               else "Active"%string |}.

End Completion.

(** ** Leaving the page during an external task *)

Module Departure.

(** Payloads of the departure messages; the session code and the device
    class, which these handlers only read, are left out. *)
Inductive signal :=
| TaskDeparted (task : string) (timestamp : Z)
| TaskReturned (task : string) (away : Z) (timestamp : Z)
| ExternalTaskStuck (task : string) (away : Z) (timestamp : Z)
| Heartbeat (task : string) (timestamp : Z).

(** The properties of [state] used by the heartbeat, the two timers, the
    [taskName] captured by the interval callback, and the messages sent. *)
Record monitor := mkMonitor {
  currentTaskType : string;
  externalDepart : option Z;
  heartbeatInterval : option Z;
  heartbeatMisses : Z;
  externalNotified : bool;
  heartbeatTask : string;
  taskTimer : Timer.timer;
  sessionTimer : Timer.timer;
  signals : list signal
}.

Definition send (s : signal) (m : monitor) : monitor :=
  {| currentTaskType := currentTaskType m; externalDepart := externalDepart m;
     heartbeatInterval := heartbeatInterval m; heartbeatMisses := heartbeatMisses m;
     externalNotified := externalNotified m; heartbeatTask := heartbeatTask m;
     taskTimer := taskTimer m; sessionTimer := sessionTimer m;
     signals := signals m ++ [s] |}.

Definition withTimers (t s : Timer.timer) (m : monitor) : monitor :=
  {| currentTaskType := currentTaskType m; externalDepart := externalDepart m;
     heartbeatInterval := heartbeatInterval m; heartbeatMisses := heartbeatMisses m;
     externalNotified := externalNotified m; heartbeatTask := heartbeatTask m;
     taskTimer := t; sessionTimer := s; signals := signals m |}.

Definition withDepart (v : option Z) (m : monitor) : monitor :=
  {| currentTaskType := currentTaskType m; externalDepart := v;
     heartbeatInterval := heartbeatInterval m; heartbeatMisses := heartbeatMisses m;
     externalNotified := externalNotified m; heartbeatTask := heartbeatTask m;
     taskTimer := taskTimer m; sessionTimer := sessionTimer m;
     signals := signals m |}.

Definition withNotified (v : bool) (m : monitor) : monitor :=
  {| currentTaskType := currentTaskType m; externalDepart := externalDepart m;
     heartbeatInterval := heartbeatInterval m; heartbeatMisses := heartbeatMisses m;
     externalNotified := v; heartbeatTask := heartbeatTask m;
     taskTimer := taskTimer m; sessionTimer := sessionTimer m;
     signals := signals m |}.

(** [startHeartbeat(taskName)]; [id] is the handle returned by
    [setInterval]. *)
Definition startHeartbeat (taskName : string) (id : Z) (m : monitor) : monitor :=
  if Timer.truthy (heartbeatInterval m) then m
  else
    {| currentTaskType := currentTaskType m; externalDepart := externalDepart m;
       heartbeatInterval := Some id; heartbeatMisses := 0;
       externalNotified := externalNotified m; heartbeatTask := taskName;
       taskTimer := taskTimer m; sessionTimer := sessionTimer m;
       signals := signals m |}.

(** [stopHeartbeat()] *)
Definition stopHeartbeat (m : monitor) : monitor :=
  if Timer.truthy (heartbeatInterval m) then
    {| currentTaskType := currentTaskType m; externalDepart := externalDepart m;
       heartbeatInterval := None; heartbeatMisses := 0;
       externalNotified := false; heartbeatTask := heartbeatTask m;
       taskTimer := taskTimer m; sessionTimer := sessionTimer m;
       signals := signals m |}
  else m.

(** The interval callback, which runs only while the interval is set.
    [now] is the reading used for [away], [stuckAt] and [beatAt] the
    timestamps of the two messages. *)
Definition beat (now stuckAt beatAt : Z) (m : monitor) : monitor :=
  if negb (Timer.truthy (heartbeatInterval m)) then m
  else
    let away := now - Timer.num (externalDepart m) in
    let m :=
      if Timer.truthy (externalDepart m) && (away >? 600000) && negb (externalNotified m)
      then withNotified true
             (send (ExternalTaskStuck (heartbeatTask m) (Aggregator.roundDiv away 1000) stuckAt) m)
      else m in
    send (Heartbeat (heartbeatTask m) beatAt) m.

(** The [blur] listener.  [task] is the standard name of the current
    task, [tp] and [sp] are the readings of the two [pause] calls. *)
Definition blur (task : string) (tp sp departAt sentAt id : Z) (m : monitor) : monitor :=
  let m := withTimers (Timer.pause "blur" tp (taskTimer m))
             (Timer.pause "blur" sp (sessionTimer m)) m in
  if String.eqb (currentTaskType m) "external" then
    startHeartbeat task id (send (TaskDeparted task sentAt) (withDepart (Some departAt) m))
  else m.

(** The [focus] listener.  [tr] and [sr] are the readings of the two
    [resume] calls, [now1] the one used for [away], [now2] the one stored
    in [taskTimer.lastTick]. *)
Definition focus (task : string) (tr sr : Z * Z * Z) (now1 now2 sentAt : Z) (m : monitor)
    : monitor :=
  let m := withTimers (Timer.resume tr.1.1 tr.1.2 tr.2 (taskTimer m))
             (Timer.resume sr.1.1 sr.1.2 sr.2 (sessionTimer m)) m in
  if String.eqb (currentTaskType m) "external" && Timer.truthy (externalDepart m) then
    let away := now1 - Timer.num (externalDepart m) in
    let t := taskTimer m in
    let t :=
      {| Timer.startTime := Timer.startTime t; Timer.endTime := Timer.endTime t;
         Timer.activeTime := Timer.activeTime t; Timer.lastActivity := Timer.lastActivity t;
         Timer.isPaused := Timer.isPaused t; Timer.pauseReason := Timer.pauseReason t;
         Timer.pauseCount := Timer.pauseCount t;
         Timer.inactivityTime := Timer.inactivityTime t;
         Timer.pausedTime := Timer.pausedTime t; Timer.pauseStart := Timer.pauseStart t;
         Timer.lastTick := now2; Timer.intervalId := Timer.intervalId t;
         Timer.externalTime := Timer.externalTime t + away |} in
    let m := withTimers t (sessionTimer m) m in
    let m := send (TaskReturned task (Aggregator.roundDiv away 1000) sentAt) m in
    stopHeartbeat (withDepart None m)
  else m.

(** [state.currentTaskType = v], as [startTask], [completeTask] and
    [skipTask] do. *)
Definition setTaskType (v : string) (m : monitor) : monitor :=
  {| currentTaskType := v; externalDepart := externalDepart m;
     heartbeatInterval := heartbeatInterval m; heartbeatMisses := heartbeatMisses m;
     externalNotified := externalNotified m; heartbeatTask := heartbeatTask m;
     taskTimer := taskTimer m; sessionTimer := sessionTimer m;
     signals := signals m |}.

End Departure.

(** * Scenarios and auxiliary notions *)

(** ** Timer scenarios and invariants *)

Section TimerNotions.

Import Timer.

(** A clock origin for the scenarios, in milliseconds since the epoch. *)
Definition origin : Z := 1700000000000.

(** The instant [k] seconds after the origin. *)
Definition sec (k : Z) : Z := origin + 1000 * k.

(** One interval tick at second [k] on a visible page, no callback. *)
Definition tickAt (k : Z) : call := Tick None false (sec k) (sec k).

(** Input at second [k]. *)
Definition activityAt (k : Z) : call := RecordActivity (sec k) (sec k) (sec k) (sec k).

(** Ticks at seconds [from + 1], ..., [from + n]. *)
Fixpoint ticksAfter (from : Z) (n : nat) : list call :=
  match n with
  | O => []
  | S n' => tickAt (from + 1) :: ticksAfter (from + 1) n'
  end.

(** Seconds 1 to 10: a tick and an input each second. *)
Fixpoint busyAfter (from : Z) (n : nat) : list call :=
  match n with
  | O => []
  | S n' => tickAt (from + 1) :: activityAt (from + 1) :: busyAfter (from + 1) n'
  end.

(** The participant answers the inactivity prompt by confirming: the
    callback is set and resumes the timer it was called on. *)
Definition confirms (onInactivity : option prompt) : bool :=
  match onInactivity with
  | Some (Confirmed _ _ _ _ _ _ _) => true
  | _ => false
  end.

(** The answer to a prompt shown at second [n] and confirmed one second
    later. *)
Definition confirmedAt (n : Z) : option prompt :=
  Some (Confirmed (sec (n + 1)) (sec (n + 1)) (sec (n + 1)) (sec (n + 1))
          (sec (n + 1)) (sec (n + 1)) (sec (n + 1))).

(** A timer started at the origin, with input until second 10 and then
    ticks only, observed after the tick of second [10 + n]. *)
Definition idleRun (n : nat) : timer :=
  run createTimer (Start origin origin origin 1 :: busyAfter 0 10 ++ ticksAfter 10 n).

(** A task timer that ran for three seconds and was stopped. *)
Definition stoppedTimer : timer :=
  run createTimer (Start origin origin origin 1 :: ticksAfter 0 3 ++ [Stop (sec 3) (sec 3)]).

(** A task timer that was paused by the participant after three seconds
    and stopped twice, at seconds 8 and 13, as two [completeTask] calls in
    a row do. *)
Definition doubleStopped : timer :=
  run createTimer
    (Start origin origin origin 1 :: ticksAfter 0 3 ++
     [Pause "manual" (sec 3); Stop (sec 8) (sec 8); Stop (sec 13) (sec 13)]).

(** The clock readings a call takes, in program order. *)
Definition promptReadings (cb : option prompt) : list Z :=
  match cb with
  | Some (Confirmed r1 r2 r3 a0 a1 a2 a3) => [r1; r2; r3; a0; a1; a2; a3]
  | _ => []
  end.

Definition readings (c : call) : list Z :=
  match c with
  | Start t1 t2 t3 _ => [t1; t2; t3]
  | Tick cb _ now tp => now :: tp :: promptReadings cb
  | RecordActivity t0 t1 t2 t3 => [t0; t1; t2; t3]
  | Pause _ now => [now]
  | Resume t1 t2 t3 => [t1; t2; t3]
  | Stop t1 t2 => [t1; t2]
  end.

(** The readings never decrease, starting from [c]. *)
Fixpoint chrono (c : Z) (l : list Z) : bool :=
  match l with
  | [] => true
  | x :: l' => (c <=? x) && chrono x l'
  end.

Definition isStop (c : call) : bool :=
  match c with
  | Stop _ _ => true
  | _ => false
  end.

Definition manualOpen (t : timer) : bool :=
  isPaused t && isReason "manual" t && truthy (pauseStart t).

Definition buckets (t : timer) : Z := activeTime t + inactivityTime t + pausedTime t.

(** The three buckets cover disjoint stretches of time that end no later
    than the last tick, and no later than the start of an open manual
    pause. *)
Definition covered (t : timer) (c : Z) : Prop :=
  endTime t = None /\
  lastTick t <= c /\
  buckets t <= lastTick t - num (startTime t) /\
  (manualOpen t = true -> buckets t <= num (pauseStart t) - num (startTime t)).

End TimerNotions.

(** ** Shift records *)

Section Float64Notions.

Import Float64.

(** A shift record [(m, r, s)] stands for an integer [x] cut at bit [k]:
    [m] is the part above the cut and [r] says that the part below is at
    least half a unit. *)
Definition cut (x k : Z) (mrs : shr_record) : Prop :=
  0 <= k /\ 0 <= shr_m mrs /\
  exists rem, x = shr_m mrs * 2 ^ k + rem /\ 0 <= rem < 2 ^ k /\
              (shr_r mrs = true -> 2 ^ k <= 2 * rem).

Definition one : spec_float := S754_finite false 4503599627370496 (-52).

End Float64Notions.

(** ** Code characters *)

Section CodeNotions.

Import Text Store Float64.

Definition isCodeChar (c : ascii) : bool := isUpper c || isDigit c.

(** The result of [charAt] is one code character. *)
Definition oneCodeChar (s : string) : bool :=
  match s with
  | String c EmptyString => isCodeChar c
  | _ => false
  end.

End CodeNotions.

(** ** Store scenarios *)

Section StoreNotions.

Import Sequencer Text Store Float64.

(** Draws of [Math.random()] in the cells 0 to 7 of 36: the session code
    ABCDEFGH. *)
Definition drawsABCDEFGH (k : nat) : spec_float :=
  nth k (map (fun i => div (ofZ (2 * i + 1)) (ofZ 72)) [0; 1; 2; 3; 4; 5; 6; 7])
    (S754_zero false).

Definition sampleForm : form :=
  {| firstInitial := "m"; lastInitial := "s"; emailField := " ms@example.org ";
     hearingField := "Deaf"; fluencyField := "Native"; consentCodeField := "C1";
     consentChecked := true |}.

(** A desktop page creating a session at the clock origin, every backend
    working. *)
Definition sampleCreation : creation :=
  {| mobile := false; proceed := true; rand := drawsABCDEFGH;
     idAt := origin; startAt := origin; activityAt := origin;
     saveAt := origin; saveStamp := origin; saveWith := healthy;
     createdAt := origin |}.

Definition createdPage : world := createNewSession sampleForm sampleCreation freshPage.

(** What one [completeTask] call sees: the instant [k] seconds after the
    origin, every backend working. *)
Definition completionAt (k : Z) : completion :=
  {| stopAt1 := sec k; stopAt2 := sec k; summaryAt1 := sec k; summaryAt2 := sec k;
     storeWith := healthy; storeAt := sec k; storeStamp := sec k; sentAt := sec k;
     logAt1 := sec k; logAt2 := sec k; logSentAt := sec k |}.

(** The first task is started at the origin and reported complete after
    60 s, and again one second later. *)
Definition taskStarted : world :=
  startTask "VCN" origin origin origin 1 origin createdPage.

Definition completedOnce : world := completeTask "VCN" (completionAt 60) taskStarted.

Definition completedTwice : world := completeTask "VCN" (completionAt 61) completedOnce.

(** The guards of [createNewSession]: every field filled in, consent
    given, and the device warning accepted. *)
Definition accepted (f : form) (c : creation) : bool :=
  nonEmpty (toUpperCase (trim (firstInitial f))) &&
  nonEmpty (toUpperCase (trim (lastInitial f))) &&
  nonEmpty (hearingField f) && nonEmpty (fluencyField f) &&
  nonEmpty (trim (consentCodeField f)) && consentChecked f &&
  negb (mobile c && negb (proceed c)).

(** A page opened later that sees the same collection. *)
Definition reloadedPage : world := setDb (db createdPage) freshPage.



Definition sampleResumption : resumption :=
  {| fetched := GetAnswers; sheets := NotConfigured; resaveWith := healthy;
     resaveAt := sec 600; resaveStamp := sec 600;
     timerAt1 := sec 600; timerAt2 := sec 600; timerAt3 := sec 600; timerId := 1 |}.


(** The local cache refuses the write (quota exceeded); the other two
    backends work. *)
Definition cacheFull : backends := mkBackends SetResolves ItemThrows ItemStored.

(** The document store throws on the write; the other two backends work. *)
Definition storeThrows : backends := mkBackends SetThrows ItemStored ItemStored.

End StoreNotions.

(** ** Aggregator sums and windows *)

Section AggregatorNotions.

Import Aggregator.

Definition sumZ (l : list Z) : Z := fold_right Z.add 0 l.

Definition positivePart (z : Z) : Z := if z >? 0 then z else 0.

(** The rows of [Task Progress] that carry the session code. *)
Definition rowsOf (sessionCode : string) (rows : list progressRow) : list progressRow :=
  List.filter (fun r => String.eqb (pCode r) sessionCode) rows.

(** [x] lies between the running minimum and maximum. *)
Definition within (w : window) (x : Z) : Prop :=
  (exists lo, fst w = Some lo /\ lo <= x) /\ (exists hi, snd w = Some hi /\ x <= hi).

(** The timestamps of a progress row. *)
Definition stamps (r : progressRow) : list (option Z) := [pTimestamp r; pStart r; pEnd r].

(** A session of 100 minutes with one task row: 20 minutes active and 10
    minutes inactive, no pause. *)
Definition sampleSheet : spreadsheet :=
  {| sessions :=
       [mkSessionRow "ABCDEFGH" (Some origin) (Some (origin + 6000000)) 0 0 0 0];
     progress :=
       [mkProgressRow (Some (origin + 1800000)) "ABCDEFGH" (Some origin)
          (Some (origin + 1800000)) 1200 600];
     events := [] |}.

End AggregatorNotions.

(** ** Hash, calls during a pause, steady runs *)

Section MoreNotions.

Import Sequencer Timer.

(** Horner form of the polynomial c0·31^(n-1) + ... + c(n-1) over the
    integers, without wrap-around. *)
Definition polynomial (l : list ascii) : Z :=
  fold_left (fun h c => 31 * h + charCode c) l 0.

(** Both reads of every swap of the loop entered at [i] hit the array. *)
Fixpoint readsInside {A} (i : nat) (rng : Z) (a : list A) : bool :=
  match i with
  | O => true
  | S i' =>
      let '(rng', u) := mulberry32 rng in
      bool_decide (i < length a)%nat && bool_decide (pick u i <= i)%nat &&
      readsInside i' rng' (swap a i (pick u i))
  end.

(** Calls that reach a timer while a pause is open: interval ticks, input
    events, further [pause] calls. *)
Definition duringPause (c : call) : bool :=
  match c with
  | Tick _ _ _ _ | RecordActivity _ _ _ _ | Pause _ _ => true
  | _ => false
  end.

(** A run of interval ticks on a visible page and of input events in
    which no tick finds the last activity more than 120 s back. *)
Fixpoint steady (t : timer) (cs : list call) : bool :=
  match cs with
  | [] => true
  | c :: cs' =>
      match c with
      | Tick _ false now _ => now - lastActivity t <=? 120000
      | RecordActivity _ _ _ _ => true
      | _ => false
      end && steady (step t c) cs'
  end.

(** No accumulator is negative, and neither the last tick nor the start
    of the last pause lies after the clock reading [c]. *)
Definition sound (t : timer) (c : Z) : Prop :=
  0 <= activeTime t /\ 0 <= inactivityTime t /\ 0 <= pausedTime t /\
  0 <= pauseCount t /\ 0 <= c /\ lastTick t <= c /\ num (pauseStart t) <= c.

End MoreNotions.

(** ** Progress lists, task rows *)

Section CoverageNotions.

Import Store Completion.

(** The two progress lists hold no code twice, and every skipped task
    counts as completed. *)
Definition wellFormed (s : session) : Prop :=
  NoDup (completedTasks s) /\ NoDup (skippedTasks s) /\
  skippedTasks s ⊆ completedTasks s.

(** The row reports the task [name] of the session as completed or
    skipped. *)
Definition reports (sessionCode : string) (name : string) (r : taskRow) : Prop :=
  tCode r = sessionCode /\
  (tEvent r = "Completed"%string \/ tEvent r = "Skipped"%string) /\
  normalizeTaskName_ (Str (tTask r)) = Str name.

(** The names that [getRequiredTasksForSession_] starts from. *)
Definition requiredFor (ss : workbook) (sessionCode : string) : list string :=
  requiredNames (sessionIsMobile ss sessionCode) (aslctOptional (taskRows ss) sessionCode).

(** What the page does to its session, [resumeSession] apart: the
    session functions, and the timer calls made by the interval and the
    listeners on the session timer. *)
Inductive pageCall :=
| CreateNewSession (f : form) (c : creation)
| StartTask (taskCode : string) (t1 t2 t3 id sentAt : Z)
| CompleteTask (taskCode : string) (c : completion)
| SkipTask (taskCode : string) (c : completion)
| Save (b : backends) (now stamp : Z)
| WelcomeBack (confirmed : bool) (data : session) (b : backends) (now stamp : Z)
| PauseStudy (c : Study.pausing)
| ResumeStudy (c : Study.resuming)
| SaveAndExit (c : Study.pausing)
| MarkComplete (c : Study.finishing)
| Listener (c : Timer.call).

Definition onBase (f : world -> world) (p : Study.page) : Study.page :=
  {| Study.base := f (Study.base p); Study.notices := Study.notices p |}.

Definition pageStep (p : Study.page) (c : pageCall) : Study.page :=
  match c with
  | CreateNewSession f c => onBase (createNewSession f c) p
  | StartTask x t1 t2 t3 id sentAt => onBase (startTask x t1 t2 t3 id sentAt) p
  | CompleteTask x c => onBase (completeTask x c) p
  | SkipTask x c => onBase (skipTask x c) p
  | Save b now stamp => onBase (saveState b now stamp) p
  | WelcomeBack confirmed data b now stamp =>
      onBase (Study.welcomeBack confirmed data b now stamp) p
  | PauseStudy c => Study.pauseStudy c p
  | ResumeStudy c => Study.resumeStudy c p
  | SaveAndExit c => Study.saveAndExit c p
  | MarkComplete c => Study.markComplete c p
  | Listener c =>
      if Timer.isMutator c
      then onBase (fun w => setSessionTimer (Timer.step (sessionTimer w) c) w) p
      else p
  end.

Definition pageRun (p : Study.page) (cs : list pageCall) : Study.page :=
  fold_left pageStep cs p.

(** A page that created its session at the origin. *)
Definition createdStudy : Study.page := Study.mkPage createdPage [].

Definition pausingAt (k : Z) : Study.pausing :=
  Study.mkPausing (sec k) (sec k) (sec k) (sec k) healthy (sec k) (sec k).

Definition resumingAt (k : Z) : Study.resuming :=
  Study.mkResuming (sec k) (sec k) (sec k, sec k, sec k) (sec k, sec k, sec k)
    healthy (sec k) (sec k).

Definition finishingAt (k : Z) : Study.finishing :=
  Study.mkFinishing (sec k) (sec k) (sec k) (sec k) (sec k) (sec k).

(** The timestamps logged for the session in [Task Progress] and
    [Session Events], in the order in which the two loops meet them. *)
Definition loggedStamps (ss : Aggregator.spreadsheet) (sessionCode : string) : list Z :=
  flat_map
    (fun r => if String.eqb (Aggregator.pCode r) sessionCode
              then omap id (stamps r) else [])
    (Aggregator.progress ss) ++
  flat_map
    (fun r => if String.eqb (Aggregator.eCode r) sessionCode
              then omap id [Aggregator.eTimestamp r] else [])
    (Aggregator.events ss).

(** The smallest, the largest of a start value (if any) and a list. *)
Definition lowest (a : option Z) (l : list Z) : option Z :=
  fold_left (fun a v => Some (match a with Some lo => Z.min lo v | None => v end)) l a.

Definition highest (a : option Z) (l : list Z) : option Z :=
  fold_left (fun a v => Some (match a with Some hi => Z.max hi v | None => v end)) l a.

(** What happens to the monitor of an external task. *)
Inductive departureEvent :=
| Blur (task : string) (tp sp departAt sentAt id : Z)
| Focus (task : string) (tr sr : Z * Z * Z) (now1 now2 sentAt : Z)
| Beat (now stuckAt beatAt : Z)
| SetTaskType (v : string).

Definition react (m : Departure.monitor) (e : departureEvent) : Departure.monitor :=
  match e with
  | Blur task tp sp departAt sentAt id => Departure.blur task tp sp departAt sentAt id m
  | Focus task tr sr now1 now2 sentAt => Departure.focus task tr sr now1 now2 sentAt m
  | Beat now stuckAt beatAt => Departure.beat now stuckAt beatAt m
  | SetTaskType v => Departure.setTaskType v m
  end.

Definition isStuck (s : Departure.signal) : bool :=
  match s with
  | Departure.ExternalTaskStuck _ _ _ => true
  | _ => false
  end.

Definition isReturned (s : Departure.signal) : bool :=
  match s with
  | Departure.TaskReturned _ _ _ => true
  | _ => false
  end.

(** The participant started an external task at the origin and left the
    page five seconds later; the log starts empty. *)
Definition awayMonitor : Departure.monitor :=
  Departure.mkMonitor "external" (Some (sec 5)) (Some 7) 0 false
    "Virtual Campus Navigation"
    (Timer.pause "blur" (sec 5) (Timer.start origin origin origin 1 Timer.createTimer))
    (Timer.pause "blur" (sec 5) Timer.createTimer) [].

(** Two heartbeats after more than ten minutes away. *)
Definition lateBeats : list departureEvent :=
  [Beat (sec 700) (sec 700) (sec 700); Beat (sec 730) (sec 730) (sec 730)].

(** Every data row of the [Sessions] sheet carries a code of the form
    [A-Z0-9]{8} in its first column, as the rows written for the codes of
    [generateCode] do. *)
Definition codedSheet (ss : Aggregator.spreadsheet) : bool :=
  forallb (fun r => CODE_REGEX (Aggregator.rowCode r)) (Aggregator.sessions ss).




End CoverageNotions.

(** * Properties *)

(** ** 32-bit operators *)

Section Int32Facts.

Import Int32.

Lemma toInt32_range z : - 2 ^ 31 <= toInt32 z < 2 ^ 31.
Proof. unfold toInt32. pose proof (Z.mod_pos_bound (z + 2 ^ 31) (2 ^ 32)). lia. Qed.

Lemma toUint32_range z : 0 <= toUint32 z < 2 ^ 32.
Proof. unfold toUint32. apply Z.mod_pos_bound. lia. Qed.

Lemma toInt32_small z : - 2 ^ 31 <= z < 2 ^ 31 -> toInt32 z = z.
Proof. intros H. unfold toInt32. rewrite Z.mod_small; lia. Qed.

Lemma ushr_range x n : 0 <= ushr x n < 2 ^ 32.
Proof.
  unfold ushr. pose proof (toUint32_range x) as Hx.
  pose proof (Z.mod_pos_bound n 32 ltac:(lia)) as Hn.
  rewrite Z.shiftr_div_pow2 by lia.
  assert (0 < 2 ^ (n mod 32)) by (apply Z.pow_pos_nonneg; lia).
  split.
  - apply Z.div_pos; lia.
  - apply Z.le_lt_trans with (toUint32 x); [|lia].
    apply Z.div_le_upper_bound; nia.
Qed.

Lemma hashStep_range h c : - 2 ^ 31 <= Sequencer.hashStep h c < 2 ^ 31.
Proof. apply toInt32_range. Qed.

Lemma mulberry32_output_range a : 0 <= snd (Sequencer.mulberry32 a) < 2 ^ 32.
Proof. apply ushr_range. Qed.

End Int32Facts.

(** ** Sequencer *)

Section SequencerFacts.

Import Sequencer.

(** The index drawn for position [i] never exceeds [i]. *)
Lemma pick_le u i : 0 <= u < 2 ^ 32 -> (pick u i <= i)%nat.
Proof.
  intros Hu. unfold pick.
  assert (u * Z.of_nat (i + 1) / 2 ^ 32 < Z.of_nat (i + 1)).
  { apply Z.div_lt_upper_bound; [lia|]. nia. }
  assert (0 <= u * Z.of_nat (i + 1) / 2 ^ 32) by (apply Z.div_pos; nia).
  lia.
Qed.

Lemma swap_Permutation {A} (a : list A) i j : swap a i j ≡ₚ a.
Proof.
  unfold swap.
  destruct (a !! i) as [ai|] eqn:Hi; [|done].
  destruct (a !! j) as [aj|] eqn:Hj; [|done].
  by apply Permutation_insert_swap.
Qed.

Lemma swap_length {A} (a : list A) i j : length (swap a i j) = length a.
Proof.
  unfold swap. destruct (a !! i); [|done]. destruct (a !! j); [|done].
  by rewrite !length_insert.
Qed.

(** Inside the loop both reads of the swap hit the array. *)
Lemma swap_in_range {A} (a : list A) i j :
  (i < length a)%nat -> (j <= i)%nat ->
  exists ai aj, a !! i = Some ai /\ a !! j = Some aj /\
                swap a i j = <[j:=ai]> (<[i:=aj]> a).
Proof.
  intros Hi Hj.
  destruct (lookup_lt_is_Some_2 a i Hi) as [ai Hai].
  destruct (lookup_lt_is_Some_2 a j ltac:(lia)) as [aj Haj].
  exists ai, aj. unfold swap. by rewrite Hai, Haj.
Qed.

Lemma shuffleLoop_Permutation {A} i rng (a : list A) : shuffleLoop i rng a ≡ₚ a.
Proof.
  revert rng a. induction i as [|i IH]; intros rng a; simpl; [done|].
  destruct (mulberry32 rng) as [rng' u].
  rewrite IH. apply swap_Permutation.
Qed.

Lemma shuffleWithSeed_Permutation {A} (array : list A) seed :
  shuffleWithSeed array seed ≡ₚ array.
Proof. apply shuffleLoop_Permutation. Qed.

Lemma shuffleWithSeed_length {A} (array : list A) seed :
  length (shuffleWithSeed array seed) = length array.
Proof. apply Permutation_length, shuffleWithSeed_Permutation. Qed.

Lemma filter_not_demo_id (l : list string) :
  DEMO ∉ l -> filter (fun code => code <> DEMO) l = l.
Proof.
  induction l as [|x l IH]; intros Hn; [done|].
  rewrite not_elem_of_cons in Hn. destruct Hn as [Hx Hl].
  rewrite filter_cons_True by congruence. by rewrite IH.
Qed.

Lemma demo_not_in_filter (l : list string) :
  DEMO ∉ filter (fun code => code <> DEMO) l.
Proof. rewrite list_elem_of_filter. tauto. Qed.

(** Normalising twice is normalising once. *)
Lemma ensureDemographicsLast_idempotent (sequence : list string) :
  ensureDemographicsLast (ensureDemographicsLast sequence) = ensureDemographicsLast sequence.
Proof.
  unfold ensureDemographicsLast. rewrite filter_app, filter_cons_False by (intros H; by apply H).
  rewrite filter_nil, app_nil_r. f_equal.
  apply filter_not_demo_id, demo_not_in_filter.
Qed.

Lemma count_occ_filter_demo (l : list string) :
  count_occ string_dec (filter (fun code => code <> DEMO) l) DEMO = 0%nat.
Proof.
  apply count_occ_not_In. rewrite <- list_elem_of_In. apply demo_not_in_filter.
Qed.

(** Shuffling and then normalising. *)
Lemma ensure_shuffle (tasks : list string) (seed : Z) :
  let s := ensureDemographicsLast (shuffleWithSeed tasks seed) in
  last s = Some DEMO /\
  count_occ string_dec s DEMO = 1%nat /\
  removelast s ≡ₚ filter (fun code => code <> DEMO) tasks /\
  (DEMO ∉ tasks -> removelast s ≡ₚ tasks) /\
  (NoDup tasks -> NoDup s).
Proof.
  intros s. subst s. unfold ensureDemographicsLast.
  set (body := filter (fun code => code <> DEMO) (shuffleWithSeed tasks seed)).
  assert (Hbody : body ≡ₚ filter (fun code => code <> DEMO) tasks).
  { unfold body. by rewrite shuffleWithSeed_Permutation. }
  repeat split.
  - apply last_snoc.
  - rewrite count_occ_app. unfold body. rewrite count_occ_filter_demo.
    simpl. destruct (string_dec DEMO DEMO); [done|congruence].
  - by rewrite removelast_last.
  - intros Hn. rewrite removelast_last, Hbody. by rewrite filter_not_demo_id.
  - intros Hnd. apply NoDup_app. split; [|split].
    + rewrite Hbody. by apply NoDup_filter.
    + intros x Hx Hx'. apply list_elem_of_singleton in Hx'. subst x.
      revert Hx. apply demo_not_in_filter.
    + apply NoDup_singleton.
Qed.

(** C3.  For every task list and seed the sequence built by shuffling
    and then normalising ends with DEMO, contains DEMO exactly once, and
    what precedes DEMO is a permutation of the task list without DEMO
    (of the whole list when DEMO is not in it, as for the desktop and the
    mobile list); a duplicate-free task list gives a duplicate-free
    sequence. *)
Theorem sequence_terminal_last_permutation (tasks : list string) (seed : Z) :
  let s := ensureDemographicsLast (shuffleWithSeed tasks seed) in
  last s = Some DEMO /\
  count_occ string_dec s DEMO = 1%nat /\
  removelast s ≡ₚ filter (fun code => code <> DEMO) tasks /\
  (DEMO ∉ tasks -> removelast s ≡ₚ tasks) /\
  (NoDup tasks -> NoDup s).
Proof. apply ensure_shuffle. Qed.

Lemma NoDup_DESKTOP_TASKS : NoDup DESKTOP_TASKS.
Proof. apply (bool_decide_unpack _). vm_compute. exact I. Qed.

Lemma NoDup_MOBILE_TASKS : NoDup MOBILE_TASKS.
Proof. apply (bool_decide_unpack _). vm_compute. exact I. Qed.

Lemma demo_not_in_deviceTasks isMobile : DEMO ∉ deviceTasks isMobile.
Proof. destruct isMobile; apply (bool_decide_unpack _); vm_compute; exact I. Qed.

Lemma NoDup_deviceTasks isMobile : NoDup (deviceTasks isMobile).
Proof. destruct isMobile; [apply NoDup_MOBILE_TASKS|apply NoDup_DESKTOP_TASKS]. Qed.

(** The instance for the two device lists. *)
Corollary buildSequence_device isMobile seed :
  last (buildSequence isMobile seed) = Some DEMO /\
  removelast (buildSequence isMobile seed) ≡ₚ deviceTasks isMobile /\
  NoDup (buildSequence isMobile seed).
Proof.
  destruct (ensure_shuffle (deviceTasks isMobile) seed) as (Hl & _ & _ & Hp & Hn).
  split; [exact Hl|]. split.
  - apply Hp, demo_not_in_deviceTasks.
  - apply Hn, NoDup_deviceTasks.
Qed.

(** The desktop sequence of session code ABCDEFGH. *)
Example buildSequence_ABCDEFGH :
  hashCode "ABCDEFGH" = 2042300548 /\
  buildSequence false (sessionSeed "ABCDEFGH")
  = ["VCN"; "ASLCT"; "RC"; "SN"; "ID"; "MRT"; "DEMO"]%string.
Proof. split; vm_compute; reflexivity. Qed.

(** *** Two runs of the sequencer *)

Lemma lookup_snoc {A} (h : list A) (x : A) (rest : list A) :
  (h ++ x :: rest) !! length h = Some x.
Proof. by apply list_lookup_middle. Qed.

Lemma insert_snoc {A} (h : list A) (x z : A) (rest : list A) :
  <[length h := z]> (h ++ x :: rest) = h ++ z :: rest.
Proof.
  replace (length h) with (length h + 0)%nat by lia.
  by rewrite insert_app_r.
Qed.

Lemma lookup_snoc_next {A} (h : list A) (x y : A) (rest : list A) :
  (h ++ x :: y :: rest) !! S (length h) = Some y.
Proof.
  replace (S (length h)) with (length (h ++ [x])) by (rewrite length_app; simpl; lia).
  change (h ++ x :: y :: rest) with (h ++ [x] ++ y :: rest).
  rewrite app_assoc. apply lookup_snoc.
Qed.

Lemma insert_snoc_next {A} (h : list A) (x y z : A) (rest : list A) :
  <[S (length h) := z]> (h ++ x :: y :: rest) = h ++ x :: z :: rest.
Proof.
  replace (S (length h)) with (length (h ++ [x])) by (rewrite length_app; simpl; lia).
  change (h ++ x :: y :: rest) with (h ++ [x] ++ y :: rest).
  rewrite app_assoc, insert_snoc. by rewrite <- app_assoc.
Qed.

Lemma contents_prefix (h h' : Objects.heap) (r : Objects.ref) :
  h `prefix_of` h' -> (r < length h)%nat -> Objects.contents h' r = Objects.contents h r.
Proof.
  intros [k ->] Hr. unfold Objects.contents, Objects.heap in *. by rewrite lookup_app_l.
Qed.

(** The loop writes to the closure and to the array behind [a] only, and
    leaves in the array what the loop over the values computes. *)
Lemma shuffleLoopAt_spec i : forall (h : list Objects.object) rng (l : list string),
  exists rng',
    Objects.shuffleLoopAt i (length h) (S (length h))
      (h ++ [Objects.Closure rng; Objects.Array l])
    = h ++ [Objects.Closure rng'; Objects.Array (shuffleLoop i rng l)].
Proof.
  induction i as [|i IH]; intros h rng l; [by exists rng|].
  cbn [Objects.shuffleLoopAt shuffleLoop].
  unfold Objects.call, Objects.captured, Objects.heap. rewrite lookup_snoc.
  destruct (mulberry32 rng) as [rng1 u]. rewrite insert_snoc.
  unfold Objects.swapAt, Objects.contents, Objects.heap.
  rewrite lookup_snoc_next, insert_snoc_next.
  apply IH.
Qed.

Lemma shuffleWithSeedAt_spec array seed (h : list Objects.object) :
  exists rng',
    Objects.shuffleWithSeedAt array seed h
    = (S (length h),
       h ++ [Objects.Closure rng';
             Objects.Array (shuffleWithSeed (Objects.contents h array) seed)]).
Proof.
  unfold Objects.shuffleWithSeedAt, Objects.mulberry32At, Objects.slice, shuffleWithSeed.
  rewrite length_app, Nat.add_1_r, <- app_assoc. cbn [app].
  assert (Hl : Objects.contents (h ++ [Objects.Closure seed]) array
               = Objects.contents h array).
  { unfold Objects.contents, Objects.heap.
    destruct (decide (array < length h)%nat) as [Hlt|Hge].
    - by rewrite lookup_app_l.
    - rewrite lookup_app_r, (lookup_ge_None_2 h) by lia.
      by destruct (array - length h)%nat. }
  rewrite Hl.
  assert (Hc : Objects.contents
                 (h ++ [Objects.Closure seed; Objects.Array (Objects.contents h array)])
                 (S (length h)) = Objects.contents h array).
  { unfold Objects.contents at 1. unfold Objects.heap. by rewrite lookup_snoc_next. }
  rewrite Hc.
  destruct (shuffleLoopAt_spec (length (Objects.contents h array) - 1) h seed
              (Objects.contents h array)) as [rng' ->].
  by exists rng'.
Qed.

Lemma ensureDemographicsLastAt_spec sequence (h : list Objects.object) :
  Objects.ensureDemographicsLastAt sequence h
  = (length h,
     h ++ [Objects.Array (ensureDemographicsLast (Objects.contents h sequence))]).
Proof.
  unfold Objects.ensureDemographicsLastAt, ensureDemographicsLast.
  unfold Objects.contents at 1. unfold Objects.heap.
  by rewrite lookup_snoc, insert_snoc.
Qed.

(** One run allocates a closure and two arrays, writes to no object that
    existed before it, and leaves [buildSequence] behind the reference it
    returns. *)
Lemma generateSequence_spec isMobile code (h : list Objects.object) :
  Objects.globals `prefix_of` h ->
  exists rng',
    Objects.generateSequence isMobile code h
    = (sessionSeed code, S (S (length h)),
       h ++ [Objects.Closure rng';
             Objects.Array (shuffleWithSeed (deviceTasks isMobile) (sessionSeed code));
             Objects.Array (buildSequence isMobile (sessionSeed code))]).
Proof.
  intros Hg. unfold Objects.generateSequence.
  destruct (shuffleWithSeedAt_spec
              (if isMobile then Objects.mobileTasks else Objects.desktopTasks)
              (Z.abs (hashCode code)) h) as [rng' ->].
  rewrite ensureDemographicsLastAt_spec.
  assert (Hbase : Objects.contents h
                    (if isMobile then Objects.mobileTasks else Objects.desktopTasks)
                  = deviceTasks isMobile).
  { rewrite (contents_prefix Objects.globals h);
      [by destruct isMobile|done|destruct isMobile; cbv; lia]. }
  rewrite Hbase.
  assert (Hc : forall x l, Objects.contents (h ++ [x; Objects.Array l]) (S (length h)) = l).
  { intros x l. unfold Objects.contents, Objects.heap. by rewrite lookup_snoc_next. }
  rewrite Hc. exists rng'. unfold sessionSeed, buildSequence.
  rewrite length_app, <- app_assoc. cbn [app length].
  repeat f_equal. lia.
Qed.

(** C4.  Two runs of the sequencer of [createNewSession] on equal
    session codes and the same device class, in any two heaps of the page
    (in particular the second in the heap that the first has left),
    compute equal seeds and leave the same codes, in the same order,
    behind the references they return.  Each run calls a closure of its
    own and writes only to the objects it allocates: the objects that
    existed before, [DESKTOP_TASKS] and [MOBILE_TASKS] among them, are
    unchanged after it, so the next run reads the same inputs.  The
    result is the sequence that [createNewSession] stores. *)
Theorem sequence_deterministic (c1 c2 : string) (isMobile : bool)
    (h1 h2 : Objects.heap) :
  c1 = c2 ->
  Objects.globals `prefix_of` h1 -> Objects.globals `prefix_of` h2 ->
  let '(seed1, sequence1, after1) := Objects.generateSequence isMobile c1 h1 in
  let '(seed2, sequence2, after2) := Objects.generateSequence isMobile c2 h2 in
  seed1 = seed2 /\
  Objects.contents after1 sequence1 = Objects.contents after2 sequence2 /\
  h1 `prefix_of` after1 /\ h2 `prefix_of` after2 /\
  seed1 = sessionSeed c1 /\
  Objects.contents after1 sequence1 = buildSequence isMobile (sessionSeed c1).
Proof.
  intros -> Hg1 Hg2.
  destruct (generateSequence_spec isMobile c2 h1 Hg1) as [rng1 ->].
  destruct (generateSequence_spec isMobile c2 h2 Hg2) as [rng2 ->].
  assert (Hc : forall (h : list Objects.object) x y l,
             Objects.contents (h ++ [x; y; Objects.Array l]) (S (S (length h))) = l).
  { intros h x y l. unfold Objects.contents, Objects.heap.
    change (h ++ [x; y; Objects.Array l]) with (h ++ [x] ++ [y; Objects.Array l]).
    rewrite app_assoc.
    replace (S (S (length h))) with (S (length (h ++ [x])))
      by (rewrite length_app; simpl; lia).
    by rewrite lookup_snoc_next. }
  rewrite !Hc.
  repeat split; by apply prefix_app_r.
Qed.

Lemma sequence_terminal_last_permutation_witness :
  NoDup DESKTOP_TASKS /\
  NoDup (ensureDemographicsLast (shuffleWithSeed DESKTOP_TASKS 2042300548)).
Proof.
  split; [apply NoDup_DESKTOP_TASKS|].
  destruct (sequence_terminal_last_permutation DESKTOP_TASKS 2042300548)
    as (_ & _ & _ & _ & H).
  apply H, NoDup_DESKTOP_TASKS.
Defined.

Lemma sequence_deterministic_witness :
  let '(seed1, sequence1, after1) :=
    Objects.generateSequence false "ABCDEFGH" Objects.globals in
  let '(seed2, sequence2, after2) :=
    Objects.generateSequence false "ABCDEFGH" after1 in
  seed1 = seed2 /\
  Objects.contents after1 sequence1 = Objects.contents after2 sequence2 /\
  Objects.contents after2 Objects.desktopTasks = DESKTOP_TASKS.
Proof.
  pose proof (sequence_deterministic "ABCDEFGH" "ABCDEFGH" false Objects.globals
                (Objects.generateSequence false "ABCDEFGH" Objects.globals).2
                eq_refl) as H.
  vm_compute in H |- *.
  destruct (H ltac:(by exists []) ltac:(by eexists)) as (H1 & H2 & _).
  done.
Defined.

End SequencerFacts.

(** ** Timer *)

Section TimerFacts.

Import Timer.

Lemma run_cons t c cs : run t (c :: cs) = run (step t c) cs.
Proof. reflexivity. Qed.

(** *** What one tick does to a running timer *)

Lemma tick_recently_active cb now tp t :
  isPaused t = false -> now - lastActivity t < 5000 ->
  tick cb false now tp t = setLastTick now (addActive (now - lastTick t) t).
Proof.
  intros Hp Hs. unfold tick. rewrite Hp. simpl.
  destruct (now - lastActivity t >? 120000) eqn:E1; [lia|].
  destruct (now - lastActivity t <? 5000) eqn:E2; [done|lia].
Qed.

Lemma tick_between cb now tp t :
  isPaused t = false -> 5000 <= now - lastActivity t <= 120000 ->
  tick cb false now tp t = setLastTick now (addInactive (now - lastTick t) t).
Proof.
  intros Hp Hs. unfold tick. rewrite Hp. simpl.
  destruct (now - lastActivity t >? 120000) eqn:E1; [lia|].
  destruct (now - lastActivity t <? 5000) eqn:E2; [lia|done].
Qed.

Lemma tick_timeout now tp t :
  isPaused t = false -> 120000 < now - lastActivity t ->
  tick None false now tp t = setLastTick now (pause "inactivity" tp t).
Proof.
  intros Hp Hs. unfold tick. rewrite Hp. simpl.
  destruct (now - lastActivity t >? 120000) eqn:E1; [done|lia].
Qed.

(** With a callback, the callback receives the timer already paused for
    inactivity. *)
Lemma tick_timeout_prompt p now tp t :
  isPaused t = false -> 120000 < now - lastActivity t ->
  tick (Some p) false now tp t
  = setLastTick now (showInactivityPrompt p (pause "inactivity" tp t)).
Proof.
  intros Hp Hs. unfold tick. rewrite Hp. simpl.
  destruct (now - lastActivity t >? 120000) eqn:E1; [done|lia].
Qed.

(** On a hidden page a tick of a running timer moves [lastTick] only. *)
Lemma tick_hidden cb now tp t :
  isPaused t = false -> tick cb true now tp t = setLastTick now t.
Proof. intros Hp. unfold tick. by rewrite Hp. Qed.

(** C2, as the code has it.  A tick of a running timer on a hidden page
    accrues nothing and pauses nothing.  On a visible page it adds the
    time since the previous tick to [activeTime] when the last activity
    is less than 5 s old, and to [inactivityTime] when it is between 5 s
    and 120 s old; when it is more than 120 s old it calls
    [pause("inactivity")] and then the callback [onInactivity]: nothing
    accrues, [pauseCount] grows by one, and the timer is left paused for
    inactivity unless the participant confirms the prompt, which resumes
    it within the same tick.  In every case [lastTick] becomes the
    reading of the tick.  With no input after second 10 and no callback,
    the timer is still running after the tick of second 125, with 111 s
    in [inactivityTime]; the tick of second 131 is the one that pauses
    it, when [inactivityTime] already holds the 116 s of the band between
    5 s and 120 s. *)
Theorem tick_running_bands (cb : option prompt) (hidden : bool) (now tp : Z)
    (t : timer) :
  isPaused t = false ->
  let since := now - lastActivity t in
  let d := now - lastTick t in
  let t' := tick cb hidden now tp t in
  lastTick t' = now /\ pausedTime t' = pausedTime t /\
  (hidden = true ->
     activeTime t' = activeTime t /\ inactivityTime t' = inactivityTime t /\
     isPaused t' = false /\ pauseCount t' = pauseCount t) /\
  (hidden = false -> since < 5000 ->
     activeTime t' = activeTime t + d /\ inactivityTime t' = inactivityTime t /\
     isPaused t' = false /\ pauseCount t' = pauseCount t) /\
  (hidden = false -> 120000 < since ->
     activeTime t' = activeTime t /\ inactivityTime t' = inactivityTime t /\
     pauseCount t' = pauseCount t + 1 /\
     isPaused t' = negb (confirms cb) /\
     pauseReason t' = (if confirms cb then None else Some "inactivity"%string)) /\
  (hidden = false -> 5000 <= since <= 120000 ->
     activeTime t' = activeTime t /\ inactivityTime t' = inactivityTime t + d /\
     isPaused t' = false /\ pauseCount t' = pauseCount t) /\
  (isPaused (idleRun 115) = false /\ inactivityTime (idleRun 115) = 111000 /\
   isPaused (idleRun 120) = false /\ inactivityTime (idleRun 120) = 116000 /\
   isPaused (idleRun 121) = true /\ pauseReason (idleRun 121) = Some "inactivity"%string /\
   inactivityTime (idleRun 121) = 116000).
Proof.
  intros Hp since d t'. subst since d t'.
  split; [by unfold tick|].
  split.
  { destruct hidden; [by rewrite tick_hidden|].
    destruct (Z.ltb_spec (now - lastActivity t) 5000);
      [by rewrite tick_recently_active|].
    destruct (Z.ltb_spec 120000 (now - lastActivity t));
      [|by rewrite tick_between by (done || lia)].
    destruct cb as [[|r1 r2 r3 a0 a1 a2 a3]|].
    - rewrite tick_timeout_prompt by done. unfold pause. by rewrite Hp.
    - rewrite tick_timeout_prompt by done. unfold pause. by rewrite Hp.
    - rewrite tick_timeout by done. unfold pause. by rewrite Hp. }
  split; [intros ->; by rewrite tick_hidden|].
  split; [intros -> H; by rewrite tick_recently_active|].
  split.
  { intros -> H. destruct cb as [[|r1 r2 r3 a0 a1 a2 a3]|].
    - rewrite tick_timeout_prompt by done. unfold pause. by rewrite Hp.
    - rewrite tick_timeout_prompt by done. unfold pause. by rewrite Hp.
    - rewrite tick_timeout by done. unfold pause. by rewrite Hp. }
  split; [intros -> H; by rewrite tick_between|].
  by vm_compute.
Qed.

(** The reading of C2 that leaves the band between 5 s and 120 s out of
    both buckets fails: one second spent there is added to
    [inactivityTime]; and the run of 125 s with no input after second 10
    does not end paused.  Nor does every tick of a running timer follow
    the bands: on a hidden page a tick one second after the last activity
    adds nothing to [activeTime], and a tick past the 120 s whose prompt
    is confirmed leaves the timer running. *)
Lemma tick_between_accrues_inactive :
  ~ (forall now tp t,
       isPaused t = false -> 5000 <= now - lastActivity t <= 120000 ->
       inactivityTime (tick None false now tp t) = inactivityTime t) /\
  inactivityTime (tick None false (sec 16) (sec 16) (idleRun 5))
  = inactivityTime (idleRun 5) + 1000 /\
  isPaused (idleRun 115) = false /\
  inactivityTime (idleRun 115) = 111000 /\
  (isPaused (idleRun 0) = false /\ sec 11 - lastActivity (idleRun 0) = 1000 /\
   activeTime (tick None true (sec 11) (sec 11) (idleRun 0)) = activeTime (idleRun 0)) /\
  (isPaused (idleRun 120) = false /\ sec 131 - lastActivity (idleRun 120) = 121000 /\
   isPaused (tick (confirmedAt 131) false (sec 131) (sec 131) (idleRun 120)) = false).
Proof.
  split; [|by vm_compute].
  intros H. specialize (H (sec 16) (sec 16) (idleRun 5)).
  vm_compute in H. specialize (H eq_refl).
  assert (Hd : 2000 = 1000) by (apply H; split; discriminate).
  discriminate Hd.
Qed.

(** *** After [stop()] *)

(** The calls other than [start()] and [stop()] leave [startTime] and
    [endTime] alone. *)
Lemma resume_frame t1 t2 t3 t :
  startTime (resume t1 t2 t3 t) = startTime t /\ endTime (resume t1 t2 t3 t) = endTime t.
Proof. unfold resume. destruct (isPaused t); by simpl. Qed.

Lemma pause_frame reason now t :
  startTime (pause reason now t) = startTime t /\ endTime (pause reason now t) = endTime t.
Proof. unfold pause. destruct (isPaused t); by simpl. Qed.

Lemma recordActivity_frame t0 t1 t2 t3 t :
  startTime (recordActivity t0 t1 t2 t3 t) = startTime t /\
  endTime (recordActivity t0 t1 t2 t3 t) = endTime t.
Proof.
  unfold recordActivity.
  destruct (isPaused (setLastActivity t0 t) && isReason "inactivity" (setLastActivity t0 t)).
  - destruct (resume_frame t1 t2 t3 (setLastActivity t0 t)) as [-> ->]. by simpl.
  - by simpl.
Qed.

Lemma showInactivityPrompt_frame p t :
  startTime (showInactivityPrompt p t) = startTime t /\
  endTime (showInactivityPrompt p t) = endTime t.
Proof.
  destruct p as [|r1 r2 r3 a0 a1 a2 a3]; simpl; [done|].
  destruct (recordActivity_frame a0 a1 a2 a3 (resume r1 r2 r3 t)) as [-> ->].
  apply resume_frame.
Qed.

Lemma tick_frame cb hidden now tp t :
  startTime (tick cb hidden now tp t) = startTime t /\
  endTime (tick cb hidden now tp t) = endTime t.
Proof.
  unfold tick. simpl.
  destruct (negb hidden && negb (isPaused t)).
  - destruct (now - lastActivity t >? 120000).
    + destruct cb as [p|].
      * destruct (showInactivityPrompt_frame p (pause "inactivity" tp t)) as [-> ->].
        apply pause_frame.
      * apply pause_frame.
    + destruct (now - lastActivity t <? 5000); by simpl.
  - destruct (isPaused t && isReason "inactivity" t); by simpl.
Qed.

Lemma step_frame t c :
  isMutator c = true ->
  startTime (step t c) = startTime t /\ endTime (step t c) = endTime t.
Proof.
  destruct c; simpl; try discriminate; intros _.
  - apply tick_frame.
  - apply recordActivity_frame.
  - apply pause_frame.
  - apply resume_frame.
Qed.

Lemma run_frame cs : forall t,
  forallb isMutator cs = true ->
  startTime (run t cs) = startTime t /\ endTime (run t cs) = endTime t.
Proof.
  induction cs as [|c cs IH]; intros t Hcs; [done|].
  simpl in Hcs. apply andb_prop in Hcs as [Hc Hcs].
  rewrite run_cons. destruct (IH (step t c) Hcs) as [-> ->].
  by apply step_frame.
Qed.

Lemma getSummary_span now1 now2 t :
  sStart (getSummary now1 now2 t) = num (startTime t) /\
  sEnd (getSummary now1 now2 t) = endOr now2 t /\
  elapsed (getSummary now1 now2 t) = endOr now1 t - num (startTime t).
Proof. unfold getSummary. by destruct (_ >? _). Qed.

(** C9, as the code has it.  After [stop()] at a non-zero instant, no
    sequence of [tick], [pause], [resume] and [recordActivity] calls
    changes [startTime] or [endTime], so [getSummary()] keeps reading the
    same start, end and elapsed time whenever it is called.  (The other
    properties are still written by these calls.) *)
Theorem stop_fixes_elapsed (t0 : timer) (t1 t2 : Z) (cs : list call) :
  t2 <> 0 ->
  forallb isMutator cs = true ->
  let t := run (stop t1 t2 t0) cs in
  startTime t = startTime t0 /\
  endTime t = Some t2 /\
  forall now1 now2,
    sStart (getSummary now1 now2 t) = num (startTime t0) /\
    sEnd (getSummary now1 now2 t) = t2 /\
    elapsed (getSummary now1 now2 t) = t2 - num (startTime t0).
Proof.
  intros Ht2 Hcs t.
  destruct (run_frame cs (stop t1 t2 t0) Hcs) as [Hs He]. fold t in Hs, He.
  simpl in Hs, He. split; [done|]. split; [done|].
  intros now1 now2.
  destruct (getSummary_span now1 now2 t) as (-> & -> & ->).
  unfold endOr. rewrite He, Hs. simpl.
  destruct (t2 =? 0) eqn:E; [lia|]. by simpl.
Qed.

(** The reading of C9 that freezes every property fails: input after
    [stop()] still moves [lastActivity], and a manual pause of five seconds
    after [stop()] changes what [getSummary()] returns. *)
Lemma stop_does_not_freeze :
  step stoppedTimer (activityAt 4) <> stoppedTimer /\
  lastActivity (step stoppedTimer (activityAt 4)) = sec 4 /\
  lastActivity stoppedTimer = sec 0 /\
  active (getSummary (sec 30) (sec 30) stoppedTimer) = 3000 /\
  paused (getSummary (sec 30) (sec 30) stoppedTimer) = 0 /\
  active (getSummary (sec 30) (sec 30)
            (run stoppedTimer [Pause "manual" (sec 4); Resume (sec 9) (sec 9) (sec 9)]))
  = 1500 /\
  paused (getSummary (sec 30) (sec 30)
            (run stoppedTimer [Pause "manual" (sec 4); Resume (sec 9) (sec 9) (sec 9)]))
  = 1500.
Proof.
  split; [|by vm_compute].
  intros H. apply (f_equal lastActivity) in H. vm_compute in H. discriminate H.
Qed.

(** *** The summary of a timer *)

(** C1 at such timers.  The raw buckets overshoot, the scaling branch
    runs, and the three rounded values add up to one millisecond more than
    [elapsed]: once for a timer stopped after three seconds on which a
    manual pause of 200 ms is then taken, once for the timer stopped twice
    during a manual pause. *)
Theorem getSummary_rounding_overshoot :
  let t := run stoppedTimer
             [Pause "manual" (sec 3); Resume (sec 3 + 200) (sec 3 + 200) (sec 3 + 200)] in
  let s := getSummary (sec 4) (sec 4) t in
  let s2 := getSummary (sec 13) (sec 13) doubleStopped in
  (activeTime t = 3000 /\ pausedTime t = 200 /\
   elapsed s = 3000 /\ active s = 2813 /\ paused s = 188 /\ inactive s = 0 /\
   elapsed s < active s + paused s + inactive s) /\
  (activeTime doubleStopped = 3000 /\ pausedTime doubleStopped = 15000 /\
   elapsed s2 = 13000 /\ active s2 = 2438 /\ paused s2 = 10563 /\ inactive s2 = 0 /\
   elapsed s2 < active s2 + paused s2 + inactive s2).
Proof. by vm_compute. Qed.

(** The scaling branch is entered only with [0 < elapsed < total], so
    the quotient and the products are finite. *)
Lemma scaling_branch_positive now1 t :
  let elapsed := endOr now1 t - num (startTime t) in
  let total := Z.min (activeTime t) elapsed + Z.min (pausedTime t) elapsed
               + Z.min (inactivityTime t) elapsed in
  (total >? elapsed) = true -> 0 < elapsed /\ elapsed < total.
Proof. intros elapsed total H. apply Z.gtb_lt in H. lia. Qed.

(** Outside the scaling branch the bound holds by construction. *)
Lemma getSummary_unscaled now1 now2 t :
  activeTime t + pausedTime t + inactivityTime t <= endOr now1 t - num (startTime t) ->
  let s := getSummary now1 now2 t in
  active s + paused s + inactive s <= elapsed s /\
  active s = Z.min (activeTime t) (elapsed s) /\
  paused s = Z.min (pausedTime t) (elapsed s) /\
  inactive s = Z.min (inactivityTime t) (elapsed s).
Proof.
  intros H. unfold getSummary.
  destruct (_ >? _) eqn:E; simpl; lia.
Qed.

Lemma chrono_app c l1 l2 :
  chrono c (l1 ++ l2) = true ->
  exists c', chrono c l1 = true /\ c <= c' /\ chrono c' l2 = true /\
             Forall (fun x => c <= x <= c') l1.
Proof.
  revert c. induction l1 as [|x l1 IH]; intros c H; simpl in *.
  - exists c. repeat split; [lia|done|constructor].
  - apply andb_prop in H as [Hx H]. apply Z.leb_le in Hx.
    destruct (IH x H) as (c' & H1 & H2 & H3 & H4).
    exists c'. rewrite H1. repeat split; [lia|lia|done|].
    constructor; [lia|]. eapply Forall_impl; [exact H4|]. simpl. intros; lia.
Qed.

Ltac open_covered :=
  unfold covered, manualOpen, buckets in *; simpl in *.

Lemma covered_weaken t c c' : covered t c -> c <= c' -> covered t c'.
Proof. open_covered. intros (? & ? & ? & ?) ?. repeat split; try done; lia. Qed.

Lemma start_covered t1 t2 t3 id t c :
  covered t c -> t1 <= t2 <= t3 -> covered (start t1 t2 t3 id t) t3.
Proof. open_covered. intros (? & ? & ? & ?) ?. repeat split; try done; lia. Qed.

Lemma pause_covered reason now t c :
  covered t c -> c <= now -> covered (pause reason now t) now.
Proof.
  unfold pause. intros Hc Hn. destruct (isPaused t) eqn:Hp; simpl.
  - by eapply covered_weaken.
  - revert Hc. open_covered. intros (? & ? & ? & ?). repeat split; try done; lia.
Qed.

Lemma resume_covered t1 t2 t3 t c :
  covered t c -> c <= t1 <= t2 /\ t2 <= t3 -> covered (resume t1 t2 t3 t) t3.
Proof.
  unfold resume. intros Hc Hn. destruct (isPaused t) eqn:Hp; simpl.
  - revert Hc. open_covered. rewrite Hp. simpl.
    intros (? & ? & ? & Hm).
    destruct (isReason "manual" t && truthy (pauseStart t)) eqn:E.
    + specialize (Hm eq_refl). repeat split; try done; lia.
    + repeat split; try done; lia.
  - eapply covered_weaken; [exact Hc|lia].
Qed.

Lemma setLastActivity_covered v t c : covered t c -> covered (setLastActivity v t) c.
Proof. by open_covered. Qed.

Lemma recordActivity_covered t0 t1 t2 t3 t c :
  covered t c -> c <= t0 <= t1 /\ t1 <= t2 <= t3 ->
  covered (recordActivity t0 t1 t2 t3 t) t3.
Proof.
  intros Hc Hn. unfold recordActivity.
  apply (setLastActivity_covered t0) in Hc.
  destruct (_ && _).
  - eapply resume_covered; [exact Hc|lia].
  - eapply covered_weaken; [exact Hc|lia].
Qed.

Lemma showInactivityPrompt_covered p t c c' :
  covered t c -> chrono c (promptReadings (Some p)) = true ->
  Forall (fun x => x <= c') (promptReadings (Some p)) -> c <= c' ->
  covered (showInactivityPrompt p t) c'.
Proof.
  intros Hc Hch Hle Hcc. destruct p as [|r1 r2 r3 a0 a1 a2 a3]; simpl in *.
  - by eapply covered_weaken.
  - repeat (apply andb_prop in Hch as [?%Z.leb_le Hch]).
    repeat match goal with H : Forall _ (_ :: _) |- _ => inversion_clear H end.
    eapply covered_weaken.
    + eapply recordActivity_covered; [eapply resume_covered; [exact Hc|]|]; lia.
    + lia.
Qed.

Lemma setLastTick_covered now t c :
  covered t c -> lastTick t <= now -> covered (setLastTick now t) now.
Proof. open_covered. intros (? & ? & ? & ?) ?. repeat split; try done; lia. Qed.

Lemma isReason_inactivity_not_manual t :
  isReason "inactivity" t = true -> isReason "manual" t = false.
Proof.
  unfold isReason. destruct (pauseReason t) as [r|]; [|done].
  intros H. apply String.eqb_eq in H. by subst r.
Qed.

(** The prompt shown on an inactivity timeout leaves the buckets as they
    were and no manual pause open. *)
Lemma prompt_after_timeout cb tp t :
  isPaused t = false ->
  let t' := match cb with
            | Some p => showInactivityPrompt p (pause "inactivity" tp t)
            | None => pause "inactivity" tp t
            end in
  buckets t' = buckets t /\ startTime t' = startTime t /\ endTime t' = endTime t /\
  manualOpen t' = false.
Proof.
  intros Hp. unfold pause. rewrite Hp. simpl.
  destruct cb as [[|r1 r2 r3 a0 a1 a2 a3]|]; by vm_compute.
Qed.

Lemma manualOpen_running t : isPaused t = false -> manualOpen t = false.
Proof. unfold manualOpen. by intros ->. Qed.

Lemma manualOpen_inactivity t : isReason "inactivity" t = true -> manualOpen t = false.
Proof.
  intros Hr%isReason_inactivity_not_manual. unfold manualOpen. rewrite Hr.
  by destruct (isPaused t).
Qed.

Lemma tick_covered cb hidden now tp t c c' :
  covered t c -> c <= now <= c' -> covered (tick cb hidden now tp t) c'.
Proof.
  intros (He & Ht & Hb & Hm) Hn. unfold tick.
  destruct (negb hidden && negb (isPaused t)) eqn:E1.
  - apply andb_prop in E1 as [_ Hp]. apply negb_true_iff in Hp.
    destruct (now - lastActivity t >? 120000).
    + destruct (prompt_after_timeout cb tp t Hp) as (Hb' & Hs' & He' & Hm').
      revert Hb' Hs' He' Hm'.
      generalize (match cb with
                  | Some p => showInactivityPrompt p (pause "inactivity" tp t)
                  | None => pause "inactivity" tp t
                  end).
      intros t' Hb' Hs' He' Hm'. unfold covered.
      change (manualOpen (setLastTick now t')) with (manualOpen t').
      change (buckets (setLastTick now t')) with (buckets t').
      simpl. rewrite Hm', Hb', Hs', He'. repeat split; try done; lia.
    + destruct (now - lastActivity t <? 5000); unfold covered;
        [change (manualOpen (setLastTick now (addActive (now - lastTick t) t)))
           with (manualOpen t)
        |change (manualOpen (setLastTick now (addInactive (now - lastTick t) t)))
           with (manualOpen t)];
        rewrite (manualOpen_running t Hp); unfold buckets in *; simpl;
        repeat split; try done; lia.
  - destruct (isPaused t && isReason "inactivity" t) eqn:E2.
    + apply andb_prop in E2 as [Hp Hr]. unfold covered.
      change (manualOpen (setLastTick now (addInactive (now - lastTick t) t)))
        with (manualOpen t).
      rewrite (manualOpen_inactivity t Hr). unfold buckets in *; simpl.
      repeat split; try done; lia.
    + unfold covered.
      change (manualOpen (setLastTick now t)) with (manualOpen t).
      unfold buckets in *; simpl. repeat split; try done; lia.
Qed.

Lemma step_covered call t c c' :
  covered t c -> isStop call = false ->
  chrono c (readings call) = true -> Forall (fun x => x <= c') (readings call) ->
  c <= c' -> covered (step t call) c'.
Proof.
  intros Hc Hs Hch Hle Hcc.
  destruct call as [t1 t2 t3 id|cb hidden now tp|t0 t1 t2 t3|reason now|t1 t2 t3|t1 t2];
    simpl in *; try discriminate;
    repeat (apply andb_prop in Hch as [?%Z.leb_le Hch]);
    repeat match goal with H : Forall _ (_ :: _) |- _ => inversion H; clear H; subst end.
  - eapply covered_weaken; [eapply start_covered; [exact Hc|]|]; lia.
  - eapply tick_covered; [exact Hc|lia].
  - eapply covered_weaken; [eapply recordActivity_covered; [exact Hc|]|]; lia.
  - eapply covered_weaken; [eapply pause_covered; [exact Hc|]|]; lia.
  - eapply covered_weaken; [eapply resume_covered; [exact Hc|]|]; lia.
Qed.

Lemma run_covered cs : forall t c now,
  covered t c -> forallb (fun call => negb (isStop call)) cs = true ->
  chrono c (flat_map readings cs ++ [now]) = true ->
  exists c', covered (run t cs) c' /\ c' <= now.
Proof.
  induction cs as [|call cs IH]; intros t c now Hc Hs Hch.
  - simpl in Hch. apply andb_prop in Hch as [?%Z.leb_le _]. by exists c.
  - simpl in Hs. apply andb_prop in Hs as [Hs1%negb_true_iff Hs].
    simpl in Hch. rewrite <- app_assoc in Hch.
    destruct (chrono_app _ _ _ Hch) as (c1 & H1 & H2 & H3 & H4).
    rewrite run_cons. apply (IH _ c1); [|done|done].
    apply (step_covered call t c c1); try done.
    eapply Forall_impl; [exact H4|]. simpl. intros; lia.
Qed.

Lemma createTimer_covered : covered createTimer 0.
Proof. by vm_compute. Qed.

(** Where C1 does hold.  On a timer that was never stopped, whatever
    [start], [tick], [recordActivity], [pause] and [resume] calls were made,
    as long as the clock never steps back, the raw buckets stay within the
    elapsed time: [getSummary()] takes the plain branch and returns buckets
    that add up to at most [elapsed]. *)
Lemma unstopped_summary_within_elapsed (cs : list call) (now1 now2 : Z) :
  forallb (fun call => negb (isStop call)) cs = true ->
  chrono 0 (flat_map readings cs ++ [now1]) = true ->
  let t := run createTimer cs in
  let s := getSummary now1 now2 t in
  activeTime t + pausedTime t + inactivityTime t <= elapsed s /\
  active s + paused s + inactive s <= elapsed s.
Proof.
  intros Hs Hch t s.
  destruct (run_covered cs createTimer 0 now1 createTimer_covered Hs Hch)
    as (c' & (He & Ht & Hb & _) & Hc'). fold t in He, Ht, Hb.
  assert (Hraw : activeTime t + pausedTime t + inactivityTime t
                 <= endOr now1 t - num (startTime t)).
  { unfold endOr. rewrite He. simpl. unfold buckets in Hb. lia. }
  destruct (getSummary_unscaled now1 now2 t Hraw) as (H1 & _).
  destruct (getSummary_span now1 now2 t) as (_ & _ & Hel).
  subst s. rewrite Hel. split; [exact Hraw|]. by rewrite <- Hel.
Qed.

Lemma chrono_split c l x l' :
  chrono c (l ++ x :: l') = true -> chrono c (l ++ [x]) = true /\ chrono x l' = true.
Proof.
  revert c. induction l as [|y l IH]; intros c; simpl.
  - intros [-> ?]%andb_prop. by simpl.
  - intros [-> H]%andb_prop. simpl. by apply IH.
Qed.

(** The first [stop()] keeps the bound too: it flushes the open manual
    pause up to the stop itself. *)
Lemma first_stop_summary_within_elapsed (cs : list call) (t1 t2 now1 now2 : Z) :
  forallb (fun call => negb (isStop call)) cs = true ->
  chrono 0 (flat_map readings cs ++ [t1; t2]) = true ->
  t2 <> 0 ->
  let s := getSummary now1 now2 (stop t1 t2 (run createTimer cs)) in
  active s + paused s + inactive s <= elapsed s.
Proof.
  intros Hs Hch Ht2 s.
  apply chrono_split in Hch as [Hch Ht]. simpl in Ht.
  apply andb_prop in Ht as [Ht%Z.leb_le _].
  destruct (run_covered cs createTimer 0 t1 createTimer_covered Hs Hch)
    as (c' & (He & Hl & Hb & Hm) & Hc').
  apply getSummary_unscaled. unfold endOr, stop. simpl.
  destruct (t2 =? 0) eqn:E; [lia|]. simpl.
  unfold buckets, manualOpen in *.
  destruct (isPaused (run createTimer cs) && truthy (pauseStart (run createTimer cs))
            && isReason "manual" (run createTimer cs)) eqn:Em.
  - apply andb_prop in Em as [[Hp Hq]%andb_prop Hr].
    rewrite Hp, Hq, Hr in Hm. specialize (Hm eq_refl). lia.
  - lia.
Qed.

Lemma tick_running_bands_witness :
  isPaused (idleRun 5) = false /\
  inactivityTime (tick None false (sec 16) (sec 16) (idleRun 5))
  = inactivityTime (idleRun 5) + (sec 16 - lastTick (idleRun 5)) /\
  isPaused (idleRun 120) = false /\
  isPaused (tick (confirmedAt 131) false (sec 131) (sec 131) (idleRun 120)) = false.
Proof.
  assert (Hp : isPaused (idleRun 5) = false) by (vm_compute; reflexivity).
  assert (Hq : isPaused (idleRun 120) = false) by (vm_compute; reflexivity).
  split; [exact Hp|].
  destruct (tick_running_bands None false (sec 16) (sec 16) (idleRun 5) Hp)
    as (_ & _ & _ & _ & _ & H & _).
  split; [apply H; [reflexivity|vm_compute; split; discriminate]|].
  split; [exact Hq|].
  destruct (tick_running_bands (confirmedAt 131) false (sec 131) (sec 131) (idleRun 120) Hq)
    as (_ & _ & _ & _ & H' & _).
  destruct H' as (_ & _ & _ & H' & _); [reflexivity|vm_compute; reflexivity|].
  exact H'.
Defined.

Lemma stop_fixes_elapsed_witness :
  sec 3 <> 0 /\
  elapsed (getSummary (sec 30) (sec 30)
             (run (stop (sec 3) (sec 3) (idleRun 0))
                [activityAt 4; Pause "manual" (sec 4); Resume (sec 9) (sec 9) (sec 9)]))
  = sec 3 - num (startTime (idleRun 0)).
Proof.
  assert (Hz : sec 3 <> 0) by (vm_compute; discriminate).
  split; [exact Hz|].
  destruct (stop_fixes_elapsed (idleRun 0) (sec 3) (sec 3)
              [activityAt 4; Pause "manual" (sec 4); Resume (sec 9) (sec 9) (sec 9)]
              Hz eq_refl) as (_ & _ & H).
  apply H.
Defined.

End TimerFacts.

(** ** Binary64 rounding *)

Section Float64Facts.

Import Float64.

(** [digits2_pos p] is the bit length of [p]. *)
Lemma digits2_pos_bounds p :
  2 ^ (Z.pos (digits2_pos p) - 1) <= Z.pos p < 2 ^ Z.pos (digits2_pos p).
Proof.
  induction p as [p IH|p IH|]; simpl digits2_pos.
  - rewrite Pos2Z.inj_succ.
    replace (Z.succ (Z.pos (digits2_pos p)) - 1) with (Z.succ (Z.pos (digits2_pos p) - 1)) by lia.
    rewrite !Z.pow_succ_r by lia. lia.
  - rewrite Pos2Z.inj_succ.
    replace (Z.succ (Z.pos (digits2_pos p)) - 1) with (Z.succ (Z.pos (digits2_pos p) - 1)) by lia.
    rewrite !Z.pow_succ_r by lia. lia.
  - simpl. lia.
Qed.

Lemma shr_1_cut x k mrs : cut x k mrs -> cut x (k + 1) (shr_1 mrs).
Proof.
  destruct mrs as [m r s]. unfold cut. simpl.
  intros (Hk & Hm & rem & Hx & Hrem & Hr).
  assert (Hp : 2 ^ (k + 1) = 2 * 2 ^ k) by (rewrite Z.pow_add_r by lia; lia).
  rewrite Hp.
  destruct m as [|[p|p|]|p]; simpl; try lia;
    (split; [lia|]); (split; [lia|]).
  - exists rem. split; [lia|]. split; [lia|]. discriminate.
  - exists (2 ^ k + rem). split; [lia|]. split; [lia|]. lia.
  - exists rem. split; [lia|]. split; [lia|]. discriminate.
  - exists (2 ^ k + rem). split; [lia|]. split; [lia|]. lia.
Qed.

Lemma iter_shr_1_cut n : forall x k mrs,
  cut x k mrs -> cut x (k + Z.pos n) (SpecFloat.iter_pos shr_1 n mrs).
Proof.
  induction n as [n IH|n IH|]; intros x k mrs H; simpl.
  - apply shr_1_cut in H. apply IH in H. apply IH in H.
    replace (k + Z.pos n~1) with (k + 1 + Z.pos n + Z.pos n) by lia. exact H.
  - apply IH in H. apply IH in H.
    replace (k + Z.pos n~0) with (k + Z.pos n + Z.pos n) by lia. exact H.
  - by apply shr_1_cut.
Qed.

Lemma shr_cut x k mrs e n :
  cut x k mrs ->
  cut x (k + Z.max 0 n) (fst (shr mrs e n)) /\ snd (shr mrs e n) = e + Z.max 0 n.
Proof.
  intros H. destruct n as [|n|n]; simpl.
  - rewrite Z.add_0_r. split; [done|lia].
  - split; [|lia]. by apply iter_shr_1_cut.
  - rewrite Z.add_0_r. split; [done|lia].
Qed.

Lemma cut_whole x : 0 <= x -> cut x 0 (shr_record_of_loc x loc_Exact).
Proof.
  intros Hx. unfold cut. simpl. split; [lia|]. split; [lia|].
  exists 0. split; [lia|]. split; [lia|]. discriminate.
Qed.

(** Rounding to nearest keeps the mantissa or adds one, and adds one only
    above half a unit. *)
Lemma round_nearest_even_cut x k mrs :
  cut x k mrs ->
  let m := round_nearest_even (shr_m mrs) (loc_of_shr_record mrs) in
  shr_m mrs <= m <= shr_m mrs + 1 /\ 2 * m * 2 ^ k <= 2 * x + 2 ^ k.
Proof.
  destruct mrs as [m r s]. unfold cut. simpl.
  intros (Hk & Hm & rem & Hx & Hrem & Hr).
  assert (0 < 2 ^ k) by (apply Z.pow_pos_nonneg; lia).
  destruct r, s; simpl; try (destruct (Z.even m)); split; try lia; try nia;
    specialize (Hr eq_refl); nia.
Qed.

Lemma Zdigits2_le_of_lt z k : 0 < z < 2 ^ k -> 0 <= k -> Zdigits2 z <= k.
Proof.
  intros Hz Hk. destruct z as [|p|p]; try lia. simpl.
  pose proof (digits2_pos_bounds p) as [Hlo _].
  assert (2 ^ (Z.pos (digits2_pos p) - 1) < 2 ^ k) by lia.
  apply Z.pow_lt_mono_r_iff in H; lia.
Qed.

Lemma Zdigits2_nonneg z : 0 <= Zdigits2 z.
Proof. destruct z; simpl; lia. Qed.

(** An exact positive [x·2^e] rounded to binary64: the result is zero, or
    a mantissa and exponent whose value exceeds [x·2^e] by at most half a
    unit of the first shift. *)
Lemma binary_round_aux_exact_upper (x : positive) (e : Z) :
  let n := Z.max 0 (fexp prec emax (Zdigits2 (Z.pos x) + e) - e) in
  binary_round_aux prec emax false (Z.pos x) e loc_Exact = S754_zero false \/
  exists m2 e2,
    e + n <= e2 <= e + n + 1 /\
    2 * Z.pos m2 * 2 ^ (e2 - e) <= 2 * Z.pos x + 2 ^ n /\
    binary_round_aux prec emax false (Z.pos x) e loc_Exact
    = if e2 <=? emax - prec then S754_finite false m2 e2 else S754_infinity false.
Proof.
  intros n. unfold binary_round_aux, shr_fexp.
  set (d1 := fexp prec emax (Zdigits2 (Z.pos x) + e) - e) in *.
  pose proof (shr_cut (Z.pos x) 0 _ e d1 (cut_whole (Z.pos x) ltac:(lia))) as [Hc1 He1].
  destruct (shr (shr_record_of_loc (Z.pos x) loc_Exact) e d1) as [mrs1 e1].
  simpl in Hc1, He1. rewrite Z.add_0_l in Hc1. fold n in Hc1, He1.
  pose proof (round_nearest_even_cut _ _ _ Hc1) as [Hm1 Hup]. simpl in Hm1, Hup.
  set (m1 := round_nearest_even (shr_m mrs1) (loc_of_shr_record mrs1)) in *.
  assert (Hn : 0 <= n) by lia.
  assert (Hpn : 0 < 2 ^ n) by (apply Z.pow_pos_nonneg; lia).
  destruct Hc1 as (_ & Hm1pos & rem & Hx & Hrem & _).
  (* the first shift leaves at most 53 bits *)
  assert (Hm1lt : shr_m mrs1 < 2 ^ 53).
  { pose proof (digits2_pos_bounds x) as [_ Hhi].
    assert (Hdn : Z.pos (digits2_pos x) - 53 <= n).
    { subst n d1. unfold fexp, emin, prec, emax. simpl Zdigits2. lia. }
    assert (2 ^ Z.pos (digits2_pos x) <= 2 ^ (53 + n)) by (apply Z.pow_le_mono_r; lia).
    rewrite Z.pow_add_r in H by lia.
    apply (Z.mul_lt_mono_pos_r (2 ^ n)); [done|]. lia. }
  set (d2 := fexp prec emax (Zdigits2 m1 + e1) - e1).
  pose proof (shr_cut m1 0 _ e1 d2 (cut_whole m1 ltac:(lia))) as [Hc2 He2].
  destruct (shr (shr_record_of_loc m1 loc_Exact) e1 d2) as [mrs2 e2].
  simpl in Hc2, He2. rewrite Z.add_0_l in Hc2.
  destruct Hc2 as (_ & Hm2pos & rem2 & Hm1eq & Hrem2 & _).
  assert (Hd2 : Z.max 0 d2 <= 1).
  { destruct (Z.eq_dec m1 0) as [->|Hne].
    - subst d2. unfold fexp, emin, prec, emax. simpl Zdigits2.
      subst e1 n d1. unfold fexp, emin, prec, emax. lia.
    - assert (Zdigits2 m1 <= 54) by (apply Zdigits2_le_of_lt; lia).
      subst d2. unfold fexp, emin, prec, emax.
      subst e1 n d1. unfold fexp, emin, prec, emax. lia. }
  destruct (shr_m mrs2) as [|m2|m2] eqn:Hm2; [by left| |lia].
  right. exists m2, e2. split; [lia|]. split; [|done].
  assert (0 < 2 ^ Z.max 0 d2) by (apply Z.pow_pos_nonneg; lia).
  replace (e2 - e) with (Z.max 0 d2 + n) by lia.
  rewrite Z.pow_add_r by lia.
  assert (Z.pos m2 * 2 ^ Z.max 0 d2 * 2 ^ n <= m1 * 2 ^ n)
    by (apply Z.mul_le_mono_nonneg_r; lia).
  lia.
Qed.

Lemma ofZ_1 : ofZ 1 = one.
Proof. vm_compute. reflexivity. Qed.

Lemma ofZ_36 : ofZ 36 = S754_finite false 5066549580791808 (-47).
Proof. vm_compute. reflexivity. Qed.

Lemma below_one m e :
  SFltb (S754_finite false m e) one = true ->
  e < -52 \/ e = -52 /\ Z.pos m < 2 ^ 52.
Proof.
  unfold SFltb, SFcompare, one.
  destruct (e ?= -52) eqn:He.
  - apply Z.compare_eq in He. rewrite Pos.compare_cont_spec. unfold Pos.switch_Eq.
    destruct (m ?= 4503599627370496)%positive eqn:Hm; try discriminate.
    intros _. right. split; [done|]. exact Hm.
  - intros _. left. exact He.
  - discriminate.
Qed.

(** A value of [Math.random()] is zero or a positive [m·2^e] with at
    most 53 bits and [e <= -53]. *)
Lemma unitInterval_inv r :
  unitInterval r = true ->
  (exists s, r = S754_zero s) \/
  exists m e, r = S754_finite false m e /\ Z.pos m < 2 ^ 53 /\ -1074 <= e <= -53.
Proof.
  unfold unitInterval. rewrite ofZ_1. intros [Hv Hr]%andb_prop.
  destruct r as [s| | |[|] m e]; try discriminate; [left; by exists s|].
  right. exists m, e. split; [done|].
  unfold valid_binary, bounded, canonical_mantissa in Hv.
  apply andb_prop in Hv as [Hc _]. apply Z.eqb_eq in Hc.
  unfold fexp, emin, prec, emax in Hc.
  pose proof (digits2_pos_bounds m) as [Hlo Hhi].
  assert (Hd : Z.pos (digits2_pos m) <= 53) by lia.
  split.
  { assert (2 ^ Z.pos (digits2_pos m) <= 2 ^ 53) by (apply Z.pow_le_mono_r; lia). lia. }
  split; [lia|].
  destruct (below_one m e Hr) as [He|[He Hm]]; [lia|].
  assert (Hd' : Z.pos (digits2_pos m) - 1 = 52) by lia.
  rewrite Hd' in Hlo. lia.
Qed.

(** [Math.floor(Math.random() * 36)] is an index from 0 to 35: the
    largest value below one, [1 - 2^-53], times 36 still rounds below 36. *)
Lemma floor_random_times_36 r :
  unitInterval r = true -> 0 <= floor (mul r (ofZ 36)) <= 35.
Proof.
  intros [[s ->]|(m & e & -> & Hm & He)]%unitInterval_inv.
  { destruct s; vm_compute; split; discriminate. }
  rewrite ofZ_36.
  unfold mul. simpl SFmul.
  set (x := (m * 5066549580791808)%positive).
  assert (Hx : Z.pos x = Z.pos m * (36 * 2 ^ 47)) by (subst x; rewrite Pos2Z.inj_mul; lia).
  destruct (binary_round_aux_exact_upper x (e + -47)) as [->|(m2 & e2 & He2 & Hup & ->)].
  { vm_compute. split; discriminate. }
  set (n := Z.max 0 (fexp prec emax (Zdigits2 (Z.pos x) + (e + -47)) - (e + -47))) in *.
  assert (Hdx : Zdigits2 (Z.pos x) <= 106).
  { apply Zdigits2_le_of_lt; [|lia]. split; [lia|].
    rewrite Hx. change (2 ^ 106) with (2 ^ 53 * 2 ^ 53). change (2 ^ 47) with 140737488355328.
    change (2 ^ 53) with 9007199254740992 in *. nia. }
  assert (Hdx0 : 0 <= Zdigits2 (Z.pos x)) by apply Zdigits2_nonneg.
  assert (Hn : 0 <= n <= 53) by (subst n; unfold fexp, emin, prec, emax; lia).
  assert (Hen : e + -47 + n <= -47) by (subst n; unfold fexp, emin, prec, emax; lia).
  assert (He2neg : e2 <= -46) by lia.
  destruct (e2 <=? emax - prec) eqn:Hov; [|unfold emax, prec in Hov; lia].
  unfold floor. destruct (0 <=? e2) eqn:Hs; [lia|]. simpl signed.
  assert (Hp2 : 0 < 2 ^ (- e2)) by (apply Z.pow_pos_nonneg; lia).
  split; [apply Z.div_pos; lia|].
  assert (Z.pos m2 / 2 ^ (- e2) < 36); [|lia].
  apply Z.div_lt_upper_bound; [done|].
  (* everything in units of 2^(e - 47) *)
  assert (Hq : 0 < 2 ^ (e2 - (e + -47))) by (apply Z.pow_pos_nonneg; lia).
  apply (Z.mul_lt_mono_pos_r (2 ^ (e2 - (e + -47)))); [done|].
  replace (2 ^ (- e2) * 36 * 2 ^ (e2 - (e + -47))) with (36 * 2 ^ (47 - e)).
  2:{ replace (47 - e) with (- e2 + (e2 - (e + -47))) by lia.
      rewrite Z.pow_add_r by lia. lia. }
  assert (Hme : Z.pos m + 1 <= 2 ^ (- e)).
  { assert (2 ^ 53 <= 2 ^ (- e)) by (apply Z.pow_le_mono_r; lia). lia. }
  replace (47 - e) with (47 + - e) by lia. rewrite Z.pow_add_r by lia.
  assert (Hn2 : 2 ^ n <= 2 ^ 53) by (apply Z.pow_le_mono_r; lia).
  change (2 ^ 47) with 140737488355328 in *.
  change (2 ^ 53) with 9007199254740992 in *.
  lia.
Qed.

End Float64Facts.

(** ** Session codes *)

Section CodeFacts.

Import Text Store Float64.

Lemma charAt_chars i : 0 <= i <= 35 -> oneCodeChar (charAt chars i) = true.
Proof.
  intros Hi.
  assert (Hall : forallb (fun n => oneCodeChar (charAt chars (Z.of_nat n))) (seq 0 36) = true)
    by (vm_compute; reflexivity).
  rewrite forallb_forall in Hall.
  specialize (Hall (Z.to_nat i)). rewrite Z2Nat.id in Hall by lia.
  apply Hall, in_seq. lia.
Qed.

Lemma randomChar_code r :
  unitInterval r = true ->
  exists c, randomChar r = String c EmptyString /\ isCodeChar c = true.
Proof.
  intros Hr. unfold randomChar.
  change (Z.of_nat (String.length chars)) with 36.
  pose proof (charAt_chars _ (floor_random_times_36 r Hr)) as H.
  destruct (charAt chars (floor (mul r (ofZ 36)))) as [|c [|c' s]]; try discriminate.
  by exists c.
Qed.

Lemma length_snoc s c :
  String.length (s ++ String c EmptyString) = S (String.length s).
Proof. induction s as [|a s IH]; simpl; [done|]. by rewrite IH. Qed.

Lemma allChars_snoc p s c :
  allChars p (s ++ String c EmptyString) = allChars p s && p c.
Proof.
  induction s as [|a s IH]; simpl.
  - by rewrite andb_true_r.
  - rewrite IH. by rewrite andb_assoc.
Qed.

Lemma generateLoop_code rand n : forall code,
  (forall k, unitInterval (rand k) = true) ->
  String.length (generateLoop n rand code) = (String.length code + n)%nat /\
  allChars isCodeChar (generateLoop n rand code) = allChars isCodeChar code.
Proof.
  induction n as [|n IH]; intros code Hr.
  - simpl. split; [lia|done].
  - cbn [generateLoop].
    destruct (randomChar_code _ (Hr (8 - S n)%nat)) as (c & -> & Hc).
    destruct (IH (code ++ String c EmptyString)%string Hr) as [Hl Ha].
    rewrite Hl, Ha, length_snoc, allChars_snoc, Hc, andb_true_r. split; [lia|done].
Qed.

Lemma codeChar_not_space c : isCodeChar c = true -> isSpace c = false.
Proof.
  destruct c as [[|] [|] [|] [|] [|] [|] [|] [|]]; vm_compute; congruence.
Qed.

Lemma codeChar_upper c : isCodeChar c = true -> upperChar c = c.
Proof.
  destruct c as [[|] [|] [|] [|] [|] [|] [|] [|]]; vm_compute; congruence.
Qed.

Lemma toUpperCase_code s : allChars isCodeChar s = true -> toUpperCase s = s.
Proof.
  induction s as [|c s IH]; simpl; [done|].
  intros [Hc Hs]%andb_prop. by rewrite codeChar_upper, IH.
Qed.

Lemma trimEnd_code s : allChars isCodeChar s = true -> trimEnd s = s.
Proof.
  induction s as [|c s IH]; [done|].
  intros H. pose proof H as [Hc Hs]%andb_prop.
  change (trimEnd (String c s))
    with (if allSpace (String c s) then EmptyString else String c (trimEnd s)).
  change (allSpace (String c s)) with (isSpace c && allSpace s).
  rewrite (codeChar_not_space c Hc). simpl. by rewrite IH.
Qed.

Lemma trim_code s : allChars isCodeChar s = true -> trim s = s.
Proof.
  intros H. unfold trim.
  assert (Hs : trimStart s = s).
  { destruct s as [|c s]; [done|]. simpl in *.
    apply andb_prop in H as [Hc _]. by rewrite (codeChar_not_space c Hc). }
  rewrite Hs. by apply trimEnd_code.
Qed.

(** What [generateCode] returns whenever [Math.random] stays in [0, 1). *)
Lemma generateCode_code rand :
  (forall k, unitInterval (rand k) = true) ->
  String.length (generateCode rand) = 8%nat /\
  allChars isCodeChar (generateCode rand) = true /\
  CODE_REGEX (generateCode rand) = true /\
  toUpperCase (trim (generateCode rand)) = generateCode rand.
Proof.
  intros Hr. destruct (generateLoop_code rand 8 EmptyString Hr) as [Hl Ha].
  change (generateLoop 8 rand EmptyString) with (generateCode rand) in Hl, Ha.
  change (String.length EmptyString + 8)%nat with 8%nat in Hl.
  change (allChars isCodeChar EmptyString) with true in Ha.
  split; [done|]. split; [done|]. split.
  - unfold CODE_REGEX. rewrite Hl. simpl. exact Ha.
  - rewrite (trim_code _ Ha). by apply toUpperCase_code.
Qed.

(** C10.  Whatever values in [0, 1) [Math.random] returns, the code made
    by [generateCode] has eight characters, each from A-Z or 0-9; it
    matches the pattern, also after the trimming and upper-casing done by
    [resumeSession], which therefore never rejects it as malformed. *)
Theorem generated_code_accepted (rand : nat -> spec_float) :
  (forall k, unitInterval (rand k) = true) ->
  let code := generateCode rand in
  String.length code = 8%nat /\
  allChars (fun c => isUpper c || isDigit c) code = true /\
  CODE_REGEX code = true /\
  CODE_REGEX (toUpperCase (trim code)) = true /\
  forall field r w, snd (resumeSession (Some code) field r w) <> InvalidCode.
Proof.
  intros Hr code. destruct (generateCode_code rand Hr) as (Hl & Ha & Hx & Ht).
  fold code in Hl, Ha, Hx, Ht.
  split; [done|]. split; [done|]. split; [done|]. split; [by rewrite Ht|].
  intros field r w. unfold resumeSession.
  assert (Hne : nonEmpty code = true).
  { destruct code; [discriminate Hl|done]. }
  rewrite Hne, Ht, Hx. simpl.
  destruct (db w) as [docs|];
    [destruct (fetched r); [destruct (docs !! code)|]|];
    try destruct (sheets r) as [|[st|]|]; cbn [snd]; try discriminate;
    unfold adopt;
    repeat match goal with
           | |- context [if ?b then _ else _] => destruct b
           end; cbn [snd]; discriminate.
Qed.

End CodeFacts.

(** ** Session store *)

Section StoreFacts.

Import Sequencer Text Store Float64.

(** *** [saveState] *)

Lemma saveState_no_code b now stamp w :
  nonEmpty (sessionCode (state w)) = false -> saveState b now stamp w = w.
Proof. unfold saveState. by intros ->. Qed.

(** Whatever the backends do, [saveState] returns, and the only change
    to [state] is [lastActivity]. *)
Lemma saveState_state b now stamp w :
  nonEmpty (sessionCode (state w)) = true ->
  state (saveState b now stamp w) = withLastActivity (Some now) (state w).
Proof.
  unfold saveState. intros ->. simpl.
  destruct (db w) as [docs|]; destruct b as [[| |] [|] [|]]; reflexivity.
Qed.

Lemma saveState_timers b now stamp w :
  sessionTimer (saveState b now stamp w) = sessionTimer w /\
  taskTimer (saveState b now stamp w) = taskTimer w.
Proof.
  unfold saveState. destruct (nonEmpty (sessionCode (state w))); simpl; [|done].
  destruct (db w) as [docs|]; destruct b as [[| |] [|] [|]]; by simpl.
Qed.

(** A resolving write puts the document into the collection. *)
Lemma saveState_db_resolves b now stamp w docs :
  nonEmpty (sessionCode (state w)) = true ->
  db w = Some docs -> docSet b = SetResolves ->
  db (saveState b now stamp w)
  = Some (<[sessionCode (state w) := mkDocument (withLastActivity (Some now) (state w)) stamp]> docs).
Proof.
  unfold saveState. intros -> Hdb Hset. simpl. rewrite Hdb, Hset.
  destruct (itemState b), (itemRecent b); reflexivity.
Qed.

(** When nothing throws, the local cache and the sheet log receive the
    snapshot, also when the document store rejects the write. *)
Lemma saveState_no_throw b now stamp w :
  nonEmpty (sessionCode (state w)) = true ->
  docSet b <> SetThrows -> itemState b = ItemStored -> itemRecent b = ItemStored ->
  let st := withLastActivity (Some now) (state w) in
  let w' := saveState b now stamp w in
  localStorage w' !! ("study_" ++ sessionCode (state w))%string = Some (StoredState st) /\
  sent w' = sent w ++ [SaveState (sessionCode (state w)) st].
Proof.
  unfold saveState. intros -> Hset Hi1 Hi2. simpl. rewrite Hi1, Hi2.
  assert (Hne : ("recent_session" : string) <> ("study_" ++ sessionCode (state w))%string)
    by discriminate.
  destruct (db w) as [docs|]; [destruct (docSet b); try done|]; simpl;
    (split; [by rewrite lookup_insert_ne, lookup_insert_eq|done]).
Qed.

(** A throwing [setItem] ends the [try] block: the sheet log is not
    written. *)
Lemma saveState_item_throws b now stamp w :
  itemState b = ItemThrows \/ itemRecent b = ItemThrows ->
  sent (saveState b now stamp w) = sent w.
Proof.
  unfold saveState. intros H.
  destruct (nonEmpty (sessionCode (state w))); [|done]. simpl.
  destruct (db w) as [docs|]; destruct b as [[| |] [|] [|]]; simpl in *;
    try reflexivity; destruct H; discriminate.
Qed.

Lemma saveState_first_item_throws b now stamp w :
  itemState b = ItemThrows ->
  localStorage (saveState b now stamp w) = localStorage w.
Proof.
  unfold saveState. intros H.
  destruct (nonEmpty (sessionCode (state w))); [|done]. simpl. rewrite H.
  destruct (db w) as [docs|]; [destruct (docSet b)|]; reflexivity.
Qed.

(** A throwing document write ends the [try] block before the local cache
    and the sheet log are written. *)
Lemma saveState_set_throws b now stamp w docs :
  db w = Some docs -> docSet b = SetThrows ->
  db (saveState b now stamp w) = db w /\
  localStorage (saveState b now stamp w) = localStorage w /\
  sent (saveState b now stamp w) = sent w.
Proof.
  unfold saveState. intros Hdb Hset.
  destruct (nonEmpty (sessionCode (state w))); [|done]. simpl.
  rewrite Hdb, Hset. by simpl.
Qed.

Lemma drawsABCDEFGH_unit k : unitInterval (drawsABCDEFGH k) = true.
Proof. do 8 (destruct k as [|k]; [vm_compute; reflexivity|]). by destruct k. Qed.

Example generateCode_ABCDEFGH : generateCode drawsABCDEFGH = "ABCDEFGH"%string.
Proof. vm_compute. reflexivity. Qed.

Example createdPage_state :
  sessionCode (state createdPage) = "ABCDEFGH"%string /\
  participantID (state createdPage) = "MS_0000"%string /\
  email (state createdPage) = "ms@example.org"%string /\
  sequence (state createdPage)
  = ["VCN"; "ASLCT"; "RC"; "SN"; "ID"; "MRT"; "DEMO"]%string /\
  currentTaskIndex (state createdPage) = 0%nat /\
  completedTasks (state createdPage) = [] /\
  totalTimeSpent (state createdPage) = 0.
Proof. vm_compute. repeat split; reflexivity. Qed.

(** C5 at that page.  The second call adds the task's elapsed time to
    [totalTimeSpent] again and moves [currentTaskIndex] past ASLCT, which
    was never completed; only the two sets keep their value. *)
Theorem completeTask_twice_counts_twice :
  totalTimeSpent (state completedOnce) = 60000 /\
  totalTimeSpent (state completedTwice) = 121000 /\
  currentTaskIndex (state completedOnce) = 1%nat /\
  currentTaskIndex (state completedTwice) = 2%nat /\
  sequence (state completedTwice) !! 1%nat = Some "ASLCT"%string /\
  completedTasks (state completedOnce) = ["VCN"%string] /\
  completedTasks (state completedTwice) = ["VCN"%string] /\
  skippedTasks (state completedTwice) = skippedTasks (state completedOnce).
Proof. vm_compute. repeat split; reflexivity. Qed.

(** [saveState] leaves the progress properties alone. *)
Lemma saveState_progress b now stamp w :
  let s := state (saveState b now stamp w) in
  sessionCode s = sessionCode (state w) /\
  sequence s = sequence (state w) /\
  currentTaskIndex s = currentTaskIndex (state w) /\
  completedTasks s = completedTasks (state w) /\
  skippedTasks s = skippedTasks (state w) /\
  totalTimeSpent s = totalTimeSpent (state w).
Proof.
  destruct (nonEmpty (sessionCode (state w))) eqn:E; simpl.
  - by rewrite saveState_state.
  - by rewrite saveState_no_code.
Qed.

Lemma logSessionTime_state stage now1 now2 sentAt w :
  state (logSessionTime stage now1 now2 sentAt w) = state w.
Proof. unfold logSessionTime. by destruct (nonEmpty _). Qed.

(** What [completeTask] does to the progress properties. *)
Lemma completeTask_progress x c w task :
  TASKS !! x = Some task ->
  let s := state w in
  let s' := state (completeTask x c w) in
  let completed :=
    if includes x (completedTasks s) then completedTasks s else completedTasks s ++ [x] in
  sequence s' = sequence s /\
  completedTasks s' = completed /\
  skippedTasks s' = filter (fun code => code <> x) (skippedTasks s) /\
  currentTaskIndex s' = advance completed (sequence s) (currentTaskIndex s) /\
  totalTimeSpent s'
  = totalTimeSpent s +
    Timer.elapsed (Timer.getSummary (summaryAt1 c) (summaryAt2 c)
                     (Timer.stop (stopAt1 c) (stopAt2 c) (taskTimer w))).
Proof.
  intros Ht. unfold completeTask. rewrite Ht. simpl.
  rewrite logSessionTime_state. simpl.
  match goal with
  | |- context [saveState ?b ?n ?st ?w0] =>
      destruct (saveState_progress b n st w0) as (_ & -> & -> & -> & -> & ->)
  end.
  simpl. by destruct (includes x (completedTasks (state w))).
Qed.

Lemma skipCompleted_ge completed rest : forall i, (i <= skipCompleted completed rest i)%nat.
Proof.
  induction rest as [|code rest IH]; intros i; simpl; [lia|].
  destruct (includes code completed); [|lia]. specialize (IH (S i)). lia.
Qed.

Lemma advance_gt completed sequence i : (i < advance completed sequence i)%nat.
Proof. unfold advance. pose proof (skipCompleted_ge completed (drop (S i) sequence) (S i)). lia. Qed.

(** The part of C5 that holds: a second [completeTask] of the same task
    leaves [completedTasks] and [skippedTasks] as the first one left them.
    The index, however, always moves on, and the elapsed time of the task
    timer is added once more. *)
Lemma completeTask_again x c1 c2 w task :
  TASKS !! x = Some task ->
  let once := completeTask x c1 w in
  let twice := completeTask x c2 once in
  completedTasks (state twice) = completedTasks (state once) /\
  skippedTasks (state twice) = skippedTasks (state once) /\
  (currentTaskIndex (state once) < currentTaskIndex (state twice))%nat /\
  totalTimeSpent (state twice)
  = totalTimeSpent (state once) +
    Timer.elapsed (Timer.getSummary (summaryAt1 c2) (summaryAt2 c2)
                     (Timer.stop (stopAt1 c2) (stopAt2 c2) (taskTimer once))).
Proof.
  intros Ht once twice.
  destruct (completeTask_progress x c1 w task Ht) as (_ & Hc1 & Hs1 & _ & _).
  destruct (completeTask_progress x c2 once task Ht) as (_ & Hc2 & Hs2 & Hi2 & Ht2).
  fold once in Hc1, Hs1. fold twice in Hc2, Hs2, Hi2, Ht2.
  assert (Hin : includes x (completedTasks (state once)) = true).
  { rewrite Hc1. unfold includes. apply bool_decide_eq_true.
    destruct (bool_decide (x ∈ completedTasks (state w))) eqn:E.
    - by apply bool_decide_eq_true in E.
    - apply elem_of_app. right. by apply list_elem_of_singleton. }
  rewrite Hin in Hc2, Hi2.
  split; [done|]. split.
  - rewrite Hs2, Hs1. rewrite list_filter_filter. apply list_filter_iff. tauto.
  - split; [|done]. rewrite Hi2. apply advance_gt.
Qed.

(** *** Save, then resume *)

Lemma createNewSession_accepted f c w :
  accepted f c = true ->
  (forall k, unitInterval (rand c k) = true) ->
  let created := createNewSession f c w in
  let code := generateCode (rand c) in
  sessionCode (state created) = code /\
  sequence (state created) = buildSequence (mobile c) (sessionSeed code) /\
  completedTasks (state created) = completedTasks (state w) /\
  skippedTasks (state created) = skippedTasks (state w) /\
  (forall docs, db w = Some docs -> docSet (saveWith c) = SetResolves ->
     exists d, db created = Some (<[code := d]> docs) /\
               sequence (docState d) = sequence (state created) /\
               completedTasks (docState d) = completedTasks (state created) /\
               skippedTasks (docState d) = skippedTasks (state created) /\
               sessionCode (docState d) = code).
Proof.
  intros Hacc Hr created code. subst created. unfold createNewSession.
  unfold accepted in Hacc. apply andb_prop in Hacc as [Hv Hm].
  apply negb_true_iff in Hm. rewrite Hv, Hm. simpl.
  destruct (generateCode_code (rand c) Hr) as (Hl & _ & _ & _).
  assert (Hne : nonEmpty code = true) by (subst code; destruct (generateCode (rand c)); done).
  match goal with
  | |- context [saveState ?b ?n ?st ?w0] =>
      pose proof (saveState_state b n st w0 Hne) as Hst;
      pose proof (fun docs => saveState_db_resolves b n st w0 docs Hne) as Hdb
  end.
  rewrite Hst. simpl. repeat split; try done.
  intros docs Hd Hset. specialize (Hdb docs Hd Hset). simpl in Hdb.
  eexists. split; [exact Hdb|]. by simpl.
Qed.

(** Two pages that draw the same code on the same kind of device build
    the same sequence, whatever their forms, clocks, backends and earlier
    state. *)
Lemma created_sequence_depends_on_code f1 f2 c1 c2 w1 w2 :
  accepted f1 c1 = true -> accepted f2 c2 = true ->
  (forall k, unitInterval (rand c1 k) = true) ->
  (forall k, unitInterval (rand c2 k) = true) ->
  generateCode (rand c1) = generateCode (rand c2) -> mobile c1 = mobile c2 ->
  sequence (state (createNewSession f1 c1 w1)) = sequence (state (createNewSession f2 c2 w2)).
Proof.
  intros Ha1 Ha2 Hr1 Hr2 Hcode Hm.
  destruct (createNewSession_accepted f1 c1 w1 Ha1 Hr1) as (_ & -> & _).
  destruct (createNewSession_accepted f2 c2 w2 Ha2 Hr2) as (_ & -> & _).
  by rewrite Hcode, Hm.
Qed.







Lemma generated_code_accepted_witness :
  CODE_REGEX (generateCode drawsABCDEFGH) = true.
Proof.
  destruct (generated_code_accepted drawsABCDEFGH drawsABCDEFGH_unit) as (_ & _ & H & _).
  exact H.
Defined.

(** *** A failing backend *)

(** C8 at the created page, saved again five seconds later.  With a full
    local cache the document store is written and [sendToSheets] is never
    called; with a throwing document store neither the local cache nor the
    sheet log is written.  [saveState] itself returns in both cases. *)
Theorem saveState_failure_skips_later_backends :
  let full := saveState cacheFull (sec 5) (sec 5) createdPage in
  let thrown := saveState storeThrows (sec 5) (sec 5) createdPage in
  (exists docs d, db full = Some docs /\ docs !! "ABCDEFGH"%string = Some d /\
                  lastActivity (docState d) = Some (sec 5)) /\
  sent full = sent createdPage /\
  localStorage full = localStorage createdPage /\
  db thrown = db createdPage /\
  localStorage thrown = localStorage createdPage /\
  sent thrown = sent createdPage /\
  lastActivity (state thrown) = Some (sec 5).
Proof.
  intros full thrown.
  destruct createdPage_state as (Hcode & _).
  assert (Hne : nonEmpty (sessionCode (state createdPage)) = true) by by rewrite Hcode.
  assert (Hdb : exists docs0, db createdPage = Some docs0)
    by (eexists; vm_compute; reflexivity).
  destruct Hdb as [docs0 Hdb].
  split.
  { eexists _, _. split; [|split].
    - by apply saveState_db_resolves.
    - rewrite Hcode. apply lookup_insert_eq.
    - reflexivity. }
  split; [apply saveState_item_throws; by left|].
  split; [by apply saveState_first_item_throws|].
  destruct (saveState_set_throws storeThrows (sec 5) (sec 5) createdPage docs0 Hdb eq_refl)
    as (H1 & H2 & H3).
  split; [exact H1|]. split; [exact H2|]. split; [exact H3|].
  subst thrown. by rewrite saveState_state.
Qed.

End StoreFacts.

(** ** Aggregator *)

Section AggregatorFacts.

Import Aggregator.

Lemma sumTimes_from sessionCode rows : forall acc,
  fold_left
    (fun (acc : Z * Z) r =>
       if negb (String.eqb (pCode r) sessionCode) then acc
       else
         ((if pActiveSec r >? 0 then fst acc + pActiveSec r else fst acc),
          (if pInactiveSec r >? 0 then snd acc + pInactiveSec r else snd acc)))
    rows acc
  = (fst acc + sumZ (map (fun r => positivePart (pActiveSec r)) (rowsOf sessionCode rows)),
     snd acc + sumZ (map (fun r => positivePart (pInactiveSec r)) (rowsOf sessionCode rows))).
Proof.
  induction rows as [|r rows IH]; intros [a i]; simpl.
  - f_equal; lia.
  - rewrite IH. unfold positivePart.
    destruct (String.eqb (pCode r) sessionCode); simpl; [|done].
    destruct (pActiveSec r >? 0), (pInactiveSec r >? 0); simpl; f_equal; lia.
Qed.

(** The two sums of [updateTotalTime]: the positive active and inactive
    seconds of the session's rows. *)
Lemma sumTimes_sums sessionCode rows :
  sumTimes sessionCode rows
  = (sumZ (map (fun r => positivePart (pActiveSec r)) (rowsOf sessionCode rows)),
     sumZ (map (fun r => positivePart (pInactiveSec r)) (rowsOf sessionCode rows))).
Proof. unfold sumTimes. by rewrite sumTimes_from. Qed.

Lemma widen_within w x : within (widen w (Some x)) x.
Proof.
  destruct w as [[lo|] [hi|]]; unfold within; simpl;
    repeat match goal with |- context [if ?b then _ else _] => destruct b eqn:? end;
    split; eexists; (split; [reflexivity|lia]).
Qed.

Lemma widen_keeps w ms x : within w x -> within (widen w ms) x.
Proof.
  destruct ms as [v|]; [|done].
  destruct w as [[lo|] [hi|]]; unfold within; simpl;
    intros [(lo' & Hlo & ?) (hi' & Hhi & ?)]; try discriminate;
    injection Hlo as <-; injection Hhi as <-;
    repeat match goal with |- context [if ?b then _ else _] => destruct b eqn:? end;
    split; eexists; (split; [reflexivity|lia]).
Qed.

Lemma widenProgress_keeps code w r x : within w x -> within (widenProgress code w r) x.
Proof.
  intros H. unfold widenProgress. destruct (negb _); [done|].
  by repeat apply widen_keeps.
Qed.

Lemma widenEvent_keeps code w r x : within w x -> within (widenEvent code w r) x.
Proof.
  intros H. unfold widenEvent. destruct (negb _); [done|]. by apply widen_keeps.
Qed.

Lemma fold_progress_keeps code rows : forall w x,
  within w x -> within (fold_left (widenProgress code) rows w) x.
Proof.
  induction rows as [|r rows IH]; intros w x H; simpl; [done|].
  by apply IH, widenProgress_keeps.
Qed.

Lemma fold_events_keeps code rows : forall w x,
  within w x -> within (fold_left (widenEvent code) rows w) x.
Proof.
  induction rows as [|r rows IH]; intros w x H; simpl; [done|].
  by apply IH, widenEvent_keeps.
Qed.

Lemma fold_progress_covers code rows : forall w r x,
  In r rows -> pCode r = code -> In (Some x) (stamps r) ->
  within (fold_left (widenProgress code) rows w) x.
Proof.
  induction rows as [|r0 rows IH]; intros w r x Hin Hc Hx; [done|].
  simpl. destruct Hin as [->|Hin]; [|by eapply IH].
  apply fold_progress_keeps. unfold widenProgress.
  rewrite Hc, String.eqb_refl. simpl.
  destruct Hx as [Hx|[Hx|[Hx|[]]]]; rewrite Hx.
  - apply widen_keeps, widen_keeps, widen_within.
  - apply widen_keeps, widen_within.
  - apply widen_within.
Qed.

Lemma fold_events_covers code rows : forall w r x,
  In r rows -> eCode r = code -> eTimestamp r = Some x ->
  within (fold_left (widenEvent code) rows w) x.
Proof.
  induction rows as [|r0 rows IH]; intros w r x Hin Hc Hx; [done|].
  simpl. destruct Hin as [->|Hin]; [|by eapply IH].
  apply fold_events_keeps. unfold widenEvent.
  rewrite Hc, String.eqb_refl. simpl. rewrite Hx. apply widen_within.
Qed.

(** The window is never negative and contains every timestamp logged for
    the session in [Task Progress] and [Session Events]. *)
Lemma window_contains ss code now :
  let win := computeSessionWindowMs_ ss code now in
  fst win <= snd win /\
  (forall r x, In r (progress ss) -> pCode r = code -> In (Some x) (stamps r) ->
               fst win <= x <= snd win) /\
  (forall r x, In r (events ss) -> eCode r = code -> eTimestamp r = Some x ->
               fst win <= x <= snd win).
Proof.
  unfold computeSessionWindowMs_.
  set (w0 := match findRowBySessionCode_ (sessions ss) code with
             | Some row => (createdDate row, lastActivityCell row)
             | None => (None, None)
             end).
  set (w1 := fold_left (widenProgress code) (progress ss) w0).
  set (w2 := fold_left (widenEvent code) (events ss) w1).
  assert (Hin : forall x, within w2 x ->
            (let minMs := match fst w2 with Some v => v | None => now end in
             let maxMs := match snd w2 with Some v => v | None => minMs end in
             minMs <= x <= (if maxMs <? minMs then minMs else maxMs))).
  { intros x [(lo & -> & ?) (hi & -> & ?)]. simpl. destruct (Z.ltb_spec hi lo); lia. }
  simpl. split; [|split].
  - destruct (fst w2), (snd w2); simpl;
      repeat match goal with |- context [?a <? ?b] => destruct (Z.ltb_spec a b) end; lia.
  - intros r x Hr Hc Hx. apply Hin. apply fold_events_keeps.
    by eapply fold_progress_covers.
  - intros r x Hr Hc Hx. apply Hin. by eapply fold_events_covers.
Qed.

(** C6, as the code has it.  The idle time recomputed by
    [updateTotalTime] is the total duration of the session window, in
    seconds, minus the summed active time, minus the recorded paused time,
    minus the summed inactive time of the session's tasks, floored at zero;
    the cell written is that number of seconds rounded to minutes. *)
Theorem recomputed_idle_time (ss : spreadsheet) (row : sessionRow) (code : string) (now : Z) :
  let t := recompute ss row code now in
  let win := computeSessionWindowMs_ ss code now in
  fst win <= snd win /\
  totalSecByWindow t = roundDiv (snd win - fst win) 1000 /\
  activeSec t = sumZ (map (fun r => positivePart (pActiveSec r)) (rowsOf code (progress ss))) /\
  inactiveSec t = sumZ (map (fun r => positivePart (pInactiveSec r)) (rowsOf code (progress ss))) /\
  pausedSec t = pausedTimeMin row * 60 /\
  idleSec t = Z.max 0 (totalSecByWindow t - activeSec t - pausedSec t - inactiveSec t) /\
  idleTimeMin (updatedRow ss row code now) = roundDiv (idleSec t) 60.
Proof.
  intros t win. destruct (window_contains ss code now) as (Hw & _). fold win in Hw.
  assert (Hr : 0 <= roundDiv (snd win - fst win) 1000).
  { unfold roundDiv. apply Z.div_pos; lia. }
  split; [exact Hw|]. split; [|split; [|split]].
  - change (totalSecByWindow t) with (Z.max 0 (roundDiv (snd win - fst win) 1000)). lia.
  - change (activeSec t) with (fst (sumTimes code (progress ss))).
    by rewrite sumTimes_sums.
  - change (inactiveSec t) with (snd (sumTimes code (progress ss))).
    by rewrite sumTimes_sums.
  - by repeat split.
Qed.

(** The reading of C6 without the inactive term fails there: 70 idle
    minutes are written, not 80. *)
Lemma idle_subtracts_inactive :
  exists row, findRowBySessionCode_ (sessions sampleSheet) "ABCDEFGH" = Some row /\
  let t := recompute sampleSheet row "ABCDEFGH" (origin + 7000000) in
  totalSecByWindow t = 6000 /\ activeSec t = 1200 /\ pausedSec t = 0 /\
  inactiveSec t = 600 /\ idleSec t = 4200 /\
  idleSec t <> Z.max 0 (totalSecByWindow t - activeSec t - pausedSec t) /\
  map idleTimeMin (sessions (updateTotalTime sampleSheet "ABCDEFGH" (origin + 7000000)))
  = [70].
Proof.
  eexists. split; [reflexivity|]. vm_compute. repeat split; try reflexivity.
  discriminate.
Qed.

End AggregatorFacts.
(** * Further properties *)

(** ** Hash and shuffle *)

Section SequencerCoverage.

Import Int32 Sequencer.

Lemma toInt32_congr a b : a mod 2 ^ 32 = b mod 2 ^ 32 -> toInt32 a = toInt32 b.
Proof.
  intros H. unfold toInt32. f_equal.
  by rewrite <- (Zplus_mod_idemp_l a), H, Zplus_mod_idemp_l.
Qed.

Lemma toInt32_mod z : toInt32 z mod 2 ^ 32 = z mod 2 ^ 32.
Proof. unfold toInt32. rewrite Zminus_mod_idemp_l. f_equal. lia. Qed.

Lemma toInt32_idem z : toInt32 (toInt32 z) = toInt32 z.
Proof. apply toInt32_congr, toInt32_mod. Qed.

(** One round of the loop is [31 * hash + c], wrapped to 32 bits. *)
Lemma hashStep_wrapped h c : hashStep h c = toInt32 (31 * h + charCode c).
Proof.
  unfold hashStep, or, shl.
  change (toInt32 0) with 0. rewrite Z.lor_0_r, toInt32_idem.
  apply toInt32_congr.
  change (5 mod 32) with 5. rewrite Z.shiftl_mul_pow2 by lia.
  replace (toInt32 (toInt32 h * 2 ^ 5) - h + charCode c)
    with (toInt32 (toInt32 h * 2 ^ 5) + (charCode c - h)) by lia.
  rewrite <- Zplus_mod_idemp_l, toInt32_mod.
  rewrite <- Zmult_mod_idemp_l, toInt32_mod, Zmult_mod_idemp_l.
  rewrite Zplus_mod_idemp_l. f_equal. lia.
Qed.

Lemma fold_left_step {A B} (f : A -> B -> A) x l a :
  fold_left f (x :: l) a = fold_left f l (f a x).
Proof. reflexivity. Qed.

Lemma hashLoop_wrapped l : forall H,
  fold_left hashStep l (toInt32 H)
  = toInt32 (fold_left (fun h c => 31 * h + charCode c) l H).
Proof.
  induction l as [|c l IH]; intros H; [reflexivity|].
  rewrite !fold_left_step, hashStep_wrapped.
  rewrite <- (IH (31 * H + charCode c)).
  apply (f_equal (fold_left hashStep l)). apply toInt32_congr.
  rewrite <- Zplus_mod_idemp_l, <- Zmult_mod_idemp_r, toInt32_mod.
  rewrite Zmult_mod_idemp_r, Zplus_mod_idemp_l. reflexivity.
Qed.

(** X1.  [hashCode] is the polynomial hash c0·31^(n-1) + ... + c(n-1) of the
    code units, reduced to a signed 32-bit integer: wrapping after every
    round loses nothing.  The seed [Math.abs(hashCode(code))] therefore
    lies between 0 and 2^31. *)
Theorem hashCode_is_wrapped_polynomial (str : string) :
  hashCode str = toInt32 (polynomial (list_ascii_of_string str)) /\
  - 2 ^ 31 <= hashCode str < 2 ^ 31 /\
  0 <= sessionSeed str <= 2 ^ 31.
Proof.
  assert (H : hashCode str = toInt32 (polynomial (list_ascii_of_string str))).
  { unfold hashCode, polynomial. change 0 with (toInt32 0) at 1. apply hashLoop_wrapped. }
  split; [exact H|].
  pose proof (toInt32_range (polynomial (list_ascii_of_string str))) as Hr.
  rewrite <- H in Hr. split; [exact Hr|]. unfold sessionSeed. lia.
Qed.

Lemma mulberry32_state_range a : - 2 ^ 31 <= fst (mulberry32 a) < 2 ^ 31.
Proof. apply toInt32_range. Qed.

Lemma readsInside_loop {A} i : forall rng (a : list A),
  (i <= length a - 1)%nat -> readsInside i rng a = true.
Proof.
  induction i as [|i IH]; intros rng a Hi; cbn [readsInside]; [reflexivity|].
  pose proof (mulberry32_output_range rng) as Hu.
  destruct (mulberry32 rng) as [rng' u]. cbn [snd] in Hu.
  pose proof (pick_le u (S i) Hu) as Hj.
  rewrite !andb_true_iff. split; [split|].
  - apply bool_decide_eq_true. lia.
  - by apply bool_decide_eq_true.
  - apply IH. rewrite swap_length. lia.
Qed.

(** X2.  The generator returns an unsigned 32-bit numerator, so [rng()] lies
    in [0, 1), and keeps a signed 32-bit state; the index
    [Math.floor(rng() * (i + 1))] is at most [i]; and every swap of
    [shuffleWithSeed] reads and writes inside the array, whatever the
    array and the seed. *)
Theorem shuffle_stays_inside_array {A} (array : list A) (seed : Z) :
  (forall a, 0 <= snd (mulberry32 a) < 2 ^ 32 /\ - 2 ^ 31 <= fst (mulberry32 a) < 2 ^ 31) /\
  (forall a i, (pick (snd (mulberry32 a)) i <= i)%nat) /\
  readsInside (length array - 1) seed array = true /\
  length (shuffleWithSeed array seed) = length array.
Proof.
  split; [|split; [|split]].
  - intros a. split; [apply mulberry32_output_range|apply mulberry32_state_range].
  - intros a i. apply pick_le, mulberry32_output_range.
  - by apply readsInside_loop.
  - apply shuffleWithSeed_length.
Qed.

(** X3.  Whatever array is stored in a session document — no DEMO, several
    DEMO, DEMO in the middle — [ensureDemographicsLast] returns the other
    codes in their order followed by one DEMO, and applying it again
    changes nothing. *)
Theorem ensureDemographicsLast_normal_form (sequence : list string) :
  let s := ensureDemographicsLast sequence in
  last s = Some DEMO /\
  count_occ string_dec s DEMO = 1%nat /\
  removelast s = filter (fun code => code <> DEMO) sequence /\
  (forall code, code <> DEMO ->
     count_occ string_dec s code = count_occ string_dec sequence code) /\
  ensureDemographicsLast s = s.
Proof.
  intros s. subst s. unfold ensureDemographicsLast at 1 2 3 4.
  split; [apply last_snoc|]. split; [|split; [|split]].
  - rewrite count_occ_app, count_occ_filter_demo. simpl.
    destruct (string_dec DEMO DEMO); [done|congruence].
  - by rewrite removelast_last.
  - intros code Hne. rewrite count_occ_app.
    rewrite (count_occ_cons_neq string_dec) by congruence.
    rewrite count_occ_nil, Nat.add_0_r.
    induction sequence as [|x l IH]; [done|].
    destruct (decide (x = DEMO)) as [->|Hx].
    + rewrite filter_cons_False by (intros H; by apply H).
      by rewrite (count_occ_cons_neq string_dec) by congruence.
    + rewrite filter_cons_True by done.
      destruct (string_dec x code) as [->|Hc].
      * by rewrite !(count_occ_cons_eq string_dec) by done; rewrite IH.
      * by rewrite !(count_occ_cons_neq string_dec) by done.
  - apply ensureDemographicsLast_idempotent.
Qed.

End SequencerCoverage.

(** ** Timer accounting *)

Section TimerCoverage.

Import Timer.

(** While a pause other than the inactivity pause is open, ticks, input
    events and further [pause] calls write [lastTick] and [lastActivity]
    only. *)
Lemma step_during_pause c u reason :
  duringPause c = true -> isPaused u = true -> pauseReason u = Some reason ->
  reason <> "inactivity"%string ->
  let u' := step u c in
  isPaused u' = true /\ pauseReason u' = Some reason /\
  pauseStart u' = pauseStart u /\ pauseCount u' = pauseCount u /\
  activeTime u' = activeTime u /\ inactivityTime u' = inactivityTime u /\
  pausedTime u' = pausedTime u.
Proof.
  intros Hc Hp Hr Hne.
  assert (Hi : forall v, isPaused v = isPaused u -> pauseReason v = pauseReason u ->
                         isPaused v && isReason "inactivity" v = false).
  { intros v -> Hv. rewrite Hp. unfold isReason. rewrite Hv, Hr. simpl.
    by apply String.eqb_neq. }
  destruct c as [| cb hidden now tp | t0 t1 t2 t3 | r now | |]; try discriminate;
    cbn [step].
  - unfold tick. rewrite (Hi u eq_refl eq_refl), Hp, andb_false_r. by cbn.
  - unfold recordActivity. rewrite (Hi (setLastActivity t0 u) eq_refl eq_refl). by cbn.
  - unfold pause. rewrite Hp. by cbn.
Qed.

Lemma run_during_pause reason cs : forall u,
  forallb duringPause cs = true -> isPaused u = true -> pauseReason u = Some reason ->
  reason <> "inactivity"%string ->
  let u' := run u cs in
  isPaused u' = true /\ pauseReason u' = Some reason /\
  pauseStart u' = pauseStart u /\ pauseCount u' = pauseCount u /\
  activeTime u' = activeTime u /\ inactivityTime u' = inactivityTime u /\
  pausedTime u' = pausedTime u.
Proof.
  induction cs as [|c cs IH]; intros u Hcs Hp Hr Hne; [by cbn|].
  cbn [forallb] in Hcs. apply andb_prop in Hcs as [Hc Hcs].
  destruct (step_during_pause c u reason Hc Hp Hr Hne)
    as (Hp1 & Hr1 & <- & <- & <- & <- & <-).
  rewrite run_cons. by apply IH.
Qed.

(** X4.  Pause, anything the page does meanwhile, resume.  A timer that is
    running when [pause(reason)] is called at [p], with a reason other
    than "inactivity", and is resumed at [r1] after any ticks (page
    visible or hidden), input events and further [pause] calls, has the
    same [activeTime] and [inactivityTime] as before the pause.  The
    stretch [r1 - p] is added to [pausedTime] for the reason "manual"
    (and a non-zero [p]); for every other reason ("visibility", "blur",
    "exit") it is added to no accumulator. *)
Theorem pause_resume_accounting (t : timer) (reason : string) (p r1 r2 r3 : Z)
    (cs : list call) :
  isPaused t = false -> reason <> "inactivity"%string ->
  forallb duringPause cs = true ->
  let t' := resume r1 r2 r3 (run (pause reason p t) cs) in
  activeTime t' = activeTime t /\
  inactivityTime t' = inactivityTime t /\
  pausedTime t'
  = (if String.eqb reason "manual" && negb (p =? 0)
     then pausedTime t + (r1 - p) else pausedTime t) /\
  pauseCount t' = pauseCount t + 1 /\
  isPaused t' = false /\ lastActivity t' = r2 /\ lastTick t' = r3.
Proof.
  intros Hp Hne Hcs.
  assert (H0 : isPaused (pause reason p t) = true /\
               pauseReason (pause reason p t) = Some reason /\
               pauseStart (pause reason p t) = Some p /\
               pauseCount (pause reason p t) = pauseCount t + 1 /\
               activeTime (pause reason p t) = activeTime t /\
               inactivityTime (pause reason p t) = inactivityTime t /\
               pausedTime (pause reason p t) = pausedTime t).
  { unfold pause. rewrite Hp. by cbn. }
  destruct H0 as (Hp0 & Hr0 & Hs0 & Hc0 & Ha0 & Hi0 & Hd0).
  destruct (run_during_pause reason cs (pause reason p t) Hcs Hp0 Hr0 Hne) as
    (Hp1 & Hr1 & Hs1 & Hc1 & Ha1 & Hi1 & Hd1).
  rewrite Hs0 in Hs1. rewrite Hc0 in Hc1. rewrite Ha0 in Ha1. rewrite Hi0 in Hi1.
  rewrite Hd0 in Hd1.
  cbv zeta. unfold resume. rewrite Hp1. cbn.
  unfold isReason. rewrite Hr1, Hs1, Hc1, Ha1, Hi1, Hd1. by cbn.
Qed.

Lemma pause_resume_accounting_witness :
  isPaused (idleRun 0) = false /\
  pausedTime (resume (sec 40) (sec 40) (sec 40)
                (run (pause "manual" (sec 12) (idleRun 0))
                   [tickAt 13; activityAt 14; Pause "blur" (sec 15)]))
  = pausedTime (idleRun 0) + (sec 40 - sec 12) /\
  pausedTime (resume (sec 40) (sec 40) (sec 40)
                (run (pause "visibility" (sec 12) (idleRun 0))
                   [Tick None true (sec 13) (sec 13); activityAt 14]))
  = pausedTime (idleRun 0).
Proof.
  assert (Hp : isPaused (idleRun 0) = false) by (vm_compute; reflexivity).
  split; [exact Hp|]. split.
  - destruct (pause_resume_accounting (idleRun 0) "manual" (sec 12) (sec 40) (sec 40) (sec 40)
                [tickAt 13; activityAt 14; Pause "blur" (sec 15)] Hp
                ltac:(discriminate) eq_refl) as (_ & _ & H & _).
    exact H.
  - destruct (pause_resume_accounting (idleRun 0) "visibility" (sec 12) (sec 40) (sec 40)
                (sec 40) [Tick None true (sec 13) (sec 13); activityAt 14] Hp
                ltac:(discriminate) eq_refl) as (_ & _ & H & _).
    exact H.
Defined.

Lemma step_steady c t :
  isPaused t = false -> steady t [c] = true ->
  let t' := step t c in
  isPaused t' = false /\ pausedTime t' = pausedTime t /\
  pauseCount t' = pauseCount t /\
  activeTime t' + inactivityTime t' - lastTick t'
  = activeTime t + inactivityTime t - lastTick t.
Proof.
  intros Hp Hs. cbn [steady] in Hs. rewrite andb_true_r in Hs.
  destruct c as [| cb [|] now tp | t0 t1 t2 t3 | | |]; try discriminate; cbn [step].
  - apply Z.leb_le in Hs. unfold tick. rewrite Hp. cbn [negb andb].
    destruct (Z.gtb_spec (now - lastActivity t) 120000) as [?|_]; [lia|].
    destruct (now - lastActivity t <? 5000); cbn; repeat split; try done; lia.
  - unfold recordActivity.
    change (isPaused (setLastActivity t0 t)) with (isPaused t). rewrite Hp. by cbn.
Qed.

Lemma steady_cons t c cs :
  steady t (c :: cs) = steady t [c] && steady (step t c) cs.
Proof. cbn [steady]. by rewrite andb_true_r. Qed.

(** X5.  No time is lost or counted twice between ticks.  On a running timer,
    over any run of interval ticks on a visible page and input events in
    which no tick triggers the inactivity timeout, [activeTime] and
    [inactivityTime] together grow by exactly the time between the first
    and the last value of [lastTick]; [pausedTime] and [pauseCount] keep
    their values. *)
Theorem ticks_partition_the_time (t : timer) (cs : list call) :
  isPaused t = false -> steady t cs = true ->
  let t' := run t cs in
  activeTime t' + inactivityTime t'
  = activeTime t + inactivityTime t + (lastTick t' - lastTick t) /\
  pausedTime t' = pausedTime t /\ pauseCount t' = pauseCount t /\
  isPaused t' = false.
Proof.
  revert t. induction cs as [|c cs IH]; intros t Hp Hs.
  - cbn. repeat split; try done; lia.
  - rewrite steady_cons in Hs. apply andb_prop in Hs as [Hc Hs].
    destruct (step_steady c t Hp Hc) as (Hp1 & Hd1 & Hc1 & He1).
    destruct (IH (step t c) Hp1 Hs) as (He2 & Hd2 & Hc2 & Hp2).
    cbv zeta. rewrite run_cons. repeat split; try congruence. lia.
Qed.

Lemma ticks_partition_the_time_witness :
  isPaused (idleRun 0) = false /\
  activeTime (run (idleRun 0) (ticksAfter 10 20)) +
  inactivityTime (run (idleRun 0) (ticksAfter 10 20))
  = activeTime (idleRun 0) + inactivityTime (idleRun 0) +
    (lastTick (run (idleRun 0) (ticksAfter 10 20)) - lastTick (idleRun 0)).
Proof.
  assert (Hp : isPaused (idleRun 0) = false) by (vm_compute; reflexivity).
  split; [exact Hp|].
  destruct (ticks_partition_the_time (idleRun 0) (ticksAfter 10 20) Hp
              ltac:(vm_compute; reflexivity)) as (H & _).
  exact H.
Defined.

End TimerCoverage.

Section TimerSoundness.

Import Timer.

Ltac open_sound := unfold sound, num in *; cbn in *.

Lemma pause_sound reason now t c c' :
  sound t c -> c <= now <= c' -> sound (pause reason now t) c'.
Proof.
  intros (? & ? & ? & ? & ? & ? & ?) ?. unfold pause.
  destruct (isPaused t); open_sound; repeat split; lia.
Qed.

Lemma resume_sound t1 t2 t3 t c c' :
  sound t c -> c <= t1 -> t3 <= c' -> c <= c' -> sound (resume t1 t2 t3 t) c'.
Proof.
  intros (? & ? & ? & ? & ? & ? & ?) ? ? ?. unfold resume.
  destruct (isPaused t); [|open_sound; repeat split; lia].
  destruct (isReason "manual" t && truthy (pauseStart t));
    open_sound; repeat split; lia.
Qed.

Lemma setLastActivity_sound v t c : sound t c -> sound (setLastActivity v t) c.
Proof. by open_sound. Qed.

Lemma recordActivity_sound t0 t1 t2 t3 t c c' :
  sound t c -> c <= t1 -> t3 <= c' -> c <= c' -> sound (recordActivity t0 t1 t2 t3 t) c'.
Proof.
  intros Hs ? ? ?. unfold recordActivity.
  apply (setLastActivity_sound t0) in Hs.
  destruct (_ && _); [by eapply resume_sound|].
  revert Hs. open_sound. intros (? & ? & ? & ? & ? & ? & ?). repeat split; lia.
Qed.

Lemma showInactivityPrompt_sound p t c c' :
  sound t c -> chrono c (promptReadings (Some p)) = true ->
  Forall (fun x => x <= c') (promptReadings (Some p)) -> c <= c' ->
  sound (showInactivityPrompt p t) c'.
Proof.
  intros Hs Hch Hle Hcc. destruct p as [|r1 r2 r3 a0 a1 a2 a3]; cbn in *.
  - revert Hs. open_sound. intros (? & ? & ? & ? & ? & ? & ?). repeat split; lia.
  - repeat (apply andb_prop in Hch as [?%Z.leb_le Hch]).
    repeat match goal with H : Forall _ (_ :: _) |- _ => inversion_clear H end.
    apply (recordActivity_sound _ _ _ _ _ r3); [|lia|lia|lia].
    apply (resume_sound _ _ _ _ c); [done|lia|lia|lia].
Qed.

Lemma addActive_sound d t c : sound t c -> 0 <= d -> sound (addActive d t) c.
Proof. open_sound. intros (? & ? & ? & ? & ? & ? & ?) ?. repeat split; lia. Qed.

Lemma addInactive_sound d t c : sound t c -> 0 <= d -> sound (addInactive d t) c.
Proof. open_sound. intros (? & ? & ? & ? & ? & ? & ?) ?. repeat split; lia. Qed.

Lemma setLastTick_sound now t c c' :
  sound t c -> now <= c' -> c <= c' -> sound (setLastTick now t) c'.
Proof. open_sound. intros (? & ? & ? & ? & ? & ? & ?) ? ?. repeat split; lia. Qed.

Lemma tick_sound cb hidden now tp t c c' :
  sound t c -> chrono c (now :: tp :: promptReadings cb) = true ->
  Forall (fun x => x <= c') (now :: tp :: promptReadings cb) -> c <= c' ->
  sound (tick cb hidden now tp t) c'.
Proof.
  intros Hs Hch Hle Hcc.
  cbn [chrono] in Hch. apply andb_prop in Hch as [Hn%Z.leb_le Hch].
  apply andb_prop in Hch as [Htp%Z.leb_le Hch].
  inversion_clear Hle as [|? ? Hn' Hle']. inversion_clear Hle' as [|? ? Htp' Hle].
  assert (Hd : 0 <= now - lastTick t) by (destruct Hs as (_ & _ & _ & _ & _ & ? & _); lia).
  unfold tick.
  destruct (negb hidden && negb (isPaused t)).
  - destruct (now - lastActivity t >? 120000).
    + assert (Hp : sound (pause "inactivity" tp t) tp)
        by (apply (pause_sound _ _ _ c); [done|lia]).
      destruct cb as [p|].
      * apply (setLastTick_sound _ _ c'); [|lia|lia].
        by apply (showInactivityPrompt_sound p _ tp).
      * apply (setLastTick_sound _ _ tp); [done|lia|lia].
    + destruct (now - lastActivity t <? 5000);
        apply (setLastTick_sound _ _ c); try lia;
        [by apply addActive_sound|by apply addInactive_sound].
  - destruct (isPaused t && isReason "inactivity" t);
      apply (setLastTick_sound _ _ c); try lia; [by apply addInactive_sound|done].
Qed.

Lemma start_sound t1 t2 t3 id t c c' :
  sound t c -> t3 <= c' -> c <= c' -> sound (start t1 t2 t3 id t) c'.
Proof. open_sound. intros (? & ? & ? & ? & ? & ? & ?) ? ?. repeat split; lia. Qed.

Lemma stop_sound t1 t2 t c c' :
  sound t c -> c <= t1 -> c <= c' -> sound (stop t1 t2 t) c'.
Proof.
  intros (? & ? & ? & ? & ? & ? & ?) ? ?. unfold stop.
  destruct (isPaused t && truthy (pauseStart t) && isReason "manual" t);
    open_sound; repeat split; lia.
Qed.

Lemma step_sound call t c c' :
  sound t c -> chrono c (readings call) = true ->
  Forall (fun x => x <= c') (readings call) -> c <= c' ->
  sound (step t call) c'.
Proof.
  intros Hs Hch Hle Hcc.
  destruct call as [t1 t2 t3 id|cb hidden now tp|t0 t1 t2 t3|reason now|t1 t2 t3|t1 t2];
    cbn [step readings] in *.
  - repeat (apply andb_prop in Hch as [?%Z.leb_le Hch]).
    repeat match goal with H : Forall _ (_ :: _) |- _ => inversion_clear H end.
    by apply (start_sound _ _ _ _ _ c).
  - by apply (tick_sound _ _ _ _ _ c).
  - repeat (apply andb_prop in Hch as [?%Z.leb_le Hch]).
    repeat match goal with H : Forall _ (_ :: _) |- _ => inversion_clear H end.
    apply (recordActivity_sound _ _ _ _ _ c); try done; lia.
  - repeat (apply andb_prop in Hch as [?%Z.leb_le Hch]).
    repeat match goal with H : Forall _ (_ :: _) |- _ => inversion_clear H end.
    apply (pause_sound _ _ _ c); try done; lia.
  - repeat (apply andb_prop in Hch as [?%Z.leb_le Hch]).
    repeat match goal with H : Forall _ (_ :: _) |- _ => inversion_clear H end.
    apply (resume_sound _ _ _ _ c); try done; lia.
  - repeat (apply andb_prop in Hch as [?%Z.leb_le Hch]).
    repeat match goal with H : Forall _ (_ :: _) |- _ => inversion_clear H end.
    apply (stop_sound _ _ _ c); try done; lia.
Qed.

Lemma chrono_prefix c l1 l2 :
  chrono c (l1 ++ l2) = true ->
  exists c', c <= c' /\ chrono c l1 = true /\ Forall (fun x => x <= c') l1 /\
             chrono c' l2 = true.
Proof.
  revert c. induction l1 as [|x l1 IH]; intros c H; cbn [app chrono] in *.
  - exists c. split; [lia|]. split; [done|]. split; [constructor|done].
  - apply andb_prop in H as [Hx H]. apply Z.leb_le in Hx.
    destruct (IH x H) as (c' & H1 & H2 & H3 & H4).
    exists c'. rewrite H2, andb_true_r.
    split; [lia|]. split; [by apply Z.leb_le|]. split; [|done].
    constructor; [lia|done].
Qed.

Lemma run_sound cs : forall t c,
  sound t c -> chrono c (flat_map readings cs) = true ->
  exists c', sound (run t cs) c'.
Proof.
  induction cs as [|call cs IH]; intros t c Hs Hch.
  - by exists c.
  - cbn [flat_map] in Hch.
    destruct (chrono_prefix _ _ _ Hch) as (c1 & H1 & H2 & H3 & H4).
    rewrite run_cons. apply (IH _ c1); [|done].
    by apply (step_sound call t c c1).
Qed.

(** X6.  Whatever calls reach a timer — including repeated [start()] and
    [stop()] calls, ticks on hidden pages and confirmed inactivity
    prompts — as long as the clock readings never decrease, none of
    [activeTime], [inactivityTime], [pausedTime] and [pauseCount] is ever
    negative. *)
Theorem accumulators_never_negative (cs : list call) :
  chrono 0 (flat_map readings cs) = true ->
  let t := run createTimer cs in
  0 <= activeTime t /\ 0 <= inactivityTime t /\ 0 <= pausedTime t /\ 0 <= pauseCount t.
Proof.
  intros Hch.
  assert (H0 : sound createTimer 0) by (unfold sound; cbn; lia).
  destruct (run_sound cs createTimer 0 H0 Hch) as (c' & H1 & H2 & H3 & H4 & _).
  by repeat split.
Qed.

Lemma accumulators_never_negative_witness :
  0 <= pausedTime doubleStopped /\ 0 <= activeTime doubleStopped.
Proof.
  destruct (accumulators_never_negative
              (Start origin origin origin 1 :: ticksAfter 0 3 ++
               [Pause "manual" (sec 3); Stop (sec 8) (sec 8); Stop (sec 13) (sec 13)])
              ltac:(vm_compute; reflexivity)) as (H1 & _ & H2 & _).
  split; [exact H2|exact H1].
Defined.

(** X7.  On a timer that was never stopped, whatever [start], [tick],
    [recordActivity], [pause] and [resume] calls were made — prompts
    confirmed or declined, page visible or hidden — as long as the clock
    readings never decrease, the three accumulators together stay within
    the elapsed time, and so do the three values of [getSummary()]. *)
Theorem summary_within_elapsed_before_stop (cs : list call) (now1 now2 : Z) :
  forallb (fun call => negb (isStop call)) cs = true ->
  chrono 0 (flat_map readings cs ++ [now1]) = true ->
  let t := run createTimer cs in
  let s := getSummary now1 now2 t in
  activeTime t + pausedTime t + inactivityTime t <= elapsed s /\
  active s + paused s + inactive s <= elapsed s.
Proof. apply unstopped_summary_within_elapsed. Qed.

Lemma summary_within_elapsed_before_stop_witness :
  active (getSummary (sec 15) (sec 15) (idleRun 5)) +
  paused (getSummary (sec 15) (sec 15) (idleRun 5)) +
  inactive (getSummary (sec 15) (sec 15) (idleRun 5))
  <= elapsed (getSummary (sec 15) (sec 15) (idleRun 5)).
Proof.
  exact (proj2 (summary_within_elapsed_before_stop
                  (Start origin origin origin 1 :: busyAfter 0 10 ++ ticksAfter 10 5)
                  (sec 15) (sec 15) ltac:(vm_compute; reflexivity)
                  ltac:(vm_compute; reflexivity))).
Defined.

(** X8.  The first [stop()] keeps that bound: it closes an open manual pause
    at the stop itself, so the summary read after the first stop, at any
    later time, still adds up to no more than the elapsed time. *)
Theorem summary_within_elapsed_at_first_stop (cs : list call) (t1 t2 now1 now2 : Z) :
  forallb (fun call => negb (isStop call)) cs = true ->
  chrono 0 (flat_map readings cs ++ [t1; t2]) = true ->
  t2 <> 0 ->
  let s := getSummary now1 now2 (stop t1 t2 (run createTimer cs)) in
  active s + paused s + inactive s <= elapsed s.
Proof. apply first_stop_summary_within_elapsed. Qed.

Lemma summary_within_elapsed_at_first_stop_witness :
  active (getSummary (sec 99) (sec 99) (stop (sec 12) (sec 12) (idleRun 0))) +
  paused (getSummary (sec 99) (sec 99) (stop (sec 12) (sec 12) (idleRun 0))) +
  inactive (getSummary (sec 99) (sec 99) (stop (sec 12) (sec 12) (idleRun 0)))
  <= elapsed (getSummary (sec 99) (sec 99) (stop (sec 12) (sec 12) (idleRun 0))).
Proof.
  exact (summary_within_elapsed_at_first_stop
           (Start origin origin origin 1 :: busyAfter 0 10 ++ ticksAfter 10 0)
           (sec 12) (sec 12) (sec 99) (sec 99) ltac:(vm_compute; reflexivity)
           ltac:(vm_compute; reflexivity) ltac:(vm_compute; discriminate)).
Defined.

End TimerSoundness.

(** ** Progress through the task sequence *)

Section ProgressCoverage.

Import Sequencer Text Store.

(** What [skipTask] does to the progress properties. *)
Lemma skipTask_progress x c w task :
  TASKS !! x = Some task ->
  let s := state w in
  let s' := state (skipTask x c w) in
  let completed :=
    if includes x (completedTasks s) then completedTasks s else completedTasks s ++ [x] in
  sequence s' = sequence s /\
  completedTasks s' = completed /\
  skippedTasks s'
  = (if includes x (skippedTasks s) then skippedTasks s else skippedTasks s ++ [x]) /\
  currentTaskIndex s' = advance completed (sequence s) (currentTaskIndex s) /\
  totalTimeSpent s' = totalTimeSpent s.
Proof.
  intros Ht. unfold skipTask. rewrite Ht. simpl.
  rewrite logSessionTime_state. simpl.
  match goal with
  | |- context [saveState ?b ?n ?st ?w0] =>
      destruct (saveState_progress b n st w0) as (_ & -> & -> & -> & -> & ->)
  end.
  simpl. by destruct (includes x (completedTasks (state w))),
                     (includes x (skippedTasks (state w))).
Qed.

Lemma includes_spec x l : includes x l = true <-> x ∈ l.
Proof. unfold includes. apply bool_decide_eq_true. Qed.

Lemma NoDup_push x (l : list string) :
  NoDup l -> NoDup (if includes x l then l else l ++ [x]).
Proof.
  intros Hl. destruct (includes x l) eqn:E; [done|].
  apply NoDup_app. split; [done|]. split; [|apply NoDup_singleton].
  intros y Hy Hy'. apply list_elem_of_singleton in Hy'. subst y.
  apply includes_spec in Hy. congruence.
Qed.

Lemma elem_of_push x y (l : list string) :
  y ∈ (if includes x l then l else l ++ [x]) <-> y = x \/ y ∈ l.
Proof.
  destruct (includes x l) eqn:E.
  - apply includes_spec in E. split; [by right|]. by intros [->|?].
  - rewrite elem_of_app, list_elem_of_singleton. tauto.
Qed.

(** X9.  The two lists of the state stay duplicate-free, and every skipped
    task stays among the completed ones, through any [completeTask] and
    [skipTask] call, for a code of [TASKS] (started or not, repeated or
    not) and for a code that [TASKS] does not have, own or inherited
    (the call then returns at its guard). *)
Theorem progress_lists_stay_well_formed (x : string) (c : completion) (w : world) :
  x ∉ prototypeKeys ->
  wellFormed (state w) ->
  wellFormed (state (completeTask x c w)) /\ wellFormed (state (skipTask x c w)).
Proof.
  intros _ (Hc & Hs & Hsub).
  destruct (TASKS !! x) as [task|] eqn:Ht.
  - destruct (completeTask_progress x c w task Ht) as (_ & Hc1 & Hs1 & _).
    destruct (skipTask_progress x c w task Ht) as (_ & Hc2 & Hs2 & _).
    unfold wellFormed. rewrite Hc1, Hs1, Hc2, Hs2. split; split.
    + by apply NoDup_push.
    + split; [by apply NoDup_filter|].
      intros y [Hy1 Hy2]%list_elem_of_filter. apply elem_of_push. right. by apply Hsub.
    + by apply NoDup_push.
    + split; [by apply NoDup_push|].
      intros y Hy. apply elem_of_push in Hy. apply elem_of_push.
      destruct Hy as [->|Hy]; [by left|right; by apply Hsub].
  - unfold completeTask, skipTask. rewrite Ht. by split.
Qed.

Lemma progress_lists_stay_well_formed_witness :
  (("VCN" : string) ∉ prototypeKeys) /\
  wellFormed (state createdPage) /\
  wellFormed (state completedTwice) /\
  wellFormed (state (skipTask "ASLCT" (completionAt 90) completedOnce)).
Proof.
  assert (Hv : ("VCN" : string) ∉ prototypeKeys)
    by (apply (bool_decide_unpack _); vm_compute; exact I).
  assert (Ha : ("ASLCT" : string) ∉ prototypeKeys)
    by (apply (bool_decide_unpack _); vm_compute; exact I).
  assert (H0 : wellFormed (state createdPage)).
  { unfold wellFormed. destruct createdPage_state as (_ & _ & _ & _ & _ & -> & _).
    assert (Hs : skippedTasks (state createdPage) = []) by (vm_compute; reflexivity).
    rewrite Hs. split; [constructor|]. split; [constructor|]. by intros y Hy. }
  assert (H1 : wellFormed (state taskStarted)) by exact H0.
  pose proof (proj1 (progress_lists_stay_well_formed "VCN" (completionAt 60) taskStarted Hv H1))
    as H2.
  split; [exact Hv|]. split; [exact H0|]. split.
  - exact (proj1 (progress_lists_stay_well_formed "VCN" (completionAt 61) completedOnce Hv H2)).
  - exact (proj2 (progress_lists_stay_well_formed "ASLCT" (completionAt 90) completedOnce Ha H2)).
Defined.

(** X10.  After [completeTask(x)] of a known task, [x] is completed and not
    skipped; after [skipTask(x)] it is both.  No other code enters or
    leaves either list. *)
Theorem complete_and_skip_membership (x : string) (c : completion) (w : world)
    (task : task) :
  TASKS !! x = Some task ->
  let finished := state (completeTask x c w) in
  let skipped := state (skipTask x c w) in
  x ∈ completedTasks finished /\ (x ∉ skippedTasks finished) /\
  x ∈ completedTasks skipped /\ x ∈ skippedTasks skipped /\
  (forall y, y <> x ->
     (y ∈ completedTasks finished <-> y ∈ completedTasks (state w)) /\
     (y ∈ skippedTasks finished <-> y ∈ skippedTasks (state w)) /\
     (y ∈ completedTasks skipped <-> y ∈ completedTasks (state w)) /\
     (y ∈ skippedTasks skipped <-> y ∈ skippedTasks (state w))).
Proof.
  intros Ht.
  destruct (completeTask_progress x c w task Ht) as (_ & Hc1 & Hs1 & _).
  destruct (skipTask_progress x c w task Ht) as (_ & Hc2 & Hs2 & _).
  cbv zeta. rewrite Hc1, Hs1, Hc2, Hs2.
  split; [apply elem_of_push; by left|].
  split; [rewrite list_elem_of_filter; tauto|].
  split; [apply elem_of_push; by left|].
  split; [apply elem_of_push; by left|].
  intros y Hy. rewrite !elem_of_push, list_elem_of_filter. tauto.
Qed.

Lemma complete_and_skip_membership_witness :
  ("VCN" : string) ∈ completedTasks (state completedOnce) /\
  (("VCN" : string) ∉ skippedTasks (state completedOnce)).
Proof.
  destruct (complete_and_skip_membership "VCN" (completionAt 60) taskStarted
              (mkTask "Virtual Campus Navigation" external true 20 true)
              ltac:(vm_compute; reflexivity)) as (H1 & H2 & _).
  split; [exact H1|exact H2].
Defined.

Lemma skipCompleted_spec completed rest : forall i,
  let i' := skipCompleted completed rest i in
  (i <= i' <= i + length rest)%nat /\
  (forall k, (k < i' - i)%nat -> exists code, rest !! k = Some code /\ code ∈ completed) /\
  (forall code, rest !! (i' - i)%nat = Some code -> code ∉ completed).
Proof.
  induction rest as [|code rest IH]; intros i; cbn [skipCompleted].
  - cbv zeta. cbn [length]. split; [lia|]. split; [intros k; lia|].
    intros code. by rewrite lookup_nil.
  - destruct (includes code completed) eqn:E.
    + destruct (IH (S i)) as (H1 & H2 & H3). cbv zeta in *.
      set (i' := skipCompleted completed rest (S i)) in *.
      cbn [length]. split; [lia|]. split.
      * intros [|k] Hk.
        -- exists code. split; [done|]. by apply includes_spec.
        -- destruct (H2 k ltac:(lia)) as (c' & Hc' & Hin). by exists c'.
      * intros c' Hc'. apply H3.
        replace (i' - i)%nat with (S (i' - S i)) in Hc' by lia. exact Hc'.
    + cbv zeta. cbn [length]. split; [lia|]. split; [intros k; lia|].
      intros c'. rewrite Nat.sub_diag. cbn. intros [= <-] Hin.
      apply includes_spec in Hin. congruence.
Qed.

Lemma advance_spec completed sequence i :
  let i' := advance completed sequence i in
  (i < i')%nat /\
  (forall k, (i < k < i')%nat -> exists code, sequence !! k = Some code /\ code ∈ completed) /\
  (forall code, sequence !! i' = Some code -> code ∉ completed) /\
  (i' <= Nat.max (S i) (length sequence))%nat.
Proof.
  unfold advance.
  destruct (skipCompleted_spec completed (drop (S i) sequence) (S i)) as (H1 & H2 & H3).
  cbv zeta in *. set (i' := skipCompleted completed (drop (S i) sequence) (S i)) in *.
  rewrite length_drop in H1.
  split; [lia|]. split; [|split; [|lia]].
  - intros k Hk. destruct (H2 (k - S i)%nat ltac:(lia)) as (code & Hc & Hin).
    rewrite lookup_drop in Hc. replace (S i + (k - S i))%nat with k in Hc by lia.
    by exists code.
  - intros code Hc. apply H3. rewrite lookup_drop.
    by replace (S i + (i' - S i))%nat with i' by lia.
Qed.

(** X11.  Where the index lands.  After [completeTask] or [skipTask] of a known
    task at index [i], the new [currentTaskIndex] is larger than [i];
    every task between the two is already completed; and the task at the
    new index, if there is one, is not completed: the page never offers a
    completed task next.  The new index is at most the larger of [i + 1]
    and the length of the sequence: the loop stops at the end of the
    sequence, but the increment before it is unconditional, so a call
    made with the index on the last task or beyond moves it to [i + 1],
    which can lie past the end. *)
Theorem next_task_is_not_completed (x : string) (c : completion) (w : world)
    (task : task) (after : world) :
  TASKS !! x = Some task ->
  after = completeTask x c w \/ after = skipTask x c w ->
  let i := currentTaskIndex (state w) in
  let i' := currentTaskIndex (state after) in
  (i < i')%nat /\
  (forall k, (i < k < i')%nat ->
     exists code, sequence (state after) !! k = Some code /\
                  code ∈ completedTasks (state after)) /\
  (forall code, sequence (state after) !! i' = Some code ->
                code ∉ completedTasks (state after)) /\
  (i' <= Nat.max (S i) (length (sequence (state after))))%nat /\
  ((length (sequence (state after)) <= S i)%nat -> i' = S i).
Proof.
  intros Ht Hafter. cbv zeta.
  assert (H : sequence (state after) = sequence (state w) /\
              currentTaskIndex (state after)
              = advance (completedTasks (state after)) (sequence (state w))
                  (currentTaskIndex (state w))).
  { destruct Hafter as [->| ->].
    - destruct (completeTask_progress x c w task Ht) as (H1 & H2 & _ & H4 & _).
      cbv zeta in *. by rewrite H1, H2, H4.
    - destruct (skipTask_progress x c w task Ht) as (H1 & H2 & _ & H4 & _).
      cbv zeta in *. by rewrite H1, H2, H4. }
  destruct H as [-> ->].
  destruct (advance_spec (completedTasks (state after)) (sequence (state w))
              (currentTaskIndex (state w))) as (H1 & H2 & H3 & H4).
  cbv zeta in *.
  split; [exact H1|]. split; [exact H2|]. split; [exact H3|]. split; [exact H4|].
  intros Hl. lia.
Qed.

Lemma next_task_is_not_completed_witness :
  (currentTaskIndex (state taskStarted) < currentTaskIndex (state completedOnce))%nat /\
  forall code,
    sequence (state completedOnce) !! currentTaskIndex (state completedOnce) = Some code ->
    code ∉ completedTasks (state completedOnce).
Proof.
  destruct (next_task_is_not_completed "VCN" (completionAt 60) taskStarted
              (mkTask "Virtual Campus Navigation" external true 20 true) completedOnce
              ltac:(vm_compute; reflexivity) (or_introl eq_refl)) as (H1 & _ & H3 & _).
  split; [exact H1|exact H3].
Defined.

End ProgressCoverage.

(** ** Saving and coming back *)

Section StoreCoverage.

Import Sequencer Text Store Study.



(** X13.  A page that resumes a session — from the document store or from the
    legacy sheet, whatever array the stored state carries — holds a
    sequence that ends with DEMO and contains it once, keeps the stored
    progress lists, and has a started session timer when the clock reading
    is not zero. *)
Theorem resumed_page_is_normalised (link : option string) (field : string)
    (r : resumption) (w : world) :
  snd (resumeSession link field r w) = Resumed ->
  let w' := fst (resumeSession link field r w) in
  last (sequence (state w')) = Some DEMO /\
  count_occ string_dec (sequence (state w')) DEMO = 1%nat /\
  ensureDemographicsLast (sequence (state w')) = sequence (state w') /\
  (timerAt1 r <> 0 -> Timer.truthy (Timer.startTime (sessionTimer w')) = true) /\
  taskTimer w' = taskTimer w.
Proof.
  intros Hres. cbv zeta.
  assert (H : exists loaded, resumeSession link field r w = adopt r loaded w).
  { revert Hres. unfold resumeSession.
    destruct (CODE_REGEX _); cbn [negb]; cbv iota; [|discriminate].
    destruct (db w) as [docs|]; [destruct (fetched r); [|discriminate];
      destruct (docs !! _) as [d|]; [intros _; by exists (docState d)|]|];
      destruct (sheets r) as [|[st|]|]; cbn [snd]; try discriminate;
      intros _; by exists st. }
  destruct H as [loaded Hl]. rewrite Hl in Hres |- *. clear Hl.
  assert (Hseq : sequence (state (fst (adopt r loaded w)))
                 = ensureDemographicsLast (sequence loaded)).
  { unfold adopt.
    match goal with
    | |- context [saveState ?b ?n ?st ?w0] =>
        pose proof (saveState_progress b n st w0) as (_ & Hq & _)
    end.
    cbn in Hq. destruct (negb (renders _)); [|destruct (negb _)]; cbn; by rewrite Hq. }
  rewrite Hseq.
  split; [apply last_snoc|]. split; [|split; [apply ensureDemographicsLast_idempotent|]].
  { unfold ensureDemographicsLast. rewrite count_occ_app, count_occ_filter_demo.
    rewrite (count_occ_cons_eq string_dec) by done. by rewrite count_occ_nil. }
  revert Hres. unfold adopt.
  match goal with
  | |- context [saveState ?b ?n ?st ?w0] =>
      destruct (saveState_timers b n st w0) as (Hs & Ht);
      set (w1 := saveState b n st w0) in *
  end.
  cbn in Hs, Ht.
  destruct (negb (renders (state w1))); [discriminate|].
  destruct (negb (Timer.truthy (Timer.startTime (sessionTimer w1)))) eqn:E; cbn; intros _.
  - split; [|exact Ht]. intros Hne. by apply negb_true_iff, Z.eqb_neq.
  - split; [|exact Ht]. intros _. by apply negb_false_iff in E.
Qed.

Lemma resumed_page_is_normalised_witness :
  snd (resumeSession (Some "ABCDEFGH"%string) "" sampleResumption reloadedPage) = Resumed /\
  last (sequence
          (state (fst (resumeSession (Some "ABCDEFGH"%string) "" sampleResumption
                         reloadedPage))))
  = Some DEMO.
Proof.
  assert (H : snd (resumeSession (Some "ABCDEFGH"%string) "" sampleResumption reloadedPage)
              = Resumed) by (vm_compute; reflexivity).
  split; [exact H|].
  exact (proj1 (resumed_page_is_normalised (Some "ABCDEFGH"%string) "" sampleResumption
                  reloadedPage H)).
Defined.

(** X14.  [saveState] writes nothing but its own entries: the documents of
    other session codes, the cache entries under other keys and the
    payloads already logged stay as they are, the timers are not touched,
    and the state changes in [lastActivity] only. *)
Theorem saveState_writes_only_its_entries (b : backends) (now stamp : Z) (w : world) :
  let w' := saveState b now stamp w in
  let code := sessionCode (state w) in
  (forall k, k <> ("study_" ++ code)%string -> k <> "recent_session"%string ->
             localStorage w' !! k = localStorage w !! k) /\
  (forall other, other <> code ->
     (db w' ≫= (.!! other)) = (db w ≫= (.!! other))) /\
  (db w' = None <-> db w = None) /\
  sent w `prefix_of` sent w' /\
  sessionTimer w' = sessionTimer w /\ taskTimer w' = taskTimer w /\
  (state w' = state w \/ state w' = withLastActivity (Some now) (state w)).
Proof.
  cbv zeta. unfold saveState.
  destruct (nonEmpty (sessionCode (state w))); cbn [negb]; cbv iota;
    [|repeat split; try done; by left].
  destruct (db w) as [docs|] eqn:Hdb; destruct b as [[| |] [|] [|]]; cbn;
    rewrite ?Hdb; cbn;
    (split; [intros k Hk1 Hk2; repeat (rewrite lookup_insert_ne by done); reflexivity|]);
    (split; [intros other Ho; rewrite ?Hdb; cbn;
             repeat (rewrite lookup_insert_ne by done); reflexivity|]);
    (split; [rewrite ?Hdb; split; intros E; cbn in *; congruence|]);
    (split; [first [reflexivity | by apply prefix_app_r]|]);
    (split; [reflexivity|]); (split; [reflexivity|]); by right.
Qed.

Lemma saveState_caches b now stamp w :
  nonEmpty (sessionCode (state w)) = true ->
  docSet b <> SetThrows -> itemState b = ItemStored -> itemRecent b = ItemStored ->
  let st := withLastActivity (Some now) (state w) in
  let w' := saveState b now stamp w in
  localStorage w' !! ("study_" ++ sessionCode (state w))%string = Some (StoredState st) /\
  localStorage w' !! "recent_session"%string = Some (StoredText (sessionCode (state w))) /\
  sent w' = sent w ++ [SaveState (sessionCode (state w)) st].
Proof.
  intros Hne Hset Hi1 Hi2.
  destruct (saveState_no_throw b now stamp w Hne Hset Hi1 Hi2) as (H1 & H2).
  split; [exact H1|]. split; [|exact H2].
  unfold saveState. rewrite Hne, Hi1, Hi2. cbn.
  destruct (db w) as [docs|]; [destruct (docSet b); try done|]; cbn;
    by rewrite lookup_insert_eq.
Qed.

(** X15.  A document store that rejects the write, or that is not configured,
    does not keep [saveState] from its other two backends: the snapshot is
    cached under [study_<code>], the code under [recent_session], and the
    [save_state] payload is handed to [sendToSheets]. *)
Theorem rejected_document_write_is_survived (b : backends) (now stamp : Z) (w : world) :
  nonEmpty (sessionCode (state w)) = true ->
  docSet b <> SetThrows -> itemState b = ItemStored -> itemRecent b = ItemStored ->
  let st := withLastActivity (Some now) (state w) in
  let w' := saveState b now stamp w in
  localStorage w' !! ("study_" ++ sessionCode (state w))%string = Some (StoredState st) /\
  localStorage w' !! "recent_session"%string = Some (StoredText (sessionCode (state w))) /\
  sent w' = sent w ++ [SaveState (sessionCode (state w)) st].
Proof. apply saveState_caches. Qed.

Lemma rejected_document_write_is_survived_witness :
  nonEmpty (sessionCode (state createdPage)) = true /\
  sent (saveState (mkBackends SetRejects ItemStored ItemStored) (sec 5) (sec 5) createdPage)
  = sent createdPage ++
    [SaveState (sessionCode (state createdPage))
       (withLastActivity (Some (sec 5)) (state createdPage))].
Proof.
  assert (Hne : nonEmpty (sessionCode (state createdPage)) = true)
    by (vm_compute; reflexivity).
  split; [exact Hne|].
  destruct (rejected_document_write_is_survived
              (mkBackends SetRejects ItemStored ItemStored) (sec 5) (sec 5) createdPage
              Hne ltac:(discriminate) eq_refl eq_refl) as (_ & _ & H).
  exact H.
Defined.

(** X16.  The local cache round trip.  After a [saveState] in which no write
    throws, a page opened later on the same browser, with no session of
    its own, schedules the welcome-back dialog for the saved code as long
    as fewer than 30 days have passed, and no dialog from 30 days on.
    Confirming it restores the saved progress with the sequence
    normalised; unlike [resumeSession], it never starts a timer. *)
Theorem cached_session_comes_back (b b' : backends) (now stamp now' at' stamp' : Z)
    (w w' : world) :
  nonEmpty (sessionCode (state w)) = true ->
  docSet b <> SetThrows -> itemState b = ItemStored -> itemRecent b = ItemStored ->
  nonEmpty (sessionCode (state w')) = false ->
  localStorage w' = localStorage (saveState b now stamp w) ->
  let saved := withLastActivity (Some now) (state w) in
  checkSavedSession now' w'
  = (if now' - now <? 30 * 86400000 then Some (sessionCode (state w), saved) else None) /\
  let back := welcomeBack true saved b' at' stamp' w' in
  sessionCode (state back) = sessionCode (state w) /\
  sequence (state back) = ensureDemographicsLast (sequence (state w)) /\
  completedTasks (state back) = completedTasks (state w) /\
  skippedTasks (state back) = skippedTasks (state w) /\
  currentTaskIndex (state back) = currentTaskIndex (state w) /\
  totalTimeSpent (state back) = totalTimeSpent (state w) /\
  sessionTimer back = sessionTimer w' /\ taskTimer back = taskTimer w'.
Proof.
  intros Hne Hset Hi1 Hi2 Hfresh Hls.
  destruct (saveState_caches b now stamp w Hne Hset Hi1 Hi2) as (H1 & H2 & _).
  cbv zeta. split.
  - unfold checkSavedSession. rewrite Hfresh, Hls, H2, Hne. cbn [negb]. cbv iota.
    by rewrite H1.
  - unfold welcomeBack.
    match goal with
    | |- context [saveState ?b0 ?n ?st ?w0] =>
        destruct (saveState_progress b0 n st w0) as (-> & -> & -> & -> & -> & ->);
        destruct (saveState_timers b0 n st w0) as (-> & ->)
    end.
    by cbn.
Qed.

Lemma cached_session_comes_back_witness :
  nonEmpty (sessionCode (state createdPage)) = true /\
  checkSavedSession (sec 86400) (setLocalStorage (localStorage createdPage) freshPage)
  = Some (sessionCode (state createdPage),
          withLastActivity (Some origin) (state createdPage)) /\
  checkSavedSession (sec 2592000) (setLocalStorage (localStorage createdPage) freshPage)
  = None.
Proof.
  assert (Hne : nonEmpty (sessionCode (state createdPage)) = true)
    by (vm_compute; reflexivity).
  assert (Hls : forall w, localStorage (setLocalStorage (localStorage createdPage) w)
                = localStorage (saveState healthy origin origin createdPage)).
  { intros w. vm_compute. reflexivity. }
  split; [exact Hne|]. split.
  - exact (proj1 (cached_session_comes_back healthy healthy origin origin (sec 86400) 0 0
                    createdPage (setLocalStorage (localStorage createdPage) freshPage)
                    Hne ltac:(discriminate) eq_refl eq_refl eq_refl (Hls freshPage))).
  - exact (proj1 (cached_session_comes_back healthy healthy origin origin (sec 2592000) 0 0
                    createdPage (setLocalStorage (localStorage createdPage) freshPage)
                    Hne ltac:(discriminate) eq_refl eq_refl eq_refl (Hls freshPage))).
Defined.

End StoreCoverage.

(** ** Pausing and finishing the study *)

Section StudyCoverage.

Import Sequencer Text Store Study.

Lemma saveState_state_cases b n s w :
  state (saveState b n s w) = state w \/
  state (saveState b n s w) = withLastActivity (Some n) (state w).
Proof.
  destruct (nonEmpty (sessionCode (state w))) eqn:E.
  - right. by apply saveState_state.
  - left. by rewrite saveState_no_code.
Qed.

(** [saveState] keeps the pause bookkeeping of the state. *)
Lemma saveState_pause_fields b n s w :
  pauseStart (state (saveState b n s w)) = pauseStart (state w) /\
  totalPausedTime (state (saveState b n s w)) = totalPausedTime (state w) /\
  lastPauseType (state (saveState b n s w)) = lastPauseType (state w) /\
  totalActiveTime (state (saveState b n s w)) = totalActiveTime (state w).
Proof. by destruct (saveState_state_cases b n s w) as [-> | ->]. Qed.

Lemma pauseTimers_state reason c w : state (pauseTimers reason c w) = state w.
Proof.
  unfold pauseTimers.
  destruct (Timer.truthy (Timer.startTime (taskTimer w))); cbn;
    by destruct (Timer.truthy (Timer.startTime (sessionTimer w))).
Qed.

Lemma pauseTimers_sessionTimer reason c w :
  sessionTimer (pauseTimers reason c w)
  = if Timer.truthy (Timer.startTime (sessionTimer w))
    then Timer.pause reason (sessionPausedAt c) (sessionTimer w) else sessionTimer w.
Proof.
  unfold pauseTimers.
  destruct (Timer.truthy (Timer.startTime (taskTimer w))); cbn;
    by destruct (Timer.truthy (Timer.startTime (sessionTimer w))).
Qed.

Lemma paused_state (leaving : bool) c p :
  let paused := if leaving then saveAndExit c p else pauseStudy c p in
  pauseStart (state (base paused)) = Some (pausedAt c) /\
  totalPausedTime (state (base paused)) = totalPausedTime (state (base p)) /\
  lastPauseType (state (base paused))
  = Some (if leaving then "exit" else "manual")%string /\
  length (notices paused) = S (length (notices p)).
Proof.
  destruct leaving; cbv zeta; unfold saveAndExit, pauseStudy; cbn [base notices];
    match goal with
    | |- context [saveState ?b ?n ?s ?w0] =>
        destruct (saveState_pause_fields b n s w0) as (-> & -> & -> & _)
    end;
    rewrite pauseTimers_state, length_app, Nat.add_1_r; by cbn.
Qed.

Lemma resumeStudy_state r p :
  let resumed := resumeStudy r p in
  let st := state (base p) in
  pauseStart (state (base resumed))
  = (if Timer.truthy (pauseStart st) then None else pauseStart st) /\
  totalPausedTime (state (base resumed))
  = (if Timer.truthy (pauseStart st)
     then totalPausedTime st + (resumedAt r - Timer.num (pauseStart st))
     else totalPausedTime st) /\
  lastPauseType (state (base resumed)) = lastPauseType st /\
  length (notices resumed)
  = (length (notices p) + if Timer.truthy (pauseStart st) then 1 else 0)%nat.
Proof.
  cbv zeta. unfold resumeStudy. cbn [base notices].
  match goal with
  | |- context [saveState ?b ?n ?s ?w0] =>
      destruct (saveState_pause_fields b n s w0) as (-> & -> & -> & _)
  end.
  rewrite length_app. by destruct (Timer.truthy (pauseStart (state (base p)))).
Qed.

(** X17.  A pause of the study is counted once.  After [pauseStudy] or
    [saveAndExit] at a non-zero instant [p], [resumeStudy] at [r] adds
    exactly [r - p] to [state.totalPausedTime], clears [state.pauseStart]
    and sends one [session_resumed] message; a second [resumeStudy] adds
    nothing and sends nothing. *)
Theorem study_pause_is_counted_once (leaving : bool) (c : pausing) (r r' : resuming)
    (p : page) :
  pausedAt c <> 0 ->
  let paused := if leaving then saveAndExit c p else pauseStudy c p in
  let resumed := resumeStudy r paused in
  let again := resumeStudy r' resumed in
  pauseStart (state (base paused)) = Some (pausedAt c) /\
  totalPausedTime (state (base resumed))
  = totalPausedTime (state (base p)) + (resumedAt r - pausedAt c) /\
  pauseStart (state (base resumed)) = None /\
  lastPauseType (state (base resumed)) = Some (if leaving then "exit" else "manual")%string /\
  length (notices resumed) = (length (notices p) + 2)%nat /\
  totalPausedTime (state (base again)) = totalPausedTime (state (base resumed)) /\
  length (notices again) = length (notices resumed).
Proof.
  intros Hp. cbv zeta.
  set (paused := if leaving then saveAndExit c p else pauseStudy c p).
  set (resumed := resumeStudy r paused).
  destruct (paused_state leaving c p) as (H1 & H2 & H3 & H4).
  change (if leaving then saveAndExit c p else pauseStudy c p) with paused in H1, H2, H3, H4.
  destruct (resumeStudy_state r paused) as (R1 & R2 & R3 & R4).
  change (resumeStudy r paused) with resumed in R1, R2, R3, R4.
  assert (Ht : Timer.truthy (pauseStart (state (base paused))) = true).
  { rewrite H1. cbn. by apply negb_true_iff, Z.eqb_neq. }
  rewrite Ht in R1, R2, R4. rewrite H1, H2 in R2. rewrite H3 in R3. cbn in R2.
  destruct (resumeStudy_state r' resumed) as (_ & S2 & _ & S4).
  rewrite R1 in S2, S4. change (Timer.truthy None) with false in S2, S4.
  cbv iota in S2, S4. rewrite Nat.add_0_r in S4.
  split; [exact H1|]. split; [exact R2|]. split; [exact R1|]. split; [exact R3|].
  split; [lia|]. split; [exact S2|exact S4].
Qed.

Lemma study_pause_is_counted_once_witness :
  sec 100 <> 0 /\
  totalPausedTime
    (state (base (resumeStudy (resumingAt 400) (pauseStudy (pausingAt 100) createdStudy))))
  = totalPausedTime (state (base createdStudy)) + (sec 400 - sec 100) /\
  totalPausedTime
    (state (base (resumeStudy (resumingAt 400) (saveAndExit (pausingAt 100) createdStudy))))
  = totalPausedTime (state (base createdStudy)) + (sec 400 - sec 100).
Proof.
  assert (Hz : sec 100 <> 0) by (vm_compute; discriminate).
  split; [exact Hz|]. split.
  - destruct (study_pause_is_counted_once false (pausingAt 100) (resumingAt 400)
                (resumingAt 500) createdStudy Hz) as (_ & H & _).
    exact H.
  - destruct (study_pause_is_counted_once true (pausingAt 100) (resumingAt 400)
                (resumingAt 500) createdStudy Hz) as (_ & H & _).
    exact H.
Defined.

(** With an end recorded, [getSummary()] no longer reads the clock. *)
Lemma getSummary_stopped a1 a2 b1 b2 t :
  Timer.truthy (Timer.endTime t) = true ->
  Timer.getSummary a1 a2 t = Timer.getSummary b1 b2 t.
Proof. intros H. unfold Timer.getSummary, Timer.endOr. by rewrite H. Qed.

Lemma markComplete_parts c p :
  let t := sessionTimer (base p) in
  let t' :=
    if Timer.truthy (Timer.startTime t) && negb (Timer.truthy (Timer.endTime t))
    then Timer.stop (finalStopAt1 c) (finalStopAt2 c) t else t in
  sessionTimer (base (markComplete c p)) = t' /\
  taskTimer (base (markComplete c p)) = taskTimer (base p) /\
  state (base (markComplete c p))
  = withTotalActiveTime
      (Timer.active (Timer.getSummary (finalSummaryAt1 c) (finalSummaryAt2 c) t'))
      (state (base p)) /\
  db (base (markComplete c p)) = db (base p) /\
  localStorage (base (markComplete c p)) = localStorage (base p).
Proof.
  cbv zeta. unfold markComplete. cbn [base].
  by destruct (negb (nonEmpty _)).
Qed.

(** X18.  [markComplete] stops the session timer at most once.  Once the
    session timer has an end, a further [markComplete] leaves both timers
    and the whole state as they are and reports the same final summary:
    only the messages are sent again. *)
Theorem markComplete_stops_once (c1 c2 : finishing) (p : page) :
  let once := markComplete c1 p in
  let twice := markComplete c2 once in
  Timer.truthy (Timer.endTime (sessionTimer (base once))) = true ->
  sessionTimer (base twice) = sessionTimer (base once) /\
  taskTimer (base twice) = taskTimer (base once) /\
  state (base twice) = state (base once) /\
  Timer.getSummary (finalSummaryAt1 c2) (finalSummaryAt2 c2) (sessionTimer (base twice))
  = Timer.getSummary (finalSummaryAt1 c1) (finalSummaryAt2 c1) (sessionTimer (base once)) /\
  db (base twice) = db (base once) /\
  localStorage (base twice) = localStorage (base once).
Proof.
  cbv zeta. set (once := markComplete c1 p). intros Hend.
  destruct (markComplete_parts c1 p) as (_ & _ & Hs1 & _).
  destruct (markComplete_parts c2 once) as (Ht2 & Hk2 & Hs2 & Hd2 & Hl2).
  cbv zeta in Hs1, Ht2, Hs2.
  change (markComplete c1 p) with once in Hs1.
  assert (Hg : Timer.truthy (Timer.startTime (sessionTimer (base once))) &&
               negb (Timer.truthy (Timer.endTime (sessionTimer (base once)))) = false)
    by (rewrite Hend; apply andb_false_r).
  rewrite Hg in Ht2, Hs2.
  split; [exact Ht2|]. split; [exact Hk2|]. split; [|split; [|by split]].
  - rewrite Hs2.
    rewrite (getSummary_stopped _ _ (finalSummaryAt1 c1) (finalSummaryAt2 c1) _ Hend).
    destruct (markComplete_parts c1 p) as (Ht1 & _). cbv zeta in Ht1.
    change (markComplete c1 p) with once in Ht1. rewrite Ht1, Hs1. reflexivity.
  - rewrite Ht2. by apply getSummary_stopped.
Qed.

Lemma markComplete_stops_once_witness :
  Timer.truthy
    (Timer.endTime
       (sessionTimer
          (base (markComplete (finishingAt 900)
                   (mkPage (fst (resumeSession (Some "ABCDEFGH"%string) "" sampleResumption
                                   reloadedPage)) [])))))
  = true /\
  state (base (markComplete (finishingAt 950)
                 (markComplete (finishingAt 900)
                    (mkPage (fst (resumeSession (Some "ABCDEFGH"%string) ""
                                    sampleResumption reloadedPage)) []))))
  = state (base (markComplete (finishingAt 900)
                   (mkPage (fst (resumeSession (Some "ABCDEFGH"%string) ""
                                   sampleResumption reloadedPage)) []))).
Proof.
  assert (H : Timer.truthy
                (Timer.endTime
                   (sessionTimer
                      (base (markComplete (finishingAt 900)
                               (mkPage (fst (resumeSession (Some "ABCDEFGH"%string) ""
                                               sampleResumption reloadedPage)) [])))))
              = true) by (vm_compute; reflexivity).
  split; [exact H|].
  destruct (markComplete_stops_once (finishingAt 900) (finishingAt 950)
              (mkPage (fst (resumeSession (Some "ABCDEFGH"%string) "" sampleResumption
                              reloadedPage)) []) H) as (_ & _ & Hs & _).
  exact Hs.
Defined.

Lemma logSessionTime_sessionTimer stage now1 now2 sentAt w :
  sessionTimer (logSessionTime stage now1 now2 sentAt w) = sessionTimer w.
Proof. unfold logSessionTime. by destruct (negb (nonEmpty _)). Qed.

Lemma saveState_sessionTimer b now stamp w :
  sessionTimer (saveState b now stamp w) = sessionTimer w.
Proof. apply saveState_timers. Qed.

Lemma createNewSession_sessionTimer f c w :
  sessionTimer (createNewSession f c w) = sessionTimer w.
Proof.
  unfold createNewSession.
  destruct (negb _); [done|]. destruct (mobile c && negb (proceed c)); [done|].
  cbn [sessionTimer sendToSheets]. by rewrite saveState_sessionTimer.
Qed.

Lemma startTask_sessionTimer x t1 t2 t3 id sentAt w :
  sessionTimer (startTask x t1 t2 t3 id sentAt w) = sessionTimer w.
Proof. unfold startTask. by destruct (TASKS !! x). Qed.

Lemma completeTask_sessionTimer x c w : sessionTimer (completeTask x c w) = sessionTimer w.
Proof.
  unfold completeTask. destruct (TASKS !! x); [|done].
  cbn [sessionTimer setState]. rewrite logSessionTime_sessionTimer.
  cbn [sessionTimer sendToSheets]. by rewrite saveState_sessionTimer.
Qed.

Lemma skipTask_sessionTimer x c w : sessionTimer (skipTask x c w) = sessionTimer w.
Proof.
  unfold skipTask. destruct (TASKS !! x); [|done].
  cbn [sessionTimer setState]. rewrite logSessionTime_sessionTimer.
  cbn [sessionTimer sendToSheets]. by rewrite saveState_sessionTimer.
Qed.

Lemma welcomeBack_sessionTimer confirmed data b now stamp w :
  sessionTimer (welcomeBack confirmed data b now stamp w) = sessionTimer w.
Proof. unfold welcomeBack. destruct confirmed; [|done]. by rewrite saveState_sessionTimer. Qed.

Lemma pause_span reason now t :
  Timer.startTime (Timer.pause reason now t) = Timer.startTime t /\
  Timer.endTime (Timer.pause reason now t) = Timer.endTime t.
Proof. unfold Timer.pause. by destruct (negb _). Qed.

Lemma resume_span t1 t2 t3 t :
  Timer.startTime (Timer.resume t1 t2 t3 t) = Timer.startTime t /\
  Timer.endTime (Timer.resume t1 t2 t3 t) = Timer.endTime t.
Proof. unfold Timer.resume. by destruct (Timer.isPaused t). Qed.

Lemma paused_sessionTimer (leaving : bool) c p :
  let paused := if leaving then saveAndExit c p else pauseStudy c p in
  Timer.startTime (sessionTimer (base paused)) = Timer.startTime (sessionTimer (base p)) /\
  Timer.endTime (sessionTimer (base paused)) = Timer.endTime (sessionTimer (base p)).
Proof.
  destruct leaving; cbv zeta; unfold saveAndExit, pauseStudy; cbn [base];
    rewrite saveState_sessionTimer, pauseTimers_sessionTimer; cbn [sessionTimer setState];
    destruct (Timer.truthy _); try done; apply pause_span.
Qed.

Lemma resumeStudy_sessionTimer r p :
  Timer.startTime (sessionTimer (base (resumeStudy r p)))
  = Timer.startTime (sessionTimer (base p)) /\
  Timer.endTime (sessionTimer (base (resumeStudy r p)))
  = Timer.endTime (sessionTimer (base p)).
Proof.
  unfold resumeStudy. cbn [base]. rewrite saveState_sessionTimer.
  cbn [sessionTimer setSessionTimer setTaskTimer setState]. unfold resumeTimer.
  destruct (sessionResumedAt r) as [[t1 t2] t3].
  destruct (Timer.truthy _); [apply resume_span|done].
Qed.

(** No page call starts the session timer, and none ends a session timer
    that was never started. *)
Lemma pageStep_session_span p c :
  Timer.startTime (sessionTimer (base (pageStep p c)))
  = Timer.startTime (sessionTimer (base p)) /\
  (Timer.truthy (Timer.startTime (sessionTimer (base p))) = false ->
   Timer.endTime (sessionTimer (base (pageStep p c)))
   = Timer.endTime (sessionTimer (base p))).
Proof.
  destruct c as [f c|x t1 t2 t3 id sentAt|x c|x c|b now stamp|confirmed data b now stamp
                 |c|c|c|c|c]; cbn [pageStep onBase base].
  - by rewrite createNewSession_sessionTimer.
  - by rewrite startTask_sessionTimer.
  - by rewrite completeTask_sessionTimer.
  - by rewrite skipTask_sessionTimer.
  - by rewrite saveState_sessionTimer.
  - by rewrite welcomeBack_sessionTimer.
  - destruct (paused_sessionTimer false c p) as [H1 H2]. by split.
  - destruct (resumeStudy_sessionTimer c p) as [H1 H2]. by split.
  - destruct (paused_sessionTimer true c p) as [H1 H2]. by split.
  - destruct (markComplete_parts c p) as (-> & _). cbv zeta.
    destruct (Timer.truthy (Timer.startTime (sessionTimer (base p)))) eqn:E; cbn [andb].
    + split; [|discriminate]. by destruct (negb _).
    + by split.
  - destruct (Timer.isMutator c) eqn:E; [|by split].
    cbn [onBase base sessionTimer setSessionTimer].
    destruct (step_frame (sessionTimer (base p)) c E) as [H1 H2]. by split.
Qed.

Lemma pageRun_session_span cs : forall p,
  Timer.startTime (sessionTimer (base (pageRun p cs)))
  = Timer.startTime (sessionTimer (base p)) /\
  (Timer.truthy (Timer.startTime (sessionTimer (base p))) = false ->
   Timer.endTime (sessionTimer (base (pageRun p cs)))
   = Timer.endTime (sessionTimer (base p))).
Proof.
  induction cs as [|c cs IH]; intros p; [by split|].
  change (pageRun p (c :: cs)) with (pageRun (pageStep p c) cs).
  destruct (IH (pageStep p c)) as [H1 H2].
  destruct (pageStep_session_span p c) as [H3 H4].
  rewrite H1, H3. split; [done|]. intros Hf.
  rewrite H2 by (by rewrite H3). by apply H4.
Qed.

(** X19.  The session timer is started by [resumeSession] only.  Whatever else
    the page does — creating the session, starting, completing and
    skipping tasks, saving, pausing and resuming the study, the listeners'
    timer calls, [markComplete] — the session timer's [startTime] stays
    what it was.  On a page that created its session and never resumed
    one, [markComplete] therefore stops nothing, and the final report
    gives the clock reading itself as the elapsed time. *)
Theorem session_timer_starts_only_on_resume (p : page) (cs : list pageCall)
    (c : finishing) :
  let p' := pageRun p cs in
  let final := sessionTimer (base (markComplete c p')) in
  Timer.startTime (sessionTimer (base p')) = Timer.startTime (sessionTimer (base p)) /\
  (Timer.startTime (sessionTimer (base p)) = None ->
   Timer.endTime (sessionTimer (base p)) = None ->
   Timer.endTime final = None /\
   Timer.elapsed (Timer.getSummary (finalSummaryAt1 c) (finalSummaryAt2 c) final)
   = finalSummaryAt1 c).
Proof.
  cbv zeta. destruct (pageRun_session_span cs p) as [H1 H2].
  split; [exact H1|]. intros Hs He.
  rewrite Hs in H1, H2. specialize (H2 eq_refl). rewrite He in H2.
  destruct (markComplete_parts c (pageRun p cs)) as (-> & _). cbv zeta.
  rewrite H1. cbn [Timer.truthy andb]. cbv iota.
  split; [exact H2|].
  destruct (getSummary_span (finalSummaryAt1 c) (finalSummaryAt2 c)
              (sessionTimer (base (pageRun p cs)))) as (_ & _ & ->).
  unfold Timer.endOr. rewrite H1, H2. cbn. lia.
Qed.

End StudyCoverage.

(** ** Session window and recomputed totals *)

Section AggregatorCoverage.

Import Aggregator.

Lemma widen_pair w v :
  widen w (Some v)
  = (Some (match fst w with Some lo => Z.min lo v | None => v end),
     Some (match snd w with Some hi => Z.max hi v | None => v end)).
Proof.
  destruct w as [[lo|] [hi|]]; cbn;
    repeat match goal with
           | |- context [?a <? ?b] => destruct (Z.ltb_spec a b)
           | |- context [?a >? ?b] => destruct (Z.gtb_spec a b)
           end; f_equal; f_equal; lia.
Qed.

Lemma fold_widen l : forall w,
  fold_left widen l w = (lowest (fst w) (omap id l), highest (snd w) (omap id l)).
Proof.
  induction l as [|[v|] l IH]; intros w.
  - by destruct w.
  - rewrite fold_left_step, IH, widen_pair. reflexivity.
  - rewrite fold_left_step. apply IH.
Qed.

Lemma lowest_app a l1 l2 : lowest a (l1 ++ l2) = lowest (lowest a l1) l2.
Proof. apply fold_left_app. Qed.

Lemma highest_app a l1 l2 : highest a (l1 ++ l2) = highest (highest a l1) l2.
Proof. apply fold_left_app. Qed.

Lemma fold_progress_window code rows : forall w,
  fold_left (widenProgress code) rows w
  = (lowest (fst w)
       (flat_map (fun r => if String.eqb (pCode r) code then omap id (stamps r) else []) rows),
     highest (snd w)
       (flat_map (fun r => if String.eqb (pCode r) code then omap id (stamps r) else []) rows)).
Proof.
  induction rows as [|r rows IH]; intros w; [by destruct w|].
  rewrite fold_left_step, IH. cbn [flat_map]. unfold widenProgress.
  destruct (String.eqb (pCode r) code); cbn [negb]; cbv iota.
  - change (widen (widen (widen w (pTimestamp r)) (pStart r)) (pEnd r))
      with (fold_left widen (stamps r) w).
    by rewrite fold_widen, lowest_app, highest_app.
  - reflexivity.
Qed.

Lemma fold_events_window code rows : forall w,
  fold_left (widenEvent code) rows w
  = (lowest (fst w)
       (flat_map (fun r => if String.eqb (eCode r) code then omap id [eTimestamp r] else [])
          rows),
     highest (snd w)
       (flat_map (fun r => if String.eqb (eCode r) code then omap id [eTimestamp r] else [])
          rows)).
Proof.
  induction rows as [|r rows IH]; intros w; [by destruct w|].
  rewrite fold_left_step, IH. cbn [flat_map]. unfold widenEvent.
  destruct (String.eqb (eCode r) code); cbn [negb]; cbv iota.
  - change (widen w (eTimestamp r)) with (fold_left widen [eTimestamp r] w).
    by rewrite fold_widen, lowest_app, highest_app.
  - reflexivity.
Qed.

(** The cells of the session's row that open the window. *)
Lemma window_min_max ss code now :
  computeSessionWindowMs_ ss code now
  = let w0 := match findRowBySessionCode_ (sessions ss) code with
              | Some row => (createdDate row, lastActivityCell row)
              | None => (None, None)
              end in
    let m := default now (lowest (fst w0) (loggedStamps ss code)) in
    (m, Z.max m (default m (highest (snd w0) (loggedStamps ss code)))).
Proof.
  unfold computeSessionWindowMs_, loggedStamps.
  rewrite fold_progress_window, fold_events_window. cbn [fst snd].
  rewrite <- lowest_app, <- highest_app. cbv zeta.
  set (lo := lowest _ _). set (hi := highest _ _).
  destruct lo as [m|], hi as [h|]; unfold default, from_option, id;
    match goal with |- context [?a <? ?b] => destruct (Z.ltb_spec a b) end;
    f_equal; lia.
Qed.

Lemma lowest_swap a x y l : lowest a (x :: y :: l) = lowest a (y :: x :: l).
Proof. unfold lowest. cbn [fold_left]. do 2 f_equal. destruct a; lia. Qed.

Lemma highest_swap a x y l : highest a (x :: y :: l) = highest a (y :: x :: l).
Proof. unfold highest. cbn [fold_left]. do 2 f_equal. destruct a; lia. Qed.

Lemma lowest_Permutation l l' : l ≡ₚ l' -> forall a, lowest a l = lowest a l'.
Proof.
  induction 1 as [|x l l' _ IH|x y l|l l' l'' _ IH1 _ IH2]; intros a.
  - done.
  - apply IH.
  - apply lowest_swap.
  - by rewrite IH1.
Qed.

Lemma highest_Permutation l l' : l ≡ₚ l' -> forall a, highest a l = highest a l'.
Proof.
  induction 1 as [|x l l' _ IH|x y l|l l' l'' _ IH1 _ IH2]; intros a.
  - done.
  - apply IH.
  - apply highest_swap.
  - by rewrite IH1.
Qed.

Lemma flat_map_Permutation {A B} (f : A -> list B) l l' :
  l ≡ₚ l' -> flat_map f l ≡ₚ flat_map f l'.
Proof.
  induction 1 as [|x l l' _ IH|x y l|l l' l'' _ IH1 _ IH2]; cbn [flat_map].
  - done.
  - by rewrite IH.
  - rewrite !app_assoc. f_equiv. apply Permutation_app_comm.
  - by rewrite IH1.
Qed.

(** X20.  The session window does not depend on the order of the rows of
    [Task Progress] and [Session Events]: retried or late events, in
    whatever order they were appended, give the same start and end.  The
    window starts at the smallest of the row's created date and every
    logged timestamp (at the clock reading if there is none) and ends at
    the largest of the row's last activity and every logged timestamp,
    never before its start. *)
Theorem session_window_ignores_row_order (ss ss' : spreadsheet) (code : string) (now : Z) :
  sessions ss' = sessions ss -> progress ss' ≡ₚ progress ss -> events ss' ≡ₚ events ss ->
  computeSessionWindowMs_ ss' code now = computeSessionWindowMs_ ss code now /\
  sumTimes code (progress ss') = sumTimes code (progress ss).
Proof.
  intros Hs Hp He. split.
  - rewrite !window_min_max. rewrite Hs.
    assert (Hl : loggedStamps ss' code ≡ₚ loggedStamps ss code).
    { unfold loggedStamps. f_equiv; by apply flat_map_Permutation. }
    cbv zeta.
    by rewrite (lowest_Permutation _ _ Hl), (highest_Permutation _ _ Hl).
  - rewrite !sumTimes_sums. unfold rowsOf, sumZ.
    assert (Hf : List.filter (fun r => String.eqb (pCode r) code) (progress ss')
                 ≡ₚ List.filter (fun r => String.eqb (pCode r) code) (progress ss)).
    { clear -Hp. induction Hp as [|x l l' _ IH|x y l|l l' l'' _ IH1 _ IH2]; cbn [List.filter].
      - done.
      - destruct (String.eqb _ _); by rewrite IH.
      - destruct (String.eqb (pCode x) code), (String.eqb (pCode y) code);
          try done. apply perm_swap.
      - by rewrite IH1. }
    assert (Hsum : forall l l' : list Z, l ≡ₚ l' -> fold_right Z.add 0 l = fold_right Z.add 0 l').
    { clear. induction 1 as [|x l l' _ IH|x y l|l l' l'' _ IH1 _ IH2]; cbn [fold_right];
        [done|by rewrite IH|lia|by rewrite IH1]. }
    f_equal; apply Hsum; by apply Permutation_map.
Qed.

Lemma session_window_ignores_row_order_witness :
  computeSessionWindowMs_
    (mkSpreadsheet (sessions sampleSheet)
       (mkProgressRow (Some (origin - 5)) "ABCDEFGH" None None 3 0 :: progress sampleSheet)
       (events sampleSheet))
    "ABCDEFGH" origin
  = computeSessionWindowMs_
      (mkSpreadsheet (sessions sampleSheet)
         (progress sampleSheet ++ [mkProgressRow (Some (origin - 5)) "ABCDEFGH" None None 3 0])
         (events sampleSheet))
      "ABCDEFGH" origin.
Proof.
  apply (session_window_ignores_row_order
           (mkSpreadsheet (sessions sampleSheet)
              (progress sampleSheet ++
               [mkProgressRow (Some (origin - 5)) "ABCDEFGH" None None 3 0])
              (events sampleSheet))
           (mkSpreadsheet (sessions sampleSheet)
              (mkProgressRow (Some (origin - 5)) "ABCDEFGH" None None 3 0 ::
               progress sampleSheet)
              (events sampleSheet))
           "ABCDEFGH" origin eq_refl).
  - cbn [progress]. symmetry. apply Permutation_cons_append.
  - reflexivity.
Defined.

(** X21.  The window of a session is never negative and contains every
    timestamp logged for the session: the [Timestamp], [Start Time] and
    [End Time] cells of its [Task Progress] rows and the [Timestamp] cells
    of its [Session Events] rows. *)
Theorem session_window_contains_every_stamp (ss : spreadsheet) (code : string) (now : Z) :
  let win := computeSessionWindowMs_ ss code now in
  fst win <= snd win /\
  (forall r x, In r (progress ss) -> pCode r = code -> In (Some x) (stamps r) ->
               fst win <= x <= snd win) /\
  (forall r x, In r (events ss) -> eCode r = code -> eTimestamp r = Some x ->
               fst win <= x <= snd win).
Proof. apply window_contains. Qed.

End AggregatorCoverage.

Section RecomputeCoverage.

Import Aggregator.

(** A start value below the whole list is the list's lowest. *)
Lemma lowest_fixed m l : Forall (fun x => m <= x) l -> lowest (Some m) l = Some m.
Proof.
  induction 1 as [|x l Hx _ IH]; [done|].
  unfold lowest in *. cbn [fold_left]. by rewrite Z.min_l.
Qed.

Lemma highest_fixed m l : Forall (fun x => x <= m) l -> highest (Some m) l = Some m.
Proof.
  induction 1 as [|x l Hx _ IH]; [done|].
  unfold highest in *. cbn [fold_left]. by rewrite Z.max_l.
Qed.

Lemma lowest_Some x l :
  exists m, lowest (Some x) l = Some m /\ m <= x /\ Forall (fun y => m <= y) l.
Proof.
  revert x. induction l as [|v l IH]; intros x.
  - exists x. split; [done|]. split; [lia|constructor].
  - destruct (IH (Z.min x v)) as (m & H1 & H2 & H3).
    exists m. split; [exact H1|]. split; [lia|]. constructor; [lia|done].
Qed.

Lemma highest_Some x l :
  exists m, highest (Some x) l = Some m /\ x <= m /\ Forall (fun y => y <= m) l.
Proof.
  revert x. induction l as [|v l IH]; intros x.
  - exists x. split; [done|]. split; [lia|constructor].
  - destruct (IH (Z.max x v)) as (m & H1 & H2 & H3).
    exists m. split; [exact H1|]. split; [lia|]. constructor; [lia|done].
Qed.

Lemma lowest_any a l :
  (a = None /\ l = [] /\ lowest a l = None) \/
  (exists m, lowest a l = Some m /\ Forall (fun y => m <= y) l /\
             forall x, a = Some x -> m <= x).
Proof.
  destruct a as [x|].
  - right. destruct (lowest_Some x l) as (m & H1 & H2 & H3).
    exists m. split; [done|]. split; [done|]. by intros ? [= <-].
  - destruct l as [|v l]; [by left|]. right.
    destruct (lowest_Some v l) as (m & H1 & H2 & H3).
    exists m. split; [exact H1|]. split; [by constructor|done].
Qed.

Lemma highest_any a l :
  (a = None /\ l = [] /\ highest a l = None) \/
  (exists m, highest a l = Some m /\ Forall (fun y => y <= m) l /\
             forall x, a = Some x -> x <= m).
Proof.
  destruct a as [x|].
  - right. destruct (highest_Some x l) as (m & H1 & H2 & H3).
    exists m. split; [done|]. split; [done|]. by intros ? [= <-].
  - destruct l as [|v l]; [by left|]. right.
    destruct (highest_Some v l) as (m & H1 & H2 & H3).
    exists m. split; [exact H1|]. split; [by constructor|done].
Qed.

Lemma roundDiv_minutes p : roundDiv (p * 60) 60 = p.
Proof.
  unfold roundDiv. symmetry. apply (Z.div_unique _ _ _ 60); lia.
Qed.

Lemma find_row_code rows code row :
  findRowBySessionCode_ rows code = Some row ->
  String.eqb code "" = false /\ String.eqb (rowCode row) code = true /\
  List.find (fun r => String.eqb (rowCode r) code) rows = Some row.
Proof.
  unfold findRowBySessionCode_. destruct (String.eqb code ""); [discriminate|].
  intros H. split; [done|]. split; [|done]. by apply find_some in H as [_ H].
Qed.

Lemma find_putRow code new rows row :
  List.find (fun r => String.eqb (rowCode r) code) rows = Some row ->
  String.eqb (rowCode new) code = true ->
  List.find (fun r => String.eqb (rowCode r) code) (putRow code new rows) = Some new.
Proof.
  intros Hf Hn. induction rows as [|r rows IH]; [discriminate|].
  cbn [List.find putRow] in *. destruct (String.eqb (rowCode r) code) eqn:E.
  - cbn [List.find]. by rewrite Hn.
  - cbn [List.find]. rewrite E. by apply IH.
Qed.

Lemma putRow_putRow code new new' rows :
  String.eqb (rowCode new) code = true ->
  putRow code new' (putRow code new rows) = putRow code new' rows.
Proof.
  intros Hn. induction rows as [|r rows IH]; [done|].
  cbn [putRow]. destruct (String.eqb (rowCode r) code) eqn:E.
  - cbn [putRow]. by rewrite Hn.
  - cbn [putRow]. by rewrite E, IH.
Qed.

(** The pieces of the first row with the code. *)
Lemma putRow_split code new rows row :
  List.find (fun r => String.eqb (rowCode r) code) rows = Some row ->
  exists pre post,
    rows = pre ++ row :: post /\ putRow code new rows = pre ++ new :: post /\
    Forall (fun r => rowCode r <> code) pre.
Proof.
  induction rows as [|r rows IH]; [discriminate|].
  cbn [List.find putRow]. destruct (String.eqb (rowCode r) code) eqn:E.
  - intros [= ->]. exists [], rows. by repeat split.
  - intros Hf. destruct (IH Hf) as (pre & post & H1 & H2 & H3).
    exists (r :: pre), post. rewrite H1 at 1. rewrite H2. split; [done|]. split; [done|].
    constructor; [|done]. by apply String.eqb_neq.
Qed.

Lemma putRow_absent code new rows :
  List.find (fun r => String.eqb (rowCode r) code) rows = None -> putRow code new rows = rows.
Proof.
  induction rows as [|r rows IH]; [done|].
  cbn [List.find putRow]. destruct (String.eqb (rowCode r) code); [discriminate|].
  intros H. by rewrite IH.
Qed.

(** The window computed again from the healed row is the same window,
    whatever the clock says then. *)
Lemma window_again ss ss1 row code now now' :
  findRowBySessionCode_ (sessions ss) code = Some row ->
  findRowBySessionCode_ (sessions ss1) code = Some (updatedRow ss row code now) ->
  progress ss1 = progress ss -> events ss1 = events ss ->
  computeSessionWindowMs_ ss1 code now' = computeSessionWindowMs_ ss code now /\
  lastActivityCell (updatedRow ss row code now)
  = Some (snd (computeSessionWindowMs_ ss code now)).
Proof.
  intros Hf Hf1 Hp He.
  assert (Hl : loggedStamps ss1 code = loggedStamps ss code).
  { unfold loggedStamps. by rewrite Hp, He. }
  rewrite (window_min_max ss1), Hf1, Hl. cbv zeta. cbn [fst snd].
  unfold updatedRow. cbn [createdDate lastActivityCell].
  rewrite (window_min_max ss), Hf. cbv zeta. cbn [fst snd].
  set (S := loggedStamps ss code).
  set (m := default now (lowest (createdDate row) S)).
  set (e := Z.max m (default m (highest (lastActivityCell row) S))).
  assert (Hlow : lowest (match createdDate row with
                         | Some v => Some v | None => Some m end) S = Some m).
  { subst m. destruct (lowest_any (createdDate row) S) as [(Ha & Hs & Hn)|(x & Hx & Hall & Hle)].
    - by rewrite Ha, Hs.
    - rewrite Hx. cbn [default from_option id].
      destruct (createdDate row) as [v|]; [exact Hx|]. by apply lowest_fixed. }
  assert (Hhi : Forall (fun y => y <= e) S /\
                forall v, lastActivityCell row = Some v -> v <= e).
  { subst e. destruct (highest_any (lastActivityCell row) S)
      as [(Ha & Hs & Hn)|(x & Hx & Hall & Hle)].
    - rewrite Hs, Ha. split; [constructor|discriminate].
    - rewrite Hx. unfold default at 1 2, from_option, id. split.
      + eapply Forall_impl; [exact Hall|]. cbn. intros; lia.
      + intros v Hv. specialize (Hle v Hv). lia. }
  destruct Hhi as [Hall Hlast].
  assert (Hcell : match lastActivityCell row with
                  | Some v => if v <? e then Some e else Some v
                  | None => Some e
                  end = Some e).
  { destruct (lastActivityCell row) as [v|]; [|done].
    specialize (Hlast v eq_refl). destruct (Z.ltb_spec v e); [done|]. f_equal. lia. }
  rewrite Hcell, Hlow, (highest_fixed e S Hall).
  split; [|done]. cbn [default from_option id]. f_equal. subst e. lia.
Qed.

Lemma sessionRow_eta r :
  r = {| rowCode := rowCode r; createdDate := createdDate r;
         lastActivityCell := lastActivityCell r; totalTimeMin := totalTimeMin r;
         activeTimeMin := activeTimeMin r; idleTimeMin := idleTimeMin r;
         pausedTimeMin := pausedTimeMin r |}.
Proof. by destruct r. Qed.

Lemma updatedRow_again ss ss1 row code now now' :
  findRowBySessionCode_ (sessions ss) code = Some row ->
  findRowBySessionCode_ (sessions ss1) code = Some (updatedRow ss row code now) ->
  progress ss1 = progress ss -> events ss1 = events ss ->
  updatedRow ss1 (updatedRow ss row code now) code now' = updatedRow ss row code now.
Proof.
  intros Hf Hf1 Hp He.
  destruct (window_again ss ss1 row code now now' Hf Hf1 Hp He) as [Hw Hl].
  assert (Hpm : pausedTimeMin (updatedRow ss row code now) = pausedTimeMin row).
  { unfold updatedRow, recompute. cbn [pausedTimeMin pausedMin]. apply roundDiv_minutes. }
  assert (Hcr : exists v, createdDate (updatedRow ss row code now) = Some v).
  { unfold updatedRow. cbn [createdDate]. destruct (createdDate row); by eexists. }
  destruct Hcr as [v Hcr].
  etransitivity; [|symmetry; apply sessionRow_eta].
  unfold updatedRow at 1. unfold recompute at 1 2 3 4.
  cbn [totalMin activeMin idleMin pausedMin].
  rewrite Hw, Hp, Hpm, Hl, Hcr, Z.ltb_irrefl.
  f_equal.
  - unfold updatedRow, recompute. cbn [pausedTimeMin pausedMin]. by rewrite roundDiv_minutes.
Qed.

(** X22.  Recomputing twice is recomputing once.  On a sheet whose rows
    carry codes of the form [A-Z0-9]{8}, a second [updateTotalTime] for
    the same session with such a code, at any later clock reading and
    with no new rows logged in between, leaves the whole spreadsheet as
    the first one left it: the healed date cells reproduce the same
    window and the minutes written are read back unchanged. *)
Theorem updateTotalTime_idempotent (ss : spreadsheet) (code : string) (now now' : Z) :
  Store.CODE_REGEX code = true -> codedSheet ss = true ->
  updateTotalTime (updateTotalTime ss code now) code now' = updateTotalTime ss code now.
Proof.
  intros _ _. unfold updateTotalTime at 2 3.
  destruct (findRowBySessionCode_ (sessions ss) code) as [row|] eqn:Hf.
  - destruct (find_row_code _ _ _ Hf) as (Hc & Hr & Hfind).
    set (ss1 := {| sessions := putRow code (updatedRow ss row code now) (sessions ss);
                   progress := progress ss; events := events ss |}).
    assert (Hf1 : findRowBySessionCode_ (sessions ss1) code
                  = Some (updatedRow ss row code now)).
    { unfold findRowBySessionCode_. rewrite Hc. cbn [sessions ss1].
      by apply (find_putRow _ _ _ row). }
    unfold updateTotalTime. rewrite Hf1.
    rewrite (updatedRow_again ss ss1 row code now now' Hf Hf1 eq_refl eq_refl).
    cbn [sessions progress events ss1]. by rewrite putRow_putRow.
  - unfold updateTotalTime. by rewrite Hf.
Qed.

Lemma updateTotalTime_idempotent_witness :
  Store.CODE_REGEX "ABCDEFGH" = true /\ codedSheet sampleSheet = true /\
  updateTotalTime (updateTotalTime sampleSheet "ABCDEFGH" (origin + 6000000))
    "ABCDEFGH" (origin + 9000000)
  = updateTotalTime sampleSheet "ABCDEFGH" (origin + 6000000).
Proof.
  assert (Hc : Store.CODE_REGEX "ABCDEFGH" = true) by (vm_compute; reflexivity).
  assert (Hs : codedSheet sampleSheet = true) by (vm_compute; reflexivity).
  split; [exact Hc|]. split; [exact Hs|].
  exact (updateTotalTime_idempotent sampleSheet "ABCDEFGH" (origin + 6000000)
           (origin + 9000000) Hc Hs).
Defined.

(** X23.  What [updateTotalTime] writes, on a sheet whose rows carry codes
    of the form [A-Z0-9]{8} and for such a code.  Only the first
    [Sessions] row that carries the code changes; the rows before and
    after it, [Task Progress] and [Session Events] are left as they are.
    In the new row the code and the paused minutes are those of the old
    row, an existing created date is kept, the last activity is the end
    of the window, and the total, active and idle minutes are not
    negative.  A session without a row changes nothing. *)
Theorem updateTotalTime_rewrites_one_row (ss : spreadsheet) (code : string) (now : Z) :
  Store.CODE_REGEX code = true -> codedSheet ss = true ->
  let ss' := updateTotalTime ss code now in
  progress ss' = progress ss /\ events ss' = events ss /\
  ((findRowBySessionCode_ (sessions ss) code = None /\ sessions ss' = sessions ss) \/
   (exists pre row row' post,
      sessions ss = pre ++ row :: post /\ sessions ss' = pre ++ row' :: post /\
      Forall (fun r => rowCode r <> code) pre /\
      rowCode row = code /\ rowCode row' = code /\
      pausedTimeMin row' = pausedTimeMin row /\
      (forall v, createdDate row = Some v -> createdDate row' = Some v) /\
      lastActivityCell row' = Some (snd (computeSessionWindowMs_ ss code now)) /\
      0 <= totalTimeMin row' /\ 0 <= activeTimeMin row' /\ 0 <= idleTimeMin row')).
Proof.
  intros _ _. cbv zeta. unfold updateTotalTime.
  destruct (findRowBySessionCode_ (sessions ss) code) as [row|] eqn:Hf.
  - cbn [progress events sessions]. split; [done|]. split; [done|]. right.
    destruct (find_row_code _ _ _ Hf) as (Hc & Hr & Hfind).
    destruct (putRow_split code (updatedRow ss row code now) _ _ Hfind)
      as (pre & post & H1 & H2 & H3).
    exists pre, row, (updatedRow ss row code now), post.
    pose proof Hr as Hrb. apply String.eqb_eq in Hr.
    split; [exact H1|]. split; [exact H2|]. split; [exact H3|].
    split; [exact Hr|]. split; [exact Hr|].
    split; [apply roundDiv_minutes|].
    split; [intros v Hv; unfold updatedRow; cbn [createdDate]; by rewrite Hv|].
    split.
    { assert (Hf1 : findRowBySessionCode_
                      (sessions {| sessions := putRow code (updatedRow ss row code now)
                                                 (sessions ss);
                                   progress := progress ss; events := events ss |}) code
                    = Some (updatedRow ss row code now)).
      { unfold findRowBySessionCode_. rewrite Hc. cbn [sessions].
        apply (find_putRow _ _ _ row); [exact Hfind|exact Hrb]. }
      exact (proj2 (window_again ss _ row code now now Hf Hf1 eq_refl eq_refl)). }
    unfold updatedRow, recompute.
    cbn [totalTimeMin activeTimeMin idleTimeMin totalMin activeMin idleMin].
    rewrite sumTimes_sums. cbn [fst].
    assert (Hpos : forall l : list Z, Forall (fun x => 0 <= x) l -> 0 <= sumZ l).
    { induction 1; cbn; [lia|]. unfold sumZ in *. lia. }
    assert (Hrd : forall n, 0 <= n -> 0 <= roundDiv n 60).
    { intros n Hn. unfold roundDiv. apply Z.div_pos; lia. }
    split; [apply Hrd; lia|]. split; [|apply Hrd; lia].
    apply Hrd, Hpos. apply Forall_map, Forall_forall. intros r _. cbn.
    unfold positivePart. destruct (Z.gtb_spec (pActiveSec r) 0); lia.
  - split; [done|]. split; [done|]. by left.
Qed.

Lemma updateTotalTime_rewrites_one_row_witness :
  Store.CODE_REGEX "ABCDEFGH" = true /\ codedSheet sampleSheet = true /\
  progress (updateTotalTime sampleSheet "ABCDEFGH" (origin + 6000000))
  = progress sampleSheet /\
  events (updateTotalTime sampleSheet "ABCDEFGH" (origin + 6000000)) = events sampleSheet.
Proof.
  assert (Hc : Store.CODE_REGEX "ABCDEFGH" = true) by (vm_compute; reflexivity).
  assert (Hs : codedSheet sampleSheet = true) by (vm_compute; reflexivity).
  split; [exact Hc|]. split; [exact Hs|].
  destruct (updateTotalTime_rewrites_one_row sampleSheet "ABCDEFGH" (origin + 6000000) Hc Hs)
    as (H1 & H2 & _).
  split; [exact H1|exact H2].
Defined.

End RecomputeCoverage.

(** ** Task counts *)

Section CompletionCoverage.

Import Text Store Completion.

Lemma builtin_key_not_inherited k : key (Builtin k) ∉ inheritedKeys.
Proof.
  unfold key, inheritedKeys.
  destruct (String.eqb k "__proto__"); [|destruct (String.eqb k "constructor")];
    intros H; cbn [String.append] in H;
    repeat (apply elem_of_cons in H as [H|H]; [discriminate H|]);
    by apply elem_of_nil in H.
Qed.

Lemma builtin_key_no_alias k : lookupAlias (key (Builtin k)) aliases = None.
Proof.
  unfold key.
  destruct (String.eqb k "__proto__"); [reflexivity|].
  destruct (String.eqb k "constructor"); reflexivity.
Qed.

Lemma normalize_builtin k : normalizeTaskName_ (Builtin k) = Builtin k.
Proof.
  unfold normalizeTaskName_. rewrite builtin_key_no_alias.
  by rewrite bool_decide_eq_false_2 by apply builtin_key_not_inherited.
Qed.

(** The values of the alias table are neither alias keys nor inherited
    names. *)
Lemma lookupAlias_value s v :
  lookupAlias s aliases = Some v ->
  lookupAlias v aliases = None /\ (v ∉ inheritedKeys) /\ v <> "__proto__"%string.
Proof.
  unfold aliases. cbn [lookupAlias].
  repeat (destruct (String.eqb _ s);
          [intros [= <-]; split; [reflexivity|];
           split; [apply (bool_decide_unpack _); vm_compute; exact I|discriminate]|]).
  discriminate.
Qed.

Lemma inherited_no_alias s : s ∈ inheritedKeys -> lookupAlias s aliases = None.
Proof.
  unfold inheritedKeys. intros H.
  repeat (apply elem_of_cons in H as [->|H]; [reflexivity|]).
  by apply elem_of_nil in H.
Qed.

(** Normalising twice is normalising once. *)
Lemma normalize_idempotent v :
  normalizeTaskName_ (normalizeTaskName_ v) = normalizeTaskName_ v.
Proof.
  unfold normalizeTaskName_ at 2.
  destruct (lookupAlias (key v) aliases) as [a|] eqn:Ha.
  - destruct (lookupAlias_value _ _ Ha) as (Hn & Hi & _).
    unfold normalizeTaskName_. cbn [key]. rewrite Hn.
    by rewrite (bool_decide_eq_false_2 _ Hi), Ha.
  - destruct (bool_decide (key v ∈ inheritedKeys)) eqn:Hi.
    + rewrite normalize_builtin. unfold normalizeTaskName_. by rewrite Ha, Hi.
    + reflexivity.
Qed.

(** The key of a normalised name is never an inherited name. *)
Lemma normalize_key_plain s : key (normalizeTaskName_ (Str s)) ∉ inheritedKeys.
Proof.
  unfold normalizeTaskName_. cbn [key].
  destruct (lookupAlias s aliases) as [a|] eqn:Ha.
  - by destruct (lookupAlias_value _ _ Ha) as (_ & Hi & _).
  - destruct (bool_decide (s ∈ inheritedKeys)) eqn:Hi.
    + apply builtin_key_not_inherited.
    + by apply bool_decide_eq_false in Hi.
Qed.

Lemma normalize_key_not_proto s : key (normalizeTaskName_ (Str s)) <> "__proto__"%string.
Proof.
  intros H. apply (normalize_key_plain s). rewrite H.
  apply (bool_decide_unpack _). vm_compute. exact I.
Qed.

(** X24.  [normalizeTaskName_] maps every name to a fixed point of itself, and
    the names under which the client reports its seven tasks are fixed
    points: the aggregator counts them as they are sent. *)
Theorem server_keeps_client_task_names (v : value) (code : string) :
  normalizeTaskName_ (normalizeTaskName_ v) = normalizeTaskName_ v /\
  (forall t, TASKS !! code = Some t ->
     normalizeTaskName_ (Str (getStandardTaskName code)) = Str (getStandardTaskName code)) /\
  (normalizeTaskName_ (Str "RC") = Str (getStandardTaskName "RC") /\
   normalizeTaskName_ (Str "MRT") = Str (getStandardTaskName "MRT")).
Proof.
  split; [apply normalize_idempotent|]. split; [|by split].
  intros t Ht. unfold getStandardTaskName. rewrite Ht.
  assert (Hk : code ∈ ["RC"; "MRT"; "ASLCT"; "VCN"; "SN"; "ID"; "DEMO"]%string).
  { destruct (decide (code ∈ ["RC"; "MRT"; "ASLCT"; "VCN"; "SN"; "ID"; "DEMO"]%string))
      as [|Hn]; [done|]. exfalso.
    unfold TASKS in Ht.
    repeat (rewrite lookup_insert_ne in Ht
              by (intros <-; apply Hn; apply (bool_decide_unpack _); vm_compute; exact I)).
    by rewrite lookup_empty in Ht. }
  repeat (apply elem_of_cons in Hk as [->|Hk];
          [vm_compute in Ht; injection Ht as <-; reflexivity|]).
  by apply elem_of_nil in Hk.
Qed.

Lemma assign_str o n : n <> "__proto__"%string -> assign o (Str n) = {[n]} ∪ o.
Proof.
  intros Hn. unfold assign. cbn [key].
  by rewrite (proj2 (String.eqb_neq n "__proto__") Hn).
Qed.

(** A name that [normalizeTaskName_] leaves alone and that can be a key. *)
Lemma requiredSetOf_from names : forall acc : keySet,
  Forall (fun n => normalizeTaskName_ (Str n) = Str n /\ n <> "__proto__"%string) names ->
  fold_left (fun o t => assign o (normalizeTaskName_ t))
    (map (fun t => normalizeTaskName_ (Str t)) names) acc
  = list_to_set names ∪ acc.
Proof.
  induction names as [|n names IH]; intros acc Hall.
  - cbn. by rewrite (left_id_L ∅ (∪)).
  - inversion_clear Hall as [|? ? [Hn Hp] Hrest].
    cbn [map]. rewrite fold_left_step, normalize_idempotent, Hn, (assign_str _ _ Hp).
    rewrite (IH _ Hrest). cbn [list_to_set].
    apply set_eq. intros y. rewrite !elem_of_union. tauto.
Qed.

Lemma requiredNames_plain m o :
  Forall (fun n => normalizeTaskName_ (Str n) = Str n /\ n <> "__proto__"%string)
    (requiredNames m o) /\
  NoDup (requiredNames m o).
Proof.
  destruct m, o; split;
    try (apply (bool_decide_unpack _); vm_compute; exact I);
    repeat (constructor; [split; [vm_compute; reflexivity|discriminate]|]); constructor.
Qed.

Lemma builtin_key_not_required k m o : key (Builtin k) ∉ requiredNames m o.
Proof.
  unfold key.
  destruct (String.eqb k "__proto__"); [|destruct (String.eqb k "constructor")];
    destruct m, o; intros H; vm_compute in H;
    repeat (apply elem_of_cons in H as [H|H]; [discriminate H|]);
    by apply elem_of_nil in H.
Qed.

Lemma requiredSetOf_required ss code :
  requiredSetOf (getRequiredTasksForSession_ ss code) = list_to_set (requiredFor ss code).
Proof.
  unfold requiredSetOf, getRequiredTasksForSession_, requiredFor.
  rewrite requiredSetOf_from by apply requiredNames_plain.
  by rewrite (right_id_L ∅ (∪)).
Qed.

(** A normalised name passes the test [requiredSet[taskName]] exactly
    when it is one of the required names. *)
Lemma holds_required ss code s :
  holds (list_to_set (requiredFor ss code)) (normalizeTaskName_ (Str s)) = true <->
  exists name, name ∈ requiredFor ss code /\ normalizeTaskName_ (Str s) = Str name.
Proof.
  unfold holds.
  rewrite (bool_decide_eq_false_2 _ (normalize_key_plain s)), orb_false_r.
  rewrite bool_decide_eq_true, elem_of_list_to_set.
  split.
  - intros Hin. exists (key (normalizeTaskName_ (Str s))). split; [exact Hin|].
    destruct (normalizeTaskName_ (Str s)) as [a|k]; [done|].
    exfalso. revert Hin. apply builtin_key_not_required.
  - intros (name & Hin & ->). exact Hin.
Qed.

Lemma reports_spec code name r :
  reports code name r <->
  String.eqb (tCode r) code = true /\
  String.eqb (tEvent r) "Completed" || String.eqb (tEvent r) "Skipped" = true /\
  normalizeTaskName_ (Str (tTask r)) = Str name.
Proof.
  unfold reports. rewrite orb_true_iff, !String.eqb_eq. tauto.
Qed.

Lemma countRow_spec ss code C r k :
  k ∈ countRow code (list_to_set (requiredFor ss code)) C r <->
  k ∈ C \/ (k ∈ requiredFor ss code /\ reports code k r).
Proof.
  rewrite reports_spec. unfold countRow.
  destruct (String.eqb (tCode r) code); cbn [negb]; cbv iota; [|intuition congruence].
  destruct (String.eqb (tEvent r) "Completed" || String.eqb (tEvent r) "Skipped");
    cbn [andb]; [|intuition congruence].
  destruct (holds _ _) eqn:Hh.
  - apply holds_required in Hh as (name & Hin & Hn). rewrite Hn.
    assert (Hp : name <> "__proto__"%string).
    { intros ->. apply (normalize_key_not_proto (tTask r)). by rewrite Hn. }
    rewrite (assign_str _ _ Hp), elem_of_union, elem_of_singleton.
    split.
    + intros [->|?]; [right|by left]. by repeat split.
    + intros [?|(_ & _ & _ & [= ->])]; [by right|by left].
  - split; [by left|]. intros [?|(Hin & _ & _ & Hn)]; [done|].
    exfalso. assert (Ht : holds (list_to_set (requiredFor ss code))
                            (normalizeTaskName_ (Str (tTask r))) = true)
      by (apply holds_required; by exists k).
    congruence.
Qed.

Lemma fold_countRow_spec ss code rows : forall C k,
  k ∈ fold_left (countRow code (list_to_set (requiredFor ss code))) rows C <->
  k ∈ C \/ (k ∈ requiredFor ss code /\ exists r, r ∈ rows /\ reports code k r).
Proof.
  induction rows as [|r rows IH]; intros C k.
  - cbn. split; [by left|]. intros [?|(_ & r & Hr & _)]; [done|]. by apply elem_of_nil in Hr.
  - rewrite fold_left_step, IH, countRow_spec. split.
    + intros [[?|[Hin Hr]]|(Hin & r' & Hr' & Hrep)]; [by left| |].
      * right. split; [done|]. exists r. split; [by left|done].
      * right. split; [done|]. exists r'. split; [by right|done].
    + intros [?|(Hin & r' & Hr' & Hrep)]; [by left; left|].
      apply elem_of_cons in Hr' as [->|Hr'].
      * left. right. by split.
      * right. split; [done|]. by exists r'.
Qed.

Lemma counts_parts ss code :
  let R : keySet := list_to_set (requiredFor ss code) in
  let C := fold_left (countRow code R) (taskRows ss) ∅ in
  updateCompletedTasksCount ss code
  = {| completedCount := size C; requiredTotal := size R;
       tasksCompleted := (pretty (size C) ++ "/" ++ pretty (size R))%string;
       status := if (size C =? size R)%nat then "Complete"%string else "Active"%string |}.
Proof. cbv zeta. unfold updateCompletedTasksCount. by rewrite requiredSetOf_required. Qed.

(** X25.  The count never exceeds the number of required tasks, which is the
    length of the required list (6 on desktop, 5 on mobile, one less when
    the ASL test was skipped for not knowing ASL); and the status is
    [Complete] exactly when every required task has a [Completed] or
    [Skipped] row of the session, under its own name or an alias.  Rows of
    other sessions, other events and tasks that are not required (Image
    Description among them) do not count. *)
Theorem completed_count_is_bounded (ss : workbook) (code : string) :
  let r := updateCompletedTasksCount ss code in
  (completedCount r <= requiredTotal r)%nat /\
  requiredTotal r = length (requiredFor ss code) /\
  (status r = "Complete"%string <->
   forall name, name ∈ requiredFor ss code ->
                exists row, row ∈ taskRows ss /\ reports code name row) /\
  (status r = "Complete"%string \/ status r = "Active"%string).
Proof.
  cbv zeta. rewrite counts_parts. cbv zeta. cbn [completedCount requiredTotal status].
  set (R := list_to_set (requiredFor ss code) : keySet).
  set (C := fold_left (countRow code R) (taskRows ss) ∅).
  assert (HC : forall k, k ∈ C <->
            k ∈ requiredFor ss code /\ exists r, r ∈ taskRows ss /\ reports code k r).
  { intros k. unfold C, R. rewrite fold_countRow_spec, elem_of_empty. tauto. }
  assert (Hsub : C ⊆ R).
  { intros k Hk. apply HC in Hk as [Hk _]. by apply elem_of_list_to_set. }
  assert (Hsize : size R = length (requiredFor ss code)).
  { unfold R. apply size_list_to_set, requiredNames_plain. }
  split; [by apply subseteq_size|]. split; [exact Hsize|]. split.
  - destruct (Nat.eqb_spec (size C) (size R)) as [He|Hne].
    + split; [intros _|done].
      assert (Heq : C = R) by (apply set_subseteq_size_eq; [done|lia]).
      intros name Hin. apply (HC name). rewrite Heq. by apply elem_of_list_to_set.
    + split; [discriminate|]. intros Hall. exfalso. apply Hne.
      f_equal. apply set_eq. intros k. split; [apply Hsub|].
      intros Hk%elem_of_list_to_set. apply HC. split; [done|]. by apply Hall.
  - destruct (size C =? size R)%nat; [by left|by right].
Qed.

Lemma existsb_same {A} (f : A -> bool) (l l' : list A) :
  (forall x, x ∈ l' <-> x ∈ l) -> existsb f l' = existsb f l.
Proof.
  intros H. apply eq_true_iff_eq. rewrite !existsb_exists.
  split; intros (x & Hx & Hf); exists x; split; try done;
    apply list_elem_of_In, H, list_elem_of_In, Hx.
Qed.

(** X26.  The values written depend on which rows the sheet holds, not on
    their order or multiplicity: a retried event that was appended twice,
    or events that arrived out of order, give the same count and status. *)
Theorem completed_count_ignores_duplicates (ss ss' : workbook) (code : string) :
  infoRows ss' = infoRows ss ->
  (forall r, r ∈ taskRows ss' <-> r ∈ taskRows ss) ->
  updateCompletedTasksCount ss' code = updateCompletedTasksCount ss code.
Proof.
  intros Hi Hr.
  assert (Hreq : requiredFor ss' code = requiredFor ss code).
  { unfold requiredFor, sessionIsMobile, aslctOptional.
    by rewrite Hi, (existsb_same _ _ _ Hr). }
  rewrite !counts_parts. cbv zeta. rewrite Hreq.
  set (R := list_to_set (requiredFor ss code) : keySet).
  assert (HC : fold_left (countRow code R) (taskRows ss') ∅
               = fold_left (countRow code R) (taskRows ss) ∅).
  { apply set_eq. intros k. unfold R.
    rewrite !fold_countRow_spec. setoid_rewrite Hr. reflexivity. }
  by rewrite HC.
Qed.

Lemma completed_count_ignores_duplicates_witness :
  updateCompletedTasksCount
    (mkWorkbook [mkSessionInfo "ABCDEFGH" "Desktop"]
       [mkTaskRow "ABCDEFGH" "MRT" "Completed" "";
        mkTaskRow "ABCDEFGH" "Reading Comprehension Task" "Skipped" "";
        mkTaskRow "ABCDEFGH" "MRT" "Completed" ""])
    "ABCDEFGH"
  = updateCompletedTasksCount
      (mkWorkbook [mkSessionInfo "ABCDEFGH" "Desktop"]
         [mkTaskRow "ABCDEFGH" "Reading Comprehension Task" "Skipped" "";
          mkTaskRow "ABCDEFGH" "MRT" "Completed" ""])
      "ABCDEFGH".
Proof.
  apply completed_count_ignores_duplicates; [reflexivity|].
  intros r. cbn [taskRows]. rewrite !elem_of_cons. tauto.
Defined.

Lemma elem_of_buildSequence c mobile seed :
  c ∈ Sequencer.deviceTasks mobile -> c ∈ Sequencer.buildSequence mobile seed.
Proof.
  intros Hc. unfold Sequencer.buildSequence, Sequencer.ensureDemographicsLast.
  apply elem_of_app. left. apply list_elem_of_filter. split.
  - intros ->. by apply (demo_not_in_deviceTasks mobile).
  - by rewrite shuffleWithSeed_Permutation.
Qed.

Lemma demo_in_buildSequence mobile seed :
  Sequencer.DEMO ∈ Sequencer.buildSequence mobile seed.
Proof.
  unfold Sequencer.buildSequence, Sequencer.ensureDemographicsLast.
  apply elem_of_app. right. by apply list_elem_of_singleton.
Qed.

Lemma sessionIsMobile_label ss code (mobile : bool) :
  deviceTypeOf (infoRows ss) code = (if mobile then "Mobile/Tablet" else "Desktop")%string ->
  sessionIsMobile ss code = mobile.
Proof. unfold sessionIsMobile. intros ->. by destruct mobile. Qed.

(** X27.  Client and aggregator agree on what a session owes.  For a session
    whose [Device Type] cell holds the label the script writes for its
    device class, every task that the aggregator requires is the standard
    name of a task of the client's sequence for that class, whatever the
    seed.  Image Description is in every client sequence and is never
    required. *)
Theorem required_tasks_are_offered (mobile : bool) (seed : Z) (ss : workbook)
    (code : string) :
  deviceTypeOf (infoRows ss) code = (if mobile then "Mobile/Tablet" else "Desktop")%string ->
  (forall name, name ∈ requiredFor ss code ->
     exists c, c ∈ Sequencer.buildSequence mobile seed /\ getStandardTaskName c = name) /\
  (getStandardTaskName "ID" ∉ requiredFor ss code) /\
  ("ID" : string) ∈ Sequencer.buildSequence mobile seed.
Proof.
  intros Hd. unfold requiredFor. rewrite (sessionIsMobile_label ss code mobile Hd).
  assert (Hin : forall c, bool_decide (c ∈ Sequencer.deviceTasks mobile) = true ->
                          c ∈ Sequencer.buildSequence mobile seed).
  { intros c Hc. apply elem_of_buildSequence. by apply bool_decide_eq_true in Hc. }
  pose proof (demo_in_buildSequence mobile seed) as Hdemo.
  split; [|split].
  - intros name Hn.
    destruct mobile, (aslctOptional (taskRows ss) code); vm_compute in Hn;
      repeat (apply elem_of_cons in Hn as [->|Hn];
              [first [ exists "RC"%string; split; [by apply Hin|reflexivity]
                     | exists "MRT"%string; split; [by apply Hin|reflexivity]
                     | exists "ASLCT"%string; split; [by apply Hin|reflexivity]
                     | exists "VCN"%string; split; [by apply Hin|reflexivity]
                     | exists "SN"%string; split; [by apply Hin|reflexivity]
                     | exists "DEMO"%string; split; [exact Hdemo|reflexivity] ]|]);
      by apply elem_of_nil in Hn.
  - destruct mobile, (aslctOptional (taskRows ss) code);
      apply (bool_decide_unpack _); vm_compute; exact I.
  - apply Hin. by destruct mobile.
Qed.

Lemma required_tasks_are_offered_witness :
  exists c, c ∈ Sequencer.buildSequence false (Sequencer.sessionSeed "ABCDEFGH") /\
            getStandardTaskName c = "Virtual Campus Navigation"%string.
Proof.
  apply (required_tasks_are_offered false (Sequencer.sessionSeed "ABCDEFGH")
           (mkWorkbook [mkSessionInfo "ABCDEFGH" "Desktop"] []) "ABCDEFGH" eq_refl).
  apply (bool_decide_unpack _). vm_compute. exact I.
Defined.

End CompletionCoverage.

(** ** Heartbeat of an external task *)

Section DepartureCoverage.

Import Departure.

Lemma signals_send s m : signals (send s m) = signals m ++ [s].
Proof. reflexivity. Qed.

Lemma count_snoc (f : signal -> bool) l s :
  length (List.filter f (l ++ [s])) = (length (List.filter f l) + if f s then 1 else 0)%nat.
Proof.
  rewrite List.filter_app, length_app. cbn [List.filter]. by destruct (f s).
Qed.

(** Every stuck message was sent after more than ten minutes away, and
    there are no more of them than returns, plus one while the current
    absence has been reported. *)
Lemma react_counts m e :
  let ok s := match s with ExternalTaskStuck _ away _ => 600 <= away | _ => True end in
  let bound m :=
    (length (List.filter isStuck (signals m))
     <= length (List.filter isReturned (signals m)) + if externalNotified m then 1 else 0)%nat in
  Forall ok (signals m) -> bound m ->
  Forall ok (signals (react m e)) /\ bound (react m e).
Proof.
  cbv beta zeta. intros Hok Hb.
  destruct e as [task tp sp departAt sentAt id|task tr sr now1 now2 sentAt
                 |now stuckAt beatAt|v]; cbn [react].
  - unfold blur. cbn [currentTaskType withTimers].
    destruct (String.eqb (currentTaskType m) "external"); [|by split].
    unfold startHeartbeat. cbn [heartbeatInterval send withDepart withTimers].
    destruct (Timer.truthy (heartbeatInterval m));
      cbn [signals externalNotified send withDepart withTimers];
      rewrite !count_snoc; cbn [isStuck isReturned]; rewrite !Nat.add_0_r;
      (split; [apply Forall_app; split; [done|by repeat constructor]|done]).
  - unfold focus. cbn [currentTaskType externalDepart withTimers].
    destruct (String.eqb (currentTaskType m) "external" && Timer.truthy (externalDepart m));
      [|by split].
    unfold stopHeartbeat. cbn [heartbeatInterval send withDepart withTimers].
    destruct (Timer.truthy (heartbeatInterval m));
      cbn [signals externalNotified send withDepart withTimers];
      rewrite !count_snoc; cbn [isStuck isReturned];
      (split; [apply Forall_app; split; [done|by repeat constructor]|]);
      destruct (externalNotified m); lia.
  - unfold beat. destruct (negb (Timer.truthy (heartbeatInterval m))); [by split|].
    destruct (Timer.truthy (externalDepart m) &&
              (now - Timer.num (externalDepart m) >? 600000) &&
              negb (externalNotified m)) eqn:E.
    + apply andb_prop in E as [[_ Ha]%andb_prop Hn].
      apply negb_true_iff in Hn. rewrite Hn in Hb.
      apply Z.gtb_lt in Ha.
      cbn [signals externalNotified send withNotified heartbeatTask].
      rewrite !List.filter_app, !length_app. cbn [List.filter isStuck isReturned length].
      split; [|lia].
      apply Forall_app. split; [apply Forall_app; split; [done|]|by repeat constructor].
      constructor; [|constructor]. unfold Aggregator.roundDiv.
      apply Z.div_le_lower_bound; lia.
    + cbn [signals externalNotified send]. rewrite !count_snoc. cbn [isStuck isReturned].
      rewrite !Nat.add_0_r.
      split; [apply Forall_app; split; [done|by repeat constructor]|done].
  - by split.
Qed.

(** X28.  The stuck message is sent at most once per absence.  Whatever blur,
    focus and heartbeat events reach the page and whatever the task type
    is set to in between, the number of [external_task_stuck] messages
    never exceeds the number of [task_returned] messages by more than one,
    and each of them reports at least 600 seconds away. *)
Theorem stuck_is_reported_once_per_absence (m : monitor) (es : list departureEvent) :
  signals m = [] ->
  let m' := fold_left react es m in
  (length (List.filter isStuck (signals m'))
   <= length (List.filter isReturned (signals m')) + 1)%nat /\
  Forall (fun s => match s with ExternalTaskStuck _ away _ => 600 <= away | _ => True end)
    (signals m').
Proof.
  intros H0. cbv zeta.
  assert (H : Forall (fun s => match s with
                               | ExternalTaskStuck _ away _ => 600 <= away
                               | _ => True
                               end) (signals (fold_left react es m)) /\
              (length (List.filter isStuck (signals (fold_left react es m)))
               <= length (List.filter isReturned (signals (fold_left react es m))) +
                  if externalNotified (fold_left react es m) then 1 else 0)%nat).
  { assert (Hm : Forall (fun s => match s with
                                  | ExternalTaskStuck _ away _ => 600 <= away
                                  | _ => True
                                  end) (signals m) /\
                 (length (List.filter isStuck (signals m))
                  <= length (List.filter isReturned (signals m)) +
                     if externalNotified m then 1 else 0)%nat).
    { rewrite H0. split; [constructor|cbn; lia]. }
    clear H0. revert m Hm. induction es as [|e es IH]; intros m [H1 H2]; [by split|].
    rewrite fold_left_step. apply IH. by apply react_counts. }
  destruct H as [H1 H2]. split; [|exact H1].
  destruct (externalNotified (fold_left react es m)); lia.
Qed.

Lemma stuck_is_reported_once_per_absence_witness :
  signals awayMonitor = [] /\
  (length (List.filter isStuck (signals (fold_left react lateBeats awayMonitor)))
   <= length (List.filter isReturned (signals (fold_left react lateBeats awayMonitor))) + 1)%nat.
Proof.
  split; [reflexivity|].
  exact (proj1 (stuck_is_reported_once_per_absence awayMonitor lateBeats eq_refl)).
Defined.

End DepartureCoverage.

(** ** Time charged to tasks and pauses *)

Section ChargeCoverage.

Import Sequencer Text Store Study.

(** X29.  The time charged for a task is wall-clock time.  When a task
    of [TASKS] is started at [t1] and completed by a [completeTask] whose
    [stop()] stores the non-zero instant [e], [state.totalTimeSpent] grows
    by exactly [e - t1], whatever ticks, input events, pauses and resumes
    reached the task timer in between: paused, hidden and inactive time is
    charged like active time. *)
Theorem task_time_is_wall_clock (x : string) (task : task) (t1 t2 t3 id sentAt : Z)
    (cs : list Timer.call) (c : completion) (w : world) :
  TASKS !! x = Some task ->
  forallb Timer.isMutator cs = true ->
  stopAt2 c <> 0 ->
  let started := startTask x t1 t2 t3 id sentAt w in
  let worked := setTaskTimer (Timer.run (taskTimer started) cs) started in
  totalTimeSpent (state (completeTask x c worked))
  = totalTimeSpent (state w) + (stopAt2 c - t1).
Proof.
  intros Ht Hcs He. cbv zeta.
  match goal with
  | |- totalTimeSpent (state (completeTask x c ?w0)) = _ =>
      destruct (completeTask_progress x c w0 task Ht) as (_ & _ & _ & _ & ->)
  end.
  cbv zeta. unfold startTask. rewrite Ht. cbn [state taskTimer setTaskTimer sendToSheets setState].
  cbn [totalTimeSpent withCurrentTaskType]. f_equal.
  match goal with
  | |- Timer.elapsed (Timer.getSummary _ _ (Timer.stop _ _ (Timer.run ?t0 cs))) = _ =>
      destruct (run_frame cs t0 Hcs) as [Hs _];
      destruct (getSummary_span (summaryAt1 c) (summaryAt2 c)
                  (Timer.stop (stopAt1 c) (stopAt2 c) (Timer.run t0 cs))) as (_ & _ & ->)
  end.
  unfold Timer.endOr. cbn [Timer.endTime Timer.startTime Timer.stop]. rewrite Hs.
  cbn [Timer.startTime Timer.start Timer.truthy].
  rewrite (proj2 (Z.eqb_neq _ _) He). by cbn.
Qed.

Lemma task_time_is_wall_clock_witness :
  totalTimeSpent (state completedOnce) = totalTimeSpent (state createdPage) + (sec 60 - origin).
Proof.
  exact (task_time_is_wall_clock "VCN" (mkTask "Virtual Campus Navigation" external true 20 true)
           origin origin origin 1 origin [] (completionAt 60) createdPage
           ltac:(vm_compute; reflexivity) eq_refl ltac:(vm_compute; discriminate)).
Defined.

Lemma pause_then_resume reason p r1 r2 r3 t :
  Timer.isPaused t = false ->
  let t' := Timer.resume r1 r2 r3 (Timer.pause reason p t) in
  Timer.activeTime t' = Timer.activeTime t /\
  Timer.inactivityTime t' = Timer.inactivityTime t /\
  Timer.pausedTime t'
  = (if String.eqb reason "manual" && negb (p =? 0)
     then Timer.pausedTime t + (r1 - p) else Timer.pausedTime t).
Proof.
  intros Hp. cbv zeta. unfold Timer.pause. rewrite Hp. cbn [negb]. cbv iota.
  unfold Timer.resume, Timer.isReason. by cbn.
Qed.

(** X30.  A pause taken with [saveAndExit] is counted by the state but
    not by the timers.  On a page whose session timer is started and
    running, [pauseStudy] followed by [resumeStudy] adds the paused
    stretch to [sessionTimer.pausedTime]; [saveAndExit] followed by
    [resumeStudy] adds nothing to it, although [state.totalPausedTime]
    grows in both cases.  Neither touches the timer's [activeTime] and
    [inactivityTime]. *)
Theorem exit_pause_is_not_timed (c : pausing) (r : resuming) (p : page) :
  Timer.truthy (Timer.startTime (sessionTimer (base p))) = true ->
  Timer.isPaused (sessionTimer (base p)) = false ->
  sessionPausedAt c <> 0 ->
  let t := sessionTimer (base p) in
  let manual := sessionTimer (base (resumeStudy r (pauseStudy c p))) in
  let left := sessionTimer (base (resumeStudy r (saveAndExit c p))) in
  Timer.pausedTime manual
  = Timer.pausedTime t + ((sessionResumedAt r).1.1 - sessionPausedAt c) /\
  Timer.pausedTime left = Timer.pausedTime t /\
  Timer.activeTime manual = Timer.activeTime t /\
  Timer.activeTime left = Timer.activeTime t /\
  Timer.inactivityTime manual = Timer.inactivityTime t /\
  Timer.inactivityTime left = Timer.inactivityTime t.
Proof.
  intros Hs Hp Hz. cbv zeta.
  assert (H : forall (leaving : bool),
            sessionTimer (base (resumeStudy r (if leaving then saveAndExit c p
                                               else pauseStudy c p)))
            = Timer.resume (sessionResumedAt r).1.1 (sessionResumedAt r).1.2
                (sessionResumedAt r).2
                (Timer.pause (if leaving then "exit" else "manual") (sessionPausedAt c)
                   (sessionTimer (base p)))).
  { intros leaving. unfold resumeStudy. cbn [base]. rewrite saveState_sessionTimer.
    cbn [sessionTimer setSessionTimer setTaskTimer setState]. unfold resumeTimer.
    destruct (sessionResumedAt r) as [[r1 r2] r3]. cbn [fst snd].
    assert (Hpt : sessionTimer (base (if leaving then saveAndExit c p else pauseStudy c p))
                  = Timer.pause (if leaving then "exit" else "manual") (sessionPausedAt c)
                      (sessionTimer (base p))).
    { destruct leaving; unfold saveAndExit, pauseStudy; cbn [base];
        rewrite saveState_sessionTimer, pauseTimers_sessionTimer;
        cbn [sessionTimer setState]; by rewrite Hs. }
    rewrite Hpt. destruct (pause_span (if leaving then "exit" else "manual")
                             (sessionPausedAt c) (sessionTimer (base p))) as [-> _].
    by rewrite Hs. }
  rewrite (H true), (H false).
  destruct (pause_then_resume "manual" (sessionPausedAt c) (sessionResumedAt r).1.1
              (sessionResumedAt r).1.2 (sessionResumedAt r).2 _ Hp) as (A1 & I1 & P1).
  destruct (pause_then_resume "exit" (sessionPausedAt c) (sessionResumedAt r).1.1
              (sessionResumedAt r).1.2 (sessionResumedAt r).2 _ Hp) as (A2 & I2 & P2).
  cbv zeta in *. rewrite A1, A2, I1, I2, P1, P2.
  rewrite (proj2 (Z.eqb_neq _ _) Hz). by cbn.
Qed.

Lemma exit_pause_is_not_timed_witness :
  Timer.pausedTime
    (sessionTimer
       (base (resumeStudy (resumingAt 900) (saveAndExit (pausingAt 700)
                (mkPage (fst (resumeSession (Some "ABCDEFGH"%string) "" sampleResumption
                                reloadedPage)) [])))))
  = Timer.pausedTime
      (sessionTimer (fst (resumeSession (Some "ABCDEFGH"%string) "" sampleResumption
                            reloadedPage))).
Proof.
  destruct (exit_pause_is_not_timed (pausingAt 700) (resumingAt 900)
              (mkPage (fst (resumeSession (Some "ABCDEFGH"%string) "" sampleResumption
                              reloadedPage)) [])
              ltac:(vm_compute; reflexivity) ltac:(vm_compute; reflexivity)
              ltac:(vm_compute; discriminate)) as (_ & H & _).
  exact H.
Defined.

End ChargeCoverage.
